(** * The response-orchestration engine of the storytelling assistant

    A shallow embedding of [storyteller.py] (class [Storyteller]) and of the
    [/api/chat] handler of [backend.py], with the properties the design
    document states about them.

    Python values are modelled as follows.
    - [str] is a list of Unicode code points, so [len], indexing and slices
      count characters as Python does.  Literals are written as in the source
      and decoded from UTF-8 by [py].
    - A dict with string keys is a [gmap]; a list is a [list]; [None] is
      [None]; a tuple is a tuple.
    - A similarity score is a Python [float], a binary64 number, as the data
      model of the design document has it: the primitive [float] of the
      prover, whose operations round as the interpreter's do.
    - A coroutine is a computation in the monad [M]: it reads and writes the
      process state (session store and disk) and either returns or raises.
      External services answer through an [Env] record, one per request.
    - Chat requests that overlap are modelled by a schedule of arrivals and
      resumptions over a store of list objects, so that a handler resumed
      late still holds the list it was given when it arrived.
    - Only subclasses of [Exception] are modelled; cancellation and
      interpreter exit are outside the model. *)

From Stdlib Require Import ZArith QArith List Strings.String Strings.Ascii Strings.Byte Lia Floats.
From stdpp Require Import base list gmap.

(* ================================================================= *)
(** ** Strings *)

Abbreviation char := N (only parsing).
Abbreviation str := (list N).
Abbreviation bytes := (list byte).

(** UTF-8 decoding of a source literal: [need] continuation bytes are still
    expected for the code point accumulated in [acc]. *)
Fixpoint utf8_go (bs : list N) (need : nat) (acc : N) : str :=
  match bs with
  | [] => []
  | b :: bs' =>
      match need with
      | O =>
          if (b <? 128)%N then b :: utf8_go bs' 0 0%N
          else if (b <? 224)%N then utf8_go bs' 1 (b - 192)%N
          else if (b <? 240)%N then utf8_go bs' 2 (b - 224)%N
          else utf8_go bs' 3 (b - 240)%N
      | S n =>
          let acc' := (acc * 64 + (b - 128))%N in
          match n with
          | O => acc' :: utf8_go bs' 0 0%N
          | S _ => utf8_go bs' n acc'
          end
      end
  end.

(** The escape [\n] of a Python literal. *)
Fixpoint unescape (s : str) : str :=
  match s with
  | [] => []
  | a :: s' =>
      match s' with
      | [] => [a]
      | b :: s'' =>
          if ((a =? 92) && (b =? 110))%N then 10%N :: unescape s''
          else a :: unescape s'
      end
  end.

(** [py "..."] is the Python string written with that literal. *)
Definition py (s : string) : str :=
  unescape (utf8_go (map N_of_ascii (list_ascii_of_string s)) 0 0%N).
Arguments py s%_string : simpl never.

Definition dquote : char := 34%N.

Definition str_eqb (a b : str) : bool := bool_decide (a = b).

(** [bool(x)] of a string or a list. *)
Definition truthy {A} (l : list A) : bool :=
  match l with [] => false | _ :: _ => true end.

(** [s.startswith(p)] *)
Fixpoint startswith (s p : str) : bool :=
  match p, s with
  | [], _ => true
  | _ :: _, [] => false
  | a :: p', b :: s' => (a =? b)%N && startswith s' p'
  end.

(** [sub in s] *)
Fixpoint str_in (sub s : str) : bool :=
  startswith s sub ||
  match s with
  | [] => false
  | _ :: s' => str_in sub s'
  end.

(** [sep.join(parts)] *)
Fixpoint str_join (sep : str) (parts : list str) : str :=
  match parts with
  | [] => []
  | [p] => p
  | p :: rest => p ++ sep ++ str_join sep rest
  end.

(** [s.split(c)] for a one-character separator: [cur] is the field being
    read, reversed. *)
Fixpoint split_go (c : char) (s : str) (cur : str) : list str :=
  match s with
  | [] => [rev cur]
  | a :: s' =>
      if (a =? c)%N then rev cur :: split_go c s' []
      else split_go c s' (a :: cur)
  end.
Definition str_split (c : char) (s : str) : list str := split_go c s [].

Fixpoint lstrip_by (drop_it : char -> bool) (s : str) : str :=
  match s with
  | [] => []
  | a :: s' => if drop_it a then lstrip_by drop_it s' else s
  end.
Definition rstrip_by (drop_it : char -> bool) (s : str) : str :=
  rev (lstrip_by drop_it (rev s)).
Definition strip_by (drop_it : char -> bool) (s : str) : str :=
  rstrip_by drop_it (lstrip_by drop_it s).

(** Slices [l[i:]] and [l[:i]]: a negative index counts from the end, and
    every index is clamped to the list. *)
Definition slice_index {A} (l : list A) (i : Z) : nat :=
  let n := Z.of_nat (length l) in
  Z.to_nat (Z.min n (if (i <? 0)%Z then Z.max 0 (n + i) else i)).
Definition slice_from {A} (i : Z) (l : list A) : list A := drop (slice_index l i) l.
Definition slice_to {A} (i : Z) (l : list A) : list A := take (slice_index l i) l.

(** [s.encode()]: UTF-8; a lone surrogate cannot be encoded. *)
Definition byte_of_N (n : N) : byte := default x00 (Byte.of_N n).
Definition utf8_encode_char (c : char) : option bytes :=
  if (c <? 128)%N then Some [byte_of_N c]
  else if (c <? 2048)%N then
    Some [byte_of_N (192 + c / 64); byte_of_N (128 + c mod 64)]
  else if ((55296 <=? c) && (c <=? 57343))%N then None
  else if (c <? 65536)%N then
    Some [byte_of_N (224 + c / 4096); byte_of_N (128 + (c / 64) mod 64);
          byte_of_N (128 + c mod 64)]
  else
    Some [byte_of_N (240 + c / 262144); byte_of_N (128 + (c / 4096) mod 64);
          byte_of_N (128 + (c / 64) mod 64); byte_of_N (128 + c mod 64)].
Fixpoint utf8_encode (s : str) : option bytes :=
  match s with
  | [] => Some []
  | c :: s' =>
      match utf8_encode_char c, utf8_encode s' with
      | Some b, Some bs => Some (b ++ bs)
      | _, _ => None
      end
  end.

(* ================================================================= *)
(** ** Exceptions, state and the monad of coroutines *)

Inductive exn :=
  | Exception (msg : str)
  | HTTPException (status_code : Z) (detail : str).

Inductive result (A : Type) :=
  | Ret (a : A)
  | Raise (e : exn).
Arguments Ret {A} a.
Arguments Raise {A} e.

(** A conversation message, the dict [{"role": ..., "content": ...}]. *)
Record Message := { role : str; content : str }.

(** The process state: the module-level dict [conversation_sessions] of the
    backend and the files on disk. *)
Record State := {
  conversation_sessions : gmap str (list Message);
  disk : gmap str bytes
}.

Definition M (A : Type) : Type := State -> result A * State.

#[global] Instance M_ret : MRet M := fun A a s => (Ret a, s).
#[global] Instance M_bind : MBind M := fun A B f m s =>
  match m s with
  | (Ret a, s') => f a s'
  | (Raise e, s') => (Raise e, s')
  end.

Definition raise {A} (e : exn) : M A := fun s => (Raise e, s).

(** [try: body except Exception as e: handler e]: what [body] did to the
    state before raising stays done. *)
Definition try_except {A} (body : M A) (handler : exn -> M A) : M A := fun s =>
  match body s with
  | (Ret a, s') => (Ret a, s')
  | (Raise e, s') => handler e s'
  end.

(** An awaited call into a collaborator whose outcome is [r]. *)
Definition call {A} (r : result A) : M A := fun s => (r, s).

Definition gets {A} (f : State -> A) : M A := fun s => (Ret (f s), s).
Definition modify (f : State -> State) : M unit := fun s => (Ret tt, f s).

(** [await asyncio.gather(t0, t1, return_exceptions=True)]: every task runs
    to its end and an exception becomes the task's entry in the result. *)
Definition settle {A} (task : M A) : M (result A) := fun s =>
  let '(r, s') := task s in (Ret r, s').
Definition gather_return_exceptions {A} (t0 t1 : M A) : M (result A * result A) :=
  r0 ← settle t0; r1 ← settle t1; mret (r0, r1).

(* ================================================================= *)
(** ** The interpreter, the configuration and the collaborators *)

(** Library functions the sources call. *)
Class PyRuntime := {
  str_lower : str -> str;                (* str.lower *)
  isspace : char -> bool;                (* str.isspace, the class \s of re *)
  isalnum : char -> bool;                (* str.isalnum; \w is this or '_' *)
  md5_hexdigest : bytes -> str;          (* hashlib.md5(b).hexdigest() *)
  url_quote : str -> str;                (* urllib.parse.quote *)
  format_2f : float -> str;              (* f"{x:.2f}" *)
  http_exception_str : Z -> str -> str   (* str(HTTPException(code, detail)) *)
}.

(** The constants of [config.py] the two modules read.  A key that is unset
    is the empty string. *)
Class Config := {
  LLM_PROVIDER : str;
  GEMINI_API_KEY : str;
  OPENAI_API_KEY : str;
  ELEVENLABS_API_KEY : str;
  ELEVENLABS_API_URL : str;
  ELEVENLABS_VOICE_ID : str;
  IMAGE_GENERATION_ENABLED : bool;
  AUDIO_ENABLED : bool;
  AUDIO_STABILITY : Q;
  AUDIO_SIMILARITY_BOOST : Q;
  IMAGES_DIR : str;
  AUDIO_DIR : str;
  SUPPORTED_LANGUAGES : gmap str str;
  UNKNOWN_QUERY_RESPONSE : str;
  (* STORYTELLER_PROMPT.format(context=..., question=...) *)
  STORYTELLER_PROMPT_format : str -> str -> str;
  MAX_CONVERSATION_HISTORY : Z
}.

(** One retrieved chunk: [(chunk, meta, score)]. *)
Record Meta := { source : str }.
Definition Hit : Type := str * Meta * float.

Record Response := { status : Z; body : bytes; text : str }.

(** The JSON body posted to the narration service. *)
Record Payload := {
  payload_text : str;
  model_id : str;
  stability : Q;
  similarity_boost : Q
}.

(** What the outside world answers during one request. *)
Record Env := {
  processor_initialized : bool;
  semantic_search : str -> Z -> result (list Hit);
  (* client.chat.completions.create(...).choices[0].message.content *)
  openai_create : list Message -> result str;
  (* model.generate_content(prompt, ...).text *)
  gemini_generate : str -> result str;
  http_get : str -> result Response;
  http_post : str -> str -> Payload -> result Response;
  open_wb : str -> result unit;
  which_ffmpeg : option str;
  whisper_transcribe : str -> result str
}.

(** The fields [__init__] sets: which clients exist. *)
Record Storyteller := {
  openai_client : bool;
  gemini_model : bool;
  whisper_model : bool
}.

Record Source := { src_text : str; src_source : str; src_score : str }.

(** The dict [generate_response] returns. *)
Record ChatResult := {
  answer : str;
  image_url : option str;
  audio_url : option str;
  is_relevant : bool;
  sources : list Source
}.

(* ================================================================= *)
(** ** storyteller.py: class Storyteller *)

Section Storyteller.
Context {rt : PyRuntime} {cfg : Config}.

Definition exn_str (e : exn) : str :=
  match e with
  | Exception msg => msg
  | HTTPException code detail => http_exception_str code detail
  end.

(** [dir / name] of pathlib. *)
Definition path_join (dir name : str) : str := dir ++ py "/" ++ name.

(** [with open(path, "wb") as f: f.write(data)] *)
Definition write_file (env : Env) (path : str) (data : bytes) : M unit :=
  call (open_wb env path);;
  modify (fun s => {| conversation_sessions := conversation_sessions s;
                      disk := <[path := data]> (disk s) |}).

(** [hashlib.md5(s.encode()).hexdigest()].  The text of the encoding error
    is never observed: both callers log it and return [None]. *)
Definition md5_hex (s : str) : M str :=
  match utf8_encode s with
  | Some b => mret (md5_hexdigest b)
  | None => raise (Exception (py "'utf-8' codec can't encode character: surrogates not allowed"))
  end.

(** [Storyteller.__init__]: [whisper_loaded] tells whether
    [whisper.load_model] returned. *)
Definition Storyteller_init (whisper_loaded : bool) : Storyteller :=
  if str_eqb LLM_PROVIDER (py "gemini") && truthy GEMINI_API_KEY then
    {| openai_client := false; gemini_model := true; whisper_model := whisper_loaded |}
  else if str_eqb LLM_PROVIDER (py "openai") && truthy OPENAI_API_KEY then
    {| openai_client := true; gemini_model := false; whisper_model := whisper_loaded |}
  else
    {| openai_client := false; gemini_model := false; whisper_model := whisper_loaded |}.

(** *** _is_relevant *)

(** [sum(xs)] on floats: the items are added to the integer 0 from left to
    right, each sum rounded to the nearest float.  (From version 3.12 on the
    interpreter compensates the rounding errors of the partial sums.) *)
Definition py_sum (xs : list float) : float := fold_left PrimFloat.add xs 0%float.

(** [float(n)] for the length of a list, which is below 2^63. *)
Definition float_of_len (n : nat) : float := PrimFloat.of_uint63 (Uint63.of_Z (Z.of_nat n)).

Definition _is_relevant (results : list Hit) : bool :=
  if negb (truthy results) then false
  else
    let avg_score :=
      (py_sum (map (fun '(_, _, score) => score) results)
       / float_of_len (length results))%float in
    (0.25 <? avg_score)%float.

(** *** _get_fallback_message *)

Definition fallbacks : gmap str str := list_to_map [
    (py "en", UNKNOWN_QUERY_RESPONSE);
    (py "es",
     py "¡Espera, detente! 🤚 Eso no está en mi colección de cuentos. Estoy aquí para contar historias sobre las aventuras de Alicia en el país de las maravillas y los problemas gigantes de Gulliver, ¡no para resolver los misterios del universo! Pregúntame algo de los cuentos clásicos que realmente conozco! 📚✨");
    (py "fr",
     py "Whoa, arrêtez! 🤚 Ce n'est pas dans ma collection de livres d'histoires. Je suis ici pour raconter des histoires sur les aventures d'Alice au pays des merveilles et les problèmes géants de Gulliver - pas pour résoudre les mystères de l'univers! Demandez-moi quelque chose des histoires classiques que je connais vraiment! 📚✨");
    (py "de",
     py "Moment mal! 🤚 Das ist nicht in meiner Geschichtenbuch-Sammlung. Ich bin hier, um Geschichten über Alices Abenteuer im Wunderland und Gullivers Riesenprobleme zu erzählen - nicht um die Geheimnisse des Universums zu lösen! Frag mich etwas aus den klassischen Geschichten, die ich wirklich kenne! 📚✨");
    (py "hi",
     py "रुको, ठहरो! 🤚 यह मेरी कहानियों के संग्रह में नहीं है। मैं यहाँ एलिस के अद्भुत देश के रोमांच और गुलिवर की विशाल समस्याओं की कहानियाँ सुनाने के लिए हूँ - ब्रह्मांड के रहस्यों को सुलझाने के लिए नहीं! मुझसे उन क्लासिक कहानियों के बारे में पूछें जो मैं वास्तव में जानता हूँ! 📚✨")
  ].

Definition _get_fallback_message (language : str) : str :=
  default (default [] (fallbacks !! py "en")) (fallbacks !! language).

(** *** _generate_text *)

Definition lang_instruction_for (language : str) : str :=
  let lang_name := default (py "English") (SUPPORTED_LANGUAGES !! language) in
  if negb (str_eqb language (py "en")) then
    py "\n\n**CRITICAL: You MUST respond ENTIRELY in " ++ lang_name
      ++ py ". Do NOT use English. Translate everything to " ++ lang_name ++ py ".**"
  else [].

(** The prompt before any history is attached. *)
Definition compose_base_prompt (question context language : str) : str :=
  let lang_instruction := lang_instruction_for language in
  STORYTELLER_PROMPT_format context question ++ lang_instruction.

(** The messages handed to the chat-completion client. *)
Definition openai_messages (base_prompt : str) (conversation_history : list Message)
  : list Message :=
  let messages := [] in
  let messages :=
    fold_left (fun messages msg =>
                 messages ++ [{| role := role msg; content := content msg |}])
              (slice_from (-6) conversation_history) messages in
  messages ++ [{| role := py "user"; content := base_prompt |}].

(** The prompt handed to the single-prompt model. *)
Definition gemini_prompt (base_prompt : str) (conversation_history : list Message) : str :=
  if truthy conversation_history then
    let history_text := py "\n\nPrevious conversation:\n" in
    let history_text :=
      fold_left (fun history_text msg =>
                   let role := if str_eqb (role msg) (py "user")
                               then py "User" else py "Assistant" in
                   history_text ++ role ++ py ": " ++ content msg ++ py "\n")
                (slice_from (-6) conversation_history) history_text in
    history_text ++ py "\n" ++ base_prompt
  else base_prompt.

Definition _generate_text (self : Storyteller) (env : Env)
    (question context language : str) (conversation_history : list Message) : M str :=
  try_except
    (let base_prompt := compose_base_prompt question context language in
     if str_eqb LLM_PROVIDER (py "openai") && openai_client self then
       let messages := openai_messages base_prompt conversation_history in
       response ← call (openai_create env messages);
       let answer := strip_by isspace response in
       mret answer
     else if str_eqb LLM_PROVIDER (py "gemini") && gemini_model self then
       let base_prompt := gemini_prompt base_prompt conversation_history in
       response ← call (gemini_generate env base_prompt);
       let answer := strip_by isspace response in
       mret answer
     else
       mret (py "Sorry, text generation is not available. Please configure LLM API key."))
    (fun e =>
       mret (py "Oops! My wit machine broke down. Try asking again! 😅 (Error: "
               ++ slice_to 100 (exn_str e) ++ py ")")).

(** The call [_generate_text] makes to the configured provider, if there is
    one, with its outcome. *)
Definition provider_call (self : Storyteller) (env : Env) (base_prompt : str)
    (conversation_history : list Message) : option (result str) :=
  if str_eqb LLM_PROVIDER (py "openai") && openai_client self then
    Some (openai_create env (openai_messages base_prompt conversation_history))
  else if str_eqb LLM_PROVIDER (py "gemini") && gemini_model self then
    Some (gemini_generate env (gemini_prompt base_prompt conversation_history))
  else None.

(** *** The image prompt *)

Definition keywords : list (str * str) := [
    (py "alice", py "Alice, young Victorian girl in blue dress with white apron");
    (py "wonderland", py "magical Wonderland with strange creatures and talking animals");
    (py "rabbit", py "white rabbit wearing waistcoat with pocket watch, running");
    (py "queen", py "Queen of Hearts with playing card soldiers, red and black");
    (py "hatter", py "Mad Hatter at tea party with oversized hat, teacups everywhere");
    (py "cheshire", py "Cheshire Cat with wide grin, purple stripes, disappearing");
    (py "caterpillar", py "blue caterpillar smoking hookah on giant mushroom");
    (py "gulliver", py "Gulliver the explorer in 18th century clothing");
    (py "lilliput", py "tiny Lilliputian people, miniature buildings, giant human");
    (py "giant", py "enormous giants, Brobdingnagians, tiny human");
    (py "travel", py "sailing ship, ocean voyage, exotic lands");
    (py "tea party", py "mad tea party with March Hare, Dormouse, chaotic table setting");
    (py "arabian", py "Arabian Nights, middle eastern palace, ornate decorations");
    (py "aladdin", py "Aladdin with magic lamp, genie, flying carpet");
    (py "sinbad", py "Sinbad the sailor, ship, sea monsters");
    (py "scheherazade", py "Scheherazade storytelling, sultan, Arabian palace");
    (py "genie", py "magical genie emerging from lamp, smoke, wishes")
  ].

Definition style : str :=
  py "vintage storybook illustration, detailed ink drawing with watercolor, whimsical fantasy art, Arthur Rackham style, classic children's literature, intricate details, magical atmosphere".

Definition _create_image_prompt (question answer : str) : str :=
  let combined := str_lower (question ++ py " " ++ answer) in
  let found :=
    fold_left (fun found '(key, desc) =>
                 if str_in key combined then found ++ [desc] else found)
              keywords [] in
  let scene :=
    if truthy found then str_join (py ", ") (slice_to 3 found)
    else py "classic storybook scene" in
  scene ++ py ", " ++ style.

(** [re.sub(pattern, '', text)] with the character class of the source:
    a character stays when it is a word character, white space, or one of
    full stop, comma, exclamation mark, question mark, apostrophe, double
    quote and hyphen. *)
Definition kept_by_clean (c : char) : bool :=
  isalnum c || (c =? 95)%N || isspace c
  || bool_decide (c ∈ py ".,!?'" ++ [dquote] ++ py "-").
Definition re_sub_clean (text : str) : str := List.filter kept_by_clean text.

Definition _create_image_prompt_from_answer (answer : str) : str :=
  let clean_answer := re_sub_clean answer in
  let sentences := slice_to 2 (str_split 46%N clean_answer) in
  let context := strip_by isspace (str_join (py ". ") sentences) in
  let prompt :=
    py "A beautiful whimsical storybook illustration of: " ++ context
    ++ py ". \n        Art style: fantasy storybook painting, vibrant colors, magical atmosphere, \n        detailed characters, fairy tale aesthetic, classic literature illustration" in
  slice_to 800 prompt.

(** *** _generate_image *)

Definition image_endpoint (prompt : str) : str :=
  let encoded_prompt := url_quote prompt in
  py "https://image.pollinations.ai/prompt/" ++ encoded_prompt
    ++ py "?width=512&height=512&model=flux&nologo=true&enhance=true".

(** The prompt is built from question and answer; the builder from the
    answer alone stands by for an exception of the first. *)
Definition choose_image_prompt (question answer : str) : M str :=
  try_except (mret (_create_image_prompt question answer))
             (fun _ => mret (_create_image_prompt_from_answer answer)).

Definition _generate_image (env : Env) (question answer : str) : M (option str) :=
  try_except
    (if negb IMAGE_GENERATION_ENABLED then mret None
     else
       prompt ← choose_image_prompt question answer;
       let image_url := image_endpoint prompt in
       response ← call (http_get env image_url);
       if (status response =? 200)%Z then
         let image_data := body response in
         digest ← md5_hex prompt;
         let filename := digest ++ py ".png" in
         let filepath := path_join IMAGES_DIR filename in
         write_file env filepath image_data;;
         mret (Some (py "/static/images/" ++ filename))
       else mret None)
    (fun e => mret None).

(** *** _generate_audio *)

Definition audio_payload (clean_text language : str) : Payload :=
  {| payload_text := slice_to 500 clean_text;
     model_id := if negb (str_eqb language (py "en"))
                 then py "eleven_multilingual_v2" else py "eleven_monolingual_v1";
     stability := AUDIO_STABILITY;
     similarity_boost := AUDIO_SIMILARITY_BOOST |}.

Definition _generate_audio (env : Env) (text language : str) : M (option str) :=
  if negb (truthy ELEVENLABS_API_KEY) then mret None
  else if negb AUDIO_ENABLED then mret None
  else
    try_except
      (let clean_text := re_sub_clean text in
       if (length clean_text =? 0)%nat then mret None
       else
         let url := ELEVENLABS_API_URL ++ py "/" ++ ELEVENLABS_VOICE_ID in
         let payload := audio_payload clean_text language in
         response ← call (http_post env url ELEVENLABS_API_KEY payload);
         if negb (status response =? 200)%Z then mret None
         else
           let audio_data := body response in
           digest ← md5_hex clean_text;
           let filename := digest ++ py ".mp3" in
           let filepath := path_join AUDIO_DIR filename in
           write_file env filepath audio_data;;
           mret (Some (py "/static/audio/" ++ filename)))
      (fun e => mret None).

(** *** transcribe_audio *)

Definition transcribe_audio (self : Storyteller) (env : Env) (audio_path : str) : M str :=
  if negb (whisper_model self) then
    raise (Exception (py "Whisper model not initialized"))
  else
    try_except
      (exists_ ← gets (fun s => bool_decide (is_Some (disk s !! audio_path)));
       if negb exists_ then
         raise (Exception (py "Audio file not found: " ++ audio_path))
       else
         file_size ← gets (fun s => Z.of_nat (length (default [] (disk s !! audio_path))));
         if (file_size <? 1000)%Z then
           mret (py "Recording too short or empty. Please speak clearly for at least 1-2 seconds.")
         else
           match which_ffmpeg env with
           | None =>
               raise (Exception (py "FFmpeg not found. Please install FFmpeg and add it to your system PATH, then restart the backend."))
           | Some ffmpeg_path =>
               result_text ← call (whisper_transcribe env audio_path);
               let text := strip_by isspace result_text in
               if negb (truthy text) then
                 mret (py "Sorry, I couldn't hear anything clearly. Please speak louder and try again.")
               else mret text
           end)
      (fun e =>
         let error_msg := exn_str e in
         if str_in (py "ffmpeg") (str_lower error_msg)
            || str_in (py "av") (str_lower error_msg) then
           raise (Exception (py "FFmpeg not found. Please install FFmpeg to use audio transcription. Download from: https://ffmpeg.org/download.html"))
         else
           raise (Exception (py "Transcription failed: " ++ exn_str e))).

(** *** generate_response *)

(** [asyncio.sleep(0)], the task of a disabled slot. *)
Definition sleep0 : M (option str) := mret None.

(** [r if not isinstance(r, Exception) and r is not None else None] *)
Definition url_or_none (r : result (option str)) : option str :=
  match r with
  | Ret (Some url) => Some url
  | Ret None => None
  | Raise _ => None
  end.

Definition make_source (hit : Hit) : Source :=
  let '(chunk, meta, score) := hit in
  {| src_text := slice_to 200 chunk ++ py "...";
     src_source := source meta;
     src_score := format_2f score |}.

Definition generate_response (self : Storyteller) (env : Env) (question : str)
    (generate_image generate_audio : bool) (language : str)
    (conversation_history : list Message) : M ChatResult :=
  results ← call (semantic_search env question 5);
  let is_relevant := _is_relevant results in
  if negb is_relevant then
    let fallback := _get_fallback_message language in
    image_url ←
      (if generate_image && IMAGE_GENERATION_ENABLED then
         try_except (_generate_image env question fallback) (fun _ => mret None)
       else mret None);
    audio_url ←
      (if generate_audio && AUDIO_ENABLED then
         try_except (_generate_audio env fallback language) (fun _ => mret None)
       else mret None);
    mret {| answer := fallback; image_url := image_url; audio_url := audio_url;
            is_relevant := false; sources := [] |}
  else
    let context := str_join (py "\n\n") (map (fun '(chunk, _, _) => chunk) results) in
    let sources := map make_source results in
    answer ← _generate_text self env question context language conversation_history;
    let task0 :=
      if generate_image && IMAGE_GENERATION_ENABLED
      then _generate_image env question answer else sleep0 in
    let task1 :=
      if generate_audio && AUDIO_ENABLED
      then _generate_audio env answer language else sleep0 in
    results ← gather_return_exceptions task0 task1;
    let image_url := url_or_none (fst results) in
    let audio_url := url_or_none (snd results) in
    mret {| answer := answer; image_url := image_url; audio_url := audio_url;
            is_relevant := true; sources := sources |}.

(* ================================================================= *)
(** ** backend.py: the chat endpoint *)

Record ChatRequest := {
  question : str;
  generate_image : bool;
  generate_audio : bool;
  language : str;
  session_id : str
}.

Record ChatResponse := {
  resp_answer : str;
  resp_image_url : option str;
  resp_audio_url : option str;
  resp_is_relevant : bool;
  resp_sources : list Source;
  resp_conversation_history : list Message
}.

Definition get_session (session_id : str) : M (list Message) :=
  gets (fun s => default [] (conversation_sessions s !! session_id)).

Definition set_session (session_id : str) (history : list Message) : M unit :=
  modify (fun s => {| conversation_sessions := <[session_id := history]> (conversation_sessions s);
                      disk := disk s |}).

(** [conversation_history.append(msg)]: the list is the object the store
    holds for the session, so the store sees the new message at once. *)
Definition append_message (session_id : str) (msg : Message) : M unit :=
  history ← get_session session_id;
  set_session session_id (history ++ [msg]).

(** [base_url + url] for a relative media URL. *)
Definition normalize_url (base_url : str) (url_val : option str) : option str :=
  match url_val with
  | Some url => if startswith url (py "/") then Some (base_url ++ url) else Some url
  | None => None
  end.

(** The handler of [POST /api/chat]; [request_base_url] is
    [str(http_request.base_url)]. *)
Definition chat (storyteller : Storyteller) (env : Env) (request : ChatRequest)
    (request_base_url : str) : M ChatResponse :=
  try_except
    (if negb (processor_initialized env) then
       raise (HTTPException 503 (py "Knowledge base not initialized. Please add PDF files."))
     else
       let session_id := session_id request in
       known ← gets (fun s => bool_decide (is_Some (conversation_sessions s !! session_id)));
       (if negb known then set_session session_id [] else mret tt);;
       conversation_history ← get_session session_id;
       result ← generate_response storyteller env (question request)
                  (generate_image request) (generate_audio request)
                  (language request) conversation_history;
       append_message session_id {| role := py "user"; content := question request |};;
       append_message session_id {| role := py "assistant"; content := answer result |};;
       conversation_history ← get_session session_id;
       let conversation_history :=
         if (Z.of_nat (length conversation_history) >? MAX_CONVERSATION_HISTORY * 2)%Z
         then slice_from (- MAX_CONVERSATION_HISTORY * 2) conversation_history
         else conversation_history in
       set_session session_id conversation_history;;
       let base_url := rstrip_by (fun c => (c =? 47)%N) request_base_url in
       mret {| resp_answer := answer result;
               resp_image_url := normalize_url base_url (image_url result);
               resp_audio_url := normalize_url base_url (audio_url result);
               resp_is_relevant := is_relevant result;
               resp_sources := sources result;
               resp_conversation_history := conversation_history |})
    (fun e => raise (HTTPException 500 (exn_str e))).

End Storyteller.

(* ================================================================= *)
(** ** The definitions of the design document

    Written from the document's words, to be compared with the code. *)

Module Design.


(** The number a float stands for; none for an infinity and for a NaN. *)
Definition value (x : float) : option Q :=
  match Prim2SF x with
  | S754_zero _ => Some 0%Q
  | S754_finite negative m e =>
      let signed := if negative then Z.neg m else Z.pos m in
      Some (if (0 <=? e)%Z then inject_Z (signed * 2 ^ e)
            else Qmake signed (Z.to_pos (2 ^ (- e))))
  | S754_infinity _ => None
  | S754_nan => None
  end.

(** The arithmetic mean of the numbers the scores stand for. *)
Fixpoint total (xs : list float) : option Q :=
  match xs with
  | [] => Some 0%Q
  | x :: rest =>
      match value x, total rest with
      | Some v, Some t => Some (v + t)%Q
      | _, _ => None
      end
  end.
Definition arithmetic_mean (xs : list float) : option Q :=
  match total xs with
  | Some t => Some (t / inject_Z (Z.of_nat (length xs)))%Q
  | None => None
  end.


(** The last six messages of a history. *)
Definition history_window (history : list Message) : list Message :=
  drop (length history - 6) history.

(** One line of the transcript: the role, a colon, the content. *)
Definition transcript_entries (window : list Message) : list (str * str) :=
  map (fun msg => (if str_eqb (role msg) (py "user") then py "User" else py "Assistant",
                   content msg)) window.
Definition transcript_line (entry : str * str) : str :=
  fst entry ++ py ": " ++ snd entry ++ py "\n".
Definition transcript (window : list Message) : str :=
  py "\n\nPrevious conversation:\n"
    ++ concat (map transcript_line (transcript_entries window)).

(** The message a transcript entry stands for. *)
Definition message_of_entry (entry : str * str) : Message :=
  {| role := if str_eqb (fst entry) (py "User") then py "user" else py "assistant";
     content := snd entry |}.

Definition valid_role (msg : Message) : Prop :=
  role msg = py "user" \/ role msg = py "assistant".

(** A message without a line break in its content. *)
Definition single_line (msg : Message) : Prop := 10%N ∉ content msg.

(** Scene synthesis: every keyword of the table found in the text, in the
    order of the table; the first three phrases joined, or the placeholder;
    the style suffix; the whole cut to [image_prompt_limit] characters. *)
Definition matching_phrases (combined : str) : list str :=
  map snd (List.filter (fun entry => str_in (fst entry) combined) keywords).
Definition scene_description (matches : list str) : str :=
  match matches with
  | [] => py "classic storybook scene"
  | _ :: _ => str_join (py ", ") (take 3 matches)
  end.

End Design.

Section ImagePromptSpec.
Context {rt : PyRuntime}.


End ImagePromptSpec.

(** *** Serving a sequence of chat requests *)

Record Turn := {
  turn_env : Env;
  turn_request : ChatRequest;
  turn_base_url : str
}.

Section Serving.
Context {rt : PyRuntime} {cfg : Config}.

(** The requests are handled one after the other; the result lists the
    turns that were answered, with their responses. *)
Fixpoint serve (storyteller : Storyteller) (turns : list Turn) (s : State)
  : list (ChatRequest * ChatResponse) * State :=
  match turns with
  | [] => ([], s)
  | t :: rest =>
      match chat storyteller (turn_env t) (turn_request t) (turn_base_url t) s with
      | (Ret response, s') =>
          let '(answered, s'') := serve storyteller rest s' in
          ((turn_request t, response) :: answered, s'')
      | (Raise _, s') => serve storyteller rest s'
      end
  end.

End Serving.

(** The messages of the answered turns of one session, oldest first. *)
Definition turn_messages (sid : str) (turn : ChatRequest * ChatResponse) : list Message :=
  if str_eqb (session_id (fst turn)) sid then
    [ {| role := py "user"; content := question (fst turn) |};
      {| role := py "assistant"; content := resp_answer (snd turn) |} ]
  else [].
Definition full_transcript (sid : str) (answered : list (ChatRequest * ChatResponse))
  : list Message :=
  flat_map (turn_messages sid) answered.
Definition turns_of (sid : str) (answered : list (ChatRequest * ChatResponse)) : nat :=
  length (List.filter (fun turn => str_eqb (session_id (fst turn)) sid) answered).

Definition stored_history (s : State) (sid : str) : list Message :=
  default [] (conversation_sessions s !! sid).

(** A failed image request, as the image task sees it. *)
Inductive image_request_fails (env : Env) (url : str) : Prop :=
  | get_raises (e : exn) :
      http_get env url = Raise e -> image_request_fails env url
  | get_not_200 (response : Response) :
      http_get env url = Ret response -> status response <> 200%Z ->
      image_request_fails env url.

(* ================================================================= *)
(** ** Notions used in the statements *)

(** A computation that leaves the session store as it found it. *)
Definition keeps_sessions {A} (m : M A) : Prop :=
  forall s, conversation_sessions (snd (m s)) = conversation_sessions s.

(** The last [n] elements of a list. *)
Definition keep_last {A} (n : nat) (l : list A) : list A := drop (length l - n) l.

Section Notions.
Context {rt : PyRuntime} {cfg : Config}.

(** The most messages a session keeps. *)
Definition session_cap : nat := Z.to_nat (2 * MAX_CONVERSATION_HISTORY).

(** The answer [_generate_text] gives when the provider call raised [e]. *)
Definition apology (e : exn) : str :=
  py "Oops! My wit machine broke down. Try asking again! 😅 (Error: "
    ++ slice_to 100 (exn_str e) ++ py ")".

End Notions.

(* ================================================================= *)
(** ** An interpreter to compute with

    The library functions, written out for ASCII text, and the MD5 digest of
    RFC 1321 on 32-bit words kept in [N] with the wrap-around explicit. *)

Module Demo.

Definition ascii_lower (s : str) : str :=
  map (fun c => if ((65 <=? c) && (c <=? 90))%N then (c + 32)%N else c) s.
Definition ascii_isspace (c : char) : bool :=
  (((9 <=? c) && (c <=? 13)) || ((28 <=? c) && (c <=? 32)))%N.
Definition ascii_isalnum (c : char) : bool :=
  (((48 <=? c) && (c <=? 57)) || ((65 <=? c) && (c <=? 90))
   || ((97 <=? c) && (c <=? 122)))%N.

Definition ascii_upper (s : str) : str :=
  map (fun c => if ((97 <=? c) && (c <=? 122))%N then (c - 32)%N else c) s.

Definition hex_digit (n : N) : char :=
  if (n <? 10)%N then (48 + n)%N else (87 + n)%N.
Definition hex_byte (n : N) : str := [hex_digit (n / 16); hex_digit (n mod 16)].

Definition word (n : N) : N := (n mod 4294967296)%N.
Definition rotl (x : N) (c : N) : N :=
  word (N.lor (N.shiftl x c) (N.shiftr x (32 - c))).
Definition complement (x : N) : N := N.lxor x 4294967295.

Definition md5_K : list N :=
    [3614090360; 3905402710; 606105819; 3250441966;
     4118548399; 1200080426; 2821735955; 4249261313;
     1770035416; 2336552879; 4294925233; 2304563134;
     1804603682; 4254626195; 2792965006; 1236535329;
     4129170786; 3225465664; 643717713; 3921069994;
     3593408605; 38016083; 3634488961; 3889429448;
     568446438; 3275163606; 4107603335; 1163531501;
     2850285829; 4243563512; 1735328473; 2368359562;
     4294588738; 2272392833; 1839030562; 4259657740;
     2763975236; 1272893353; 4139469664; 3200236656;
     681279174; 3936430074; 3572445317; 76029189;
     3654602809; 3873151461; 530742520; 3299628645;
     4096336452; 1126891415; 2878612391; 4237533241;
     1700485571; 2399980690; 4293915773; 2240044497;
     1873313359; 4264355552; 2734768916; 1309151649;
     4149444226; 3174756917; 718787259; 3951481745]%N.
Definition md5_S : list N :=
    [7; 12; 17; 22; 7; 12; 17; 22; 7; 12; 17; 22; 7; 12; 17; 22;
     5; 9; 14; 20; 5; 9; 14; 20; 5; 9; 14; 20; 5; 9; 14; 20;
     4; 11; 16; 23; 4; 11; 16; 23; 4; 11; 16; 23; 4; 11; 16; 23;
     6; 10; 15; 21; 6; 10; 15; 21; 6; 10; 15; 21; 6; 10; 15; 21]%N.

(** A little-endian word from four bytes, and back. *)
Definition word_of_bytes (b : list N) : N :=
  fold_right (fun x acc => (x + 256 * acc)%N) 0%N b.
Definition bytes_of_word (w : N) : list N :=
  [w mod 256; (w / 256) mod 256; (w / 65536) mod 256; (w / 16777216) mod 256]%N.

Fixpoint chop {A} (fuel size : nat) (l : list A) : list (list A) :=
  match fuel, l with
  | O, _ | _, [] => []
  | S fuel', _ :: _ => take size l :: chop fuel' size (drop size l)
  end.

Definition md5_pad (message : list N) : list N :=
  let len := length message in
  let zeros := (55 + 64 - len mod 64) mod 64 in
  let bits := (8 * N.of_nat len)%N in
  message ++ [128%N] ++ replicate zeros 0%N
    ++ bytes_of_word (word bits) ++ bytes_of_word (word (bits / 4294967296)).

Definition md5_step (block : list N) (st : N * N * N * N) (i : nat) : N * N * N * N :=
  let '(a, b, c, d) := st in
  let '(f, g) :=
    if (i <? 16)%nat then (N.lor (N.land b c) (N.land (complement b) d), i)
    else if (i <? 32)%nat then
      (N.lor (N.land d b) (N.land (complement d) c), (5 * i + 1) mod 16)
    else if (i <? 48)%nat then (N.lxor (N.lxor b c) d, (3 * i + 5) mod 16)
    else (N.lxor c (N.lor b (complement d)), (7 * i) mod 16) in
  let f := word (f + a + nth i md5_K 0 + nth g block 0)%N in
  (d, word (b + rotl f (nth i md5_S 0))%N, b, c).

Definition md5_block (h : N * N * N * N) (chunk : list N) : N * N * N * N :=
  let block := map word_of_bytes (chop 16 4 chunk) in
  let '(a0, b0, c0, d0) := h in
  let '(a, b, c, d) := fold_left (md5_step block) (seq 0 64) h in
  (word (a0 + a), word (b0 + b), word (c0 + c), word (d0 + d))%N.

Definition md5 (message : bytes) : str :=
  let padded := md5_pad (map Byte.to_N message) in
  let '(a, b, c, d) :=
    fold_left md5_block (chop (length padded) 64 padded)
              (1732584193, 4023233417, 2562383102, 271733878)%N in
  flat_map hex_byte (flat_map bytes_of_word [a; b; c; d]).

(** [urllib.parse.quote]: letters, digits and [_.-~/] stay, any other
    character becomes the escaped bytes of its encoding. *)
Definition quote_char (c : char) : str :=
  if ascii_isalnum c || bool_decide (c ∈ py "_.-~/") then [c]
  else flat_map (fun b => 37%N :: ascii_upper (hex_byte (Byte.to_N b)))
                (default [] (utf8_encode_char c)).
Definition quote (s : str) : str := flat_map quote_char s.

Fixpoint decimal_go (fuel : nat) (n : N) (acc : str) : str :=
  match fuel with
  | O => acc
  | S fuel' =>
      let acc' := (48 + n mod 10)%N :: acc in
      if (n <? 10)%N then acc' else decimal_go fuel' (n / 10)%N acc'
  end.
Definition decimal (n : N) : str := decimal_go (S (N.to_nat (N.log2 n))) n [].

(** [n / d] rounded to the nearest integer, a tie to the even one. *)
Definition round_half_even (n d : Z) : Z :=
  let q := (n / d)%Z in
  let r := (n mod d)%Z in
  if (2 * r >? d)%Z || ((2 * r =? d)%Z && Z.odd q) then (q + 1)%Z else q.

(** Two decimals of a float: its exact value rounded to hundredths. *)
Definition two_decimals (x : float) : str :=
  let sign (negative : bool) : str := if negative then py "-" else [] in
  match Prim2SF x with
  | S754_nan => py "nan"
  | S754_infinity negative => sign negative ++ py "inf"
  | S754_zero negative => sign negative ++ py "0.00"
  | S754_finite negative m e =>
      let hundredths :=
        Z.to_N (if (0 <=? e)%Z then 100 * Z.pos m * 2 ^ e
                else round_half_even (100 * Z.pos m) (2 ^ (- e))) in
      sign negative ++ decimal (hundredths / 100) ++ py "."
        ++ [hex_digit ((hundredths / 10) mod 10); hex_digit (hundredths mod 10)]
  end.

Definition runtime : PyRuntime := {|
  str_lower := ascii_lower;
  isspace := ascii_isspace;
  isalnum := ascii_isalnum;
  md5_hexdigest := md5;
  url_quote := quote;
  format_2f := two_decimals;
  http_exception_str := fun code detail =>
    (if (code <? 0)%Z then py "-" else []) ++ decimal (Z.abs_N code) ++ py ": " ++ detail
|}.

Definition languages : gmap str str := list_to_map [
    (py "en", py "English"); (py "es", py "Spanish"); (py "fr", py "French");
    (py "de", py "German"); (py "hi", py "Hindi")
  ].

Definition config_with (provider : str) (max_turns : Z) : Config := {|
  LLM_PROVIDER := provider;
  GEMINI_API_KEY := py "g-key";
  OPENAI_API_KEY := py "o-key";
  ELEVENLABS_API_KEY := py "e-key";
  ELEVENLABS_API_URL := py "https://api.elevenlabs.io/v1/text-to-speech";
  ELEVENLABS_VOICE_ID := py "voice";
  IMAGE_GENERATION_ENABLED := true;
  AUDIO_ENABLED := true;
  AUDIO_STABILITY := 1 # 2;
  AUDIO_SIMILARITY_BOOST := 3 # 4;
  IMAGES_DIR := py "static/images";
  AUDIO_DIR := py "static/audio";
  SUPPORTED_LANGUAGES := languages;
  UNKNOWN_QUERY_RESPONSE := py "That is not in my storybook collection.";
  STORYTELLER_PROMPT_format := fun context question =>
    py "Context:\n" ++ context ++ py "\n\nQuestion: " ++ question ++ py "\n\nAnswer:";
  MAX_CONVERSATION_HISTORY := max_turns
|}.
Definition config : Config := config_with (py "gemini") 10.

Definition hits : list Hit :=
  [ (py "Alice sat down at the tea party with the Hatter.",
     {| source := py "alice.pdf" |}, 0x1.6666666666666p-1%float);  (* 0.7 *)
    (py "The March Hare offered wine.", {| source := py "alice.pdf" |}, 0.5%float) ].

(** The image service answers 503, the narration service answers 200, the
    model raises or answers as [llm] says. *)
Definition env_with (llm : result str) : Env := {|
  processor_initialized := true;
  semantic_search := fun _ _ => Ret hits;
  openai_create := fun _ => llm;
  gemini_generate := fun _ => llm;
  http_get := fun _ => Ret {| status := 503; body := []; text := py "unavailable" |};
  http_post := fun _ _ _ => Ret {| status := 200; body := [x49; x44; x33]; text := [] |};
  open_wb := fun _ => Ret tt;
  which_ffmpeg := None;
  whisper_transcribe := fun _ => Raise (Exception (py "no decoder"))
|}.
Definition env : Env := env_with (Ret (py "  The Hatter poured tea for Alice! \n")).

Definition teller : Storyteller := @Storyteller_init config true.

Definition empty_state : State := {| conversation_sessions := ∅; disk := ∅ |}.

(** A storyteller whose speech model did not load. *)
Definition teller_without_whisper : Storyteller := @Storyteller_init config false.

(** A disk holding one uploaded recording of 500 bytes. *)
Definition upload_path : str := py "/tmp/upload.webm".
Definition short_recording : State :=
  {| conversation_sessions := ∅; disk := {[ upload_path := replicate 500 x00 ]} |}.

(** A provider failure whose text is longer than 100 characters. *)
Definition quota_error : exn :=
  Exception (py "429 Resource has been exhausted (e.g. check quota). Please retry in 37 seconds or request a higher limit for this project.").

Definition ask (sid question : str) : Turn :=
  {| turn_env := env;
     turn_request := {| question := question; generate_image := false;
                        generate_audio := false; language := py "en";
                        session_id := sid |};
     turn_base_url := py "http://localhost:8000/" |}.
Definition four_turns : list Turn :=
  [ ask (py "a") (py "Who is Alice?"); ask (py "b") (py "Who is Gulliver?");
    ask (py "a") (py "Who is the Hatter?"); ask (py "a") (py "Who is the Queen?") ].

Definition eight_messages : list Message :=
  flat_map (fun n => [ {| role := py "user"; content := py "question " ++ decimal n |};
                       {| role := py "assistant"; content := py "answer " ++ decimal n |} ])
           [1; 2; 3; 4]%N.

End Demo.

(* ================================================================= *)
(** ** backend.py: the transcription endpoint *)

(** The uploaded file: its name as the client sent it, and what
    [await audio.read()] gives. *)
Record UploadFile := {
  upload_filename : option str;
  upload_read : result bytes
}.

(** The operating-system calls of the endpoint. *)
Record TempFiles := {
  splitext_ext : str -> str;                 (* os.path.splitext(name)[1] *)
  named_temporary_file : str -> result str;  (* NamedTemporaryFile(delete=False, suffix=s).name *)
  unlink : str -> result unit                (* os.unlink *)
}.

(** The dict [{"text": text}]. *)
Record TranscribeResponse := { resp_text : str }.

(** [try: body finally: cleanup] *)
Definition try_finally {A} (body : M A) (cleanup : M unit) : M A := fun s =>
  let '(r, s') := body s in
  match cleanup s' with
  | (Ret _, s'') => (r, s'')
  | (Raise e, s'') => (Raise e, s'')
  end.

Definition set_file (path : str) (data : bytes) : M unit :=
  modify (fun s => {| conversation_sessions := conversation_sessions s;
                      disk := <[path := data]> (disk s) |}).

Definition remove_file (path : str) : M unit :=
  modify (fun s => {| conversation_sessions := conversation_sessions s;
                      disk := delete path (disk s) |}).

Definition path_exists (path : str) : M bool :=
  gets (fun s => bool_decide (is_Some (disk s !! path))).

(** The suffix of the temporary file. *)
Definition upload_suffix (os : TempFiles) (audio : UploadFile) : str :=
  let file_ext :=
    match upload_filename audio with
    | Some name => if truthy name then splitext_ext os name else py ".webm"
    | None => py ".webm"
    end in
  if negb (truthy file_ext) then py ".webm" else file_ext.

(** The statements up to [temp_path = temp_file.name]: the temporary file
    exists, empty, from its creation on; the upload is read and written to
    it.  An exception here leaves [temp_path] at [None]. *)
Definition save_upload (os : TempFiles) (audio : UploadFile) : M str :=
  let file_ext := upload_suffix os audio in
  name ← call (named_temporary_file os file_ext);
  set_file name [];;
  content ← call (upload_read audio);
  set_file name content;;
  mret name.

Section TranscribeEndpoint.
Context {rt : PyRuntime}.

(** The [finally] block: the file is removed when [temp_path] is set and
    the file exists; a failure to remove it is logged and dropped. *)
Definition remove_upload (os : TempFiles) (temp_path : option str) : M unit :=
  match temp_path with
  | Some path =>
      present ← path_exists path;
      if truthy path && present then
        try_except (call (unlink os path);; remove_file path) (fun e => mret tt)
      else mret tt
  | None => mret tt
  end.

(** The handler of [POST /api/transcribe]. *)
Definition transcribe_endpoint (storyteller : Storyteller) (env : Env) (os : TempFiles)
    (audio : UploadFile) : M TranscribeResponse := fun s =>
  let '(saved, s1) := save_upload os audio s in
  let temp_path := match saved with Ret name => Some name | Raise _ => None end in
  try_finally
    (try_except
       (temp_path ← call saved;
        present ← path_exists temp_path;
        if negb present then
          raise (Exception (py "Temp file not found: " ++ temp_path))
        else
          text ← transcribe_audio storyteller env temp_path;
          mret {| resp_text := text |})
       (fun e => raise (HTTPException 500 (py "Transcription failed: " ++ exn_str e))))
    (remove_upload os temp_path) s1.

End TranscribeEndpoint.

(** *** Notions for the chat handler *)

(** The store once the session exists: [conversation_sessions[sid] = []]
    for a session seen for the first time. *)
Definition ensure_session (sid : str) (s : State) : State :=
  if bool_decide (is_Some (conversation_sessions s !! sid)) then s
  else {| conversation_sessions := <[sid := []]> (conversation_sessions s);
          disk := disk s |}.

Section ChatNotions.
Context {cfg : Config}.

(** The history as the handler stores it after appending. *)
Definition trim_history (history : list Message) : list Message :=
  if (Z.of_nat (length history) >? MAX_CONVERSATION_HISTORY * 2)%Z
  then slice_from (- MAX_CONVERSATION_HISTORY * 2) history
  else history.

End ChatNotions.

(** The media URLs the storyteller hands out. *)
Definition image_url_of (digest : str) : str := py "/static/images/" ++ digest ++ py ".png".
Definition audio_url_of (digest : str) : str := py "/static/audio/" ++ digest ++ py ".mp3".

(** A string of characters below 128. *)
Definition is_ascii (s : str) : Prop := Forall (fun c => (c < 128)%N) s.

(* ================================================================= *)
(** ** backend.py: chat requests that overlap

    The handler is a coroutine.  It runs without interruption from its
    first statement to the first network call inside [generate_response];
    there it is suspended and other requests run; when [generate_response]
    has returned it runs without interruption to its end.  The history is
    read for the prompt before the first network call.  Across the
    suspension the handler holds its local variable [conversation_history],
    a reference to the list object the store held for the session when the
    request arrived.  So the store is modelled with its objects: a session
    is bound to the address of a list, [append] changes the list at an
    address for every holder of that address, and a slice is a new list. *)

Record Server := {
  session_object : gmap str nat;   (* conversation_sessions: the address bound to a session *)
  objects : list (list Message);   (* the list objects, by address *)
  files : gmap str bytes           (* the disk *)
}.

(** A handler suspended in [await storyteller.generate_response(...)]. *)
Record Suspended := {
  sus_request : ChatRequest;
  sus_base_url : str;
  sus_history : nat;               (* the local [conversation_history], an address *)
  sus_result : ChatResult          (* what [generate_response] returns to it *)
}.

(** The server, the handlers that are suspended, and the requests that came
    to their end: answered or refused, oldest first. *)
Record Run := {
  server : Server;
  suspended : list Suspended;
  answered : list (ChatRequest * ChatResponse);
  refused : list (ChatRequest * exn)
}.

Definition object_at (sv : Server) (address : nat) : list Message :=
  default [] (objects sv !! address).

(** Store and disk as the storyteller sees them: each session with the
    present content of its list. *)
Definition state_of (sv : Server) : State :=
  {| conversation_sessions := object_at sv <$> session_object sv; disk := files sv |}.

(** A new list object; its address is returned. *)
Definition allocate (l : list Message) (sv : Server) : nat * Server :=
  (length (objects sv),
   {| session_object := session_object sv; objects := objects sv ++ [l]; files := files sv |}).

(** [conversation_sessions[session_id] = conversation_history] *)
Definition bind_session (session_id : str) (conversation_history : nat) (sv : Server) : Server :=
  {| session_object := <[session_id := conversation_history]> (session_object sv);
     objects := objects sv; files := files sv |}.

(** [conversation_history.append(msg)]: the object changes in place. *)
Definition append_at (conversation_history : nat) (msg : Message) (sv : Server) : Server :=
  {| session_object := session_object sv;
     objects := <[conversation_history := object_at sv conversation_history ++ [msg]]> (objects sv);
     files := files sv |}.

(** [if session_id not in conversation_sessions:
        conversation_sessions[session_id] = []] *)
Definition open_session (session_id : str) (sv : Server) : Server :=
  match session_object sv !! session_id with
  | Some _ => sv
  | None => let '(fresh, sv) := allocate [] sv in bind_session session_id fresh sv
  end.

(** The disk once the media tasks of a request have written their files. *)
Definition write_files (disk' : gmap str bytes) (sv : Server) : Server :=
  {| session_object := session_object sv; objects := objects sv; files := disk' |}.

Section Overlap.
Context {rt : PyRuntime} {cfg : Config}.

(** The handler from its first statement to its suspension in
    [generate_response], or to the exception that ends it.  The files the
    media tasks write while the handler is suspended are recorded here. *)
Definition chat_arrives (storyteller : Storyteller) (t : Turn) (r : Run) : Run :=
  let env := turn_env t in
  let request := turn_request t in
  if negb (processor_initialized env) then
    let e := HTTPException 503 (py "Knowledge base not initialized. Please add PDF files.") in
    {| server := server r; suspended := suspended r; answered := answered r;
       refused := refused r ++ [(request, HTTPException 500 (exn_str e))] |}
  else
    let session_id := session_id request in
    let sv := open_session session_id (server r) in
    let conversation_history := default 0 (session_object sv !! session_id) in
    match generate_response storyteller env (question request) (generate_image request)
            (generate_audio request) (language request)
            (object_at sv conversation_history) (state_of sv) with
    | (Ret result, s) =>
        {| server := write_files (disk s) sv;
           suspended := suspended r ++ [ {| sus_request := request;
                                            sus_base_url := turn_base_url t;
                                            sus_history := conversation_history;
                                            sus_result := result |} ];
           answered := answered r; refused := refused r |}
    | (Raise e, s) =>
        {| server := write_files (disk s) sv; suspended := suspended r;
           answered := answered r;
           refused := refused r ++ [(request, HTTPException 500 (exn_str e))] |}
    end.

(** The handler from the return of [generate_response] to its end. *)
Definition chat_resumes (i : nat) (r : Run) : Run :=
  match suspended r !! i with
  | None => r
  | Some frame =>
      let request := sus_request frame in
      let result := sus_result frame in
      let conversation_history := sus_history frame in
      let sv := append_at conversation_history
                  {| role := py "user"; content := question request |} (server r) in
      let sv := append_at conversation_history
                  {| role := py "assistant"; content := answer result |} sv in
      let '(conversation_history, sv) :=
        if (Z.of_nat (length (object_at sv conversation_history))
            >? MAX_CONVERSATION_HISTORY * 2)%Z
        then allocate (slice_from (- MAX_CONVERSATION_HISTORY * 2)
                         (object_at sv conversation_history)) sv
        else (conversation_history, sv) in
      let sv := bind_session (session_id request) conversation_history sv in
      let base_url := rstrip_by (fun c => (c =? 47)%N) (sus_base_url frame) in
      {| server := sv;
         suspended := delete i (suspended r);
         answered := answered r
           ++ [(request,
                {| resp_answer := answer result;
                   resp_image_url := normalize_url base_url (image_url result);
                   resp_audio_url := normalize_url base_url (audio_url result);
                   resp_is_relevant := is_relevant result;
                   resp_sources := sources result;
                   resp_conversation_history := object_at sv conversation_history |})];
         refused := refused r |}
  end.

(** What the event loop does next: a request arrives, or the [i]-th
    suspended handler is resumed. *)
Inductive Event :=
  | Arrive (t : Turn)
  | Resume (i : nat).

Definition step (storyteller : Storyteller) (r : Run) (event : Event) : Run :=
  match event with
  | Arrive t => chat_arrives storyteller t r
  | Resume i => chat_resumes i r
  end.

Definition run (storyteller : Storyteller) (events : list Event) (r : Run) : Run :=
  fold_left (step storyteller) events r.

End Overlap.

(** The server at its start: no session, and [disk0] on the disk. *)
Definition start (disk0 : gmap str bytes) : Run :=
  {| server := {| session_object := ∅; objects := []; files := disk0 |};
     suspended := []; answered := []; refused := [] |}.

(** *** Notions for the statement about overlapping requests *)



(** The turn belongs to the session. *)
Definition of_session (sid : str) (turn : ChatRequest * ChatResponse) : Prop :=
  session_id turn.1 = sid.

(** The two messages a turn adds to the history of its session. *)
Definition turn_pair (request : ChatRequest) (result : ChatResult) : list Message :=
  [ {| role := py "user"; content := question request |};
    {| role := py "assistant"; content := answer result |} ].

Section Coherence.
Context {cfg : Config}.

(** What holds of the store after every schedule.  [owner] names, for each
    list object, the session it was made for.  The object of a session holds
    whole turns of that session, in the order of their answers: as many as
    were answered, up to [MAX_CONVERSATION_HISTORY], when it is the object
    the store is bound to; at least [MAX_CONVERSATION_HISTORY] when the
    store has moved on to a newer object. *)
Record coherent (owner : list str) (r : Run) : Prop := {
  coh_length : length owner = length (objects (server r));
  coh_bound : forall sid a, session_object (server r) !! sid = Some a -> owner !! a = Some sid;
  coh_frames : forall frame, frame ∈ suspended r ->
                 owner !! sus_history frame = Some (session_id (sus_request frame));
  coh_known : forall a sid, owner !! a = Some sid -> is_Some (session_object (server r) !! sid);
  coh_unknown : forall sid, session_object (server r) !! sid = None ->
                  turns_of sid (answered r) = 0;
  coh_objects : forall a sid, owner !! a = Some sid ->
    exists kept,
      kept `sublist_of` answered r
      /\ Forall (of_session sid) kept
      /\ objects (server r) !! a = Some (full_transcript sid kept)
      /\ (if bool_decide (session_object (server r) !! sid = Some a)
          then length kept = Nat.min (turns_of sid (answered r)) (Z.to_nat MAX_CONVERSATION_HISTORY)
          else Z.to_nat MAX_CONVERSATION_HISTORY <= length kept
               /\ Z.to_nat MAX_CONVERSATION_HISTORY <= turns_of sid (answered r))
}.

End Coherence.

Module DemoUpload.

(** [posixpath.splitext(p)[1]]: the extension starts at the last dot of the
    last component, leading dots apart. *)
Fixpoint rfind_go (c : char) (s : str) (i found : Z) : Z :=
  match s with
  | [] => found
  | a :: s' => rfind_go c s' (i + 1)%Z (if (a =? c)%N then i else found)
  end.
Definition rfind (c : char) (s : str) : Z := rfind_go c s 0%Z (-1)%Z.
Definition posix_splitext_ext (p : str) : str :=
  let sepIndex := rfind 47%N p in
  let dotIndex := rfind 46%N p in
  if (dotIndex >? sepIndex)%Z then
    let name_start := Z.to_nat (sepIndex + 1) in
    let before_dot := take (Z.to_nat dotIndex - name_start) (drop name_start p) in
    if existsb (fun a => negb (a =? 46)%N) before_dot
    then drop (Z.to_nat dotIndex) p else []
  else [].

Definition os : TempFiles := {|
  splitext_ext := posix_splitext_ext;
  named_temporary_file := fun suffix => Ret (py "/tmp/tmpk3x9" ++ suffix);
  unlink := fun _ => Ret tt
|}.

(** An upload of [n] zero bytes named recording.wav. *)
Definition recording (n : nat) : UploadFile :=
  {| upload_filename := Some (py "recording.wav"); upload_read := Ret (replicate n x00) |}.

Definition broken_upload : UploadFile :=
  {| upload_filename := None; upload_read := Raise (Exception (py "client disconnected")) |}.

(** The services of [Demo.env], with a decoder installed and a speech model
    that hears [heard]. *)
Definition env_hearing (heard : result str) : Env := {|
  processor_initialized := true;
  semantic_search := fun _ _ => Ret Demo.hits;
  openai_create := fun _ => Raise Demo.quota_error;
  gemini_generate := fun _ => Ret (py " Alice followed the rabbit. ");
  http_get := fun _ => Ret {| status := 200; body := [x89; x50; x4e; x47]; text := [] |};
  http_post := fun _ _ _ => Ret {| status := 200; body := [x49; x44; x33]; text := [] |};
  open_wb := fun _ => Ret tt;
  which_ffmpeg := Some (py "/usr/bin/ffmpeg");
  whisper_transcribe := fun _ => heard
|}.

(** No search index: the knowledge base is not initialized. *)
Definition env_without_index : Env := {|
  processor_initialized := false;
  semantic_search := fun _ _ => Ret [];
  openai_create := fun _ => Raise Demo.quota_error;
  gemini_generate := fun _ => Raise Demo.quota_error;
  http_get := fun _ => Raise Demo.quota_error;
  http_post := fun _ _ _ => Raise Demo.quota_error;
  open_wb := fun _ => Ret tt;
  which_ffmpeg := None;
  whisper_transcribe := fun _ => Raise Demo.quota_error
|}.

(** A configuration that names a provider and holds no key for it. *)
Definition config_without_keys : Config := {|
  LLM_PROVIDER := py "openai";
  GEMINI_API_KEY := [];
  OPENAI_API_KEY := [];
  ELEVENLABS_API_KEY := [];
  ELEVENLABS_API_URL := py "https://api.elevenlabs.io/v1/text-to-speech";
  ELEVENLABS_VOICE_ID := py "voice";
  IMAGE_GENERATION_ENABLED := false;
  AUDIO_ENABLED := true;
  AUDIO_STABILITY := 1 # 2;
  AUDIO_SIMILARITY_BOOST := 3 # 4;
  IMAGES_DIR := py "static/images";
  AUDIO_DIR := py "static/audio";
  SUPPORTED_LANGUAGES := Demo.languages;
  UNKNOWN_QUERY_RESPONSE := py "That is not in my storybook collection.";
  STORYTELLER_PROMPT_format := fun context question => context ++ py "\n" ++ question;
  MAX_CONVERSATION_HISTORY := 10
|}.

(** A request for text, image and narration in session a. *)
Definition request : ChatRequest :=
  {| question := py "Who follows the white rabbit?"; generate_image := true;
     generate_audio := true; language := py "en"; session_id := py "a" |}.

(** Everything answers: search, model, image and narration services. *)
Definition env_all_well : Env := env_hearing (Ret (py "  down the rabbit hole \n")).

(** The search raises. *)
Definition env_search_down : Env := {|
  processor_initialized := true;
  semantic_search := fun _ _ => Raise (Exception (py "index unreadable"));
  openai_create := fun _ => Raise Demo.quota_error;
  gemini_generate := fun _ => Raise Demo.quota_error;
  http_get := fun _ => Raise Demo.quota_error;
  http_post := fun _ _ _ => Raise Demo.quota_error;
  open_wb := fun _ => Ret tt;
  which_ffmpeg := None;
  whisper_transcribe := fun _ => Raise Demo.quota_error
|}.

(** A disk holding a recording of 1500 bytes. *)
Definition long_recording : State :=
  {| conversation_sessions := ∅; disk := {[ Demo.upload_path := replicate 1500 x00 ]} |}.

End DemoUpload.

Module DemoOverlap.

(** Room for two turns. *)
Definition config : Config := Demo.config_with (py "gemini") 2.

(** A request whose search raises. *)
Definition kept_out : Turn :=
  {| turn_env := DemoUpload.env_search_down;
     turn_request := DemoUpload.request;
     turn_base_url := py "http://localhost:8000/" |}.

(** Session a has two turns behind it when the request about the Duchess
    arrives; the request about the Queen arrives next and is answered first;
    the request about the Cat arrives then, and is answered after the one
    about the Duchess. *)
Definition events : list Event :=
  [ Arrive (Demo.ask (py "a") (py "Who is Alice?")); Resume 0;
    Arrive (Demo.ask (py "b") (py "Who is Gulliver?"));
    Arrive (Demo.ask (py "a") (py "Who is the Hatter?")); Resume 1;
    Arrive kept_out; Resume 0;
    Arrive (Demo.ask (py "a") (py "Who is the Duchess?"));
    Arrive (Demo.ask (py "a") (py "Who is the Queen?")); Resume 1;
    Arrive (Demo.ask (py "a") (py "Who is the Cat?")); Resume 0; Resume 0; Resume 0 ].

End DemoOverlap.

(* ================================================================= *)
(** * Properties *)

(** ** Literals, slices and the demo interpreter, evaluated *)

Example py_literal_ascii : py "en" = [101; 110]%N.
Proof. reflexivity. Qed.
Example py_literal_newline : py "a\nb" = [97; 10; 98]%N.
Proof. reflexivity. Qed.
Example py_literal_emoji : py "😅" = [128517]%N.
Proof. reflexivity. Qed.
Example slice_last_two : slice_from (-2) [1; 2; 3] = [2; 3].
Proof. reflexivity. Qed.
Example slice_minus_zero : slice_from (-0) [1; 2; 3] = [1; 2; 3].
Proof. reflexivity. Qed.
Example slice_short : slice_from (-6) [1; 2] = [1; 2].
Proof. reflexivity. Qed.
Example slice_first : slice_to 2 [1; 2; 3] = [1; 2].
Proof. reflexivity. Qed.
Example split_dots : str_split 46%N (py "a.b.") = [py "a"; py "b"; []].
Proof. reflexivity. Qed.
Example md5_empty : Demo.md5 [] = py "d41d8cd98f00b204e9800998ecf8427e".
Proof. vm_compute. reflexivity. Qed.
Example md5_abc :
  option_map Demo.md5 (utf8_encode (py "abc")) = Some (py "900150983cd24fb0d6963f7d28e17f72").
Proof. vm_compute. reflexivity. Qed.
Example md5_two_blocks :
  option_map Demo.md5
    (utf8_encode (py "12345678901234567890123456789012345678901234567890123456789012345678901234567890"))
  = Some (py "57edf4a22be3c955ac49da2e2107b67a").
Proof. vm_compute. reflexivity. Qed.
Example quote_escapes : Demo.quote (py "tea party, ç/") = py "tea%20party%2C%20%C3%A7/".
Proof. vm_compute. reflexivity. Qed.

(** ** Slices and folds *)

Lemma slice_to_take {A} (n : nat) (l : list A) : slice_to (Z.of_nat n) l = take n l.
Proof.
  unfold slice_to, slice_index.
  destruct (Z.ltb_spec (Z.of_nat n) 0) as [?|_]; [lia|].
  destruct (Nat.le_gt_cases (length l) n) as [Hle|Hgt].
  - rewrite !take_ge by lia. reflexivity.
  - f_equal. lia.
Qed.

Lemma slice_to_prefix {A} (i : Z) (l : list A) : slice_to i l `prefix_of` l.
Proof. unfold slice_to. apply prefix_take. Qed.

Lemma length_slice_to {A} (n : nat) (l : list A) : length (slice_to (Z.of_nat n) l) <= n.
Proof. rewrite slice_to_take, length_take. lia. Qed.

Lemma slice_from_last {A} (n : nat) (l : list A) :
  0 < n -> slice_from (- Z.of_nat n) l = keep_last n l.
Proof.
  intros Hn. unfold slice_from, slice_index, keep_last.
  destruct (Z.ltb_spec (- Z.of_nat n) 0) as [_|?]; [|lia].
  f_equal. lia.
Qed.

Lemma keep_last_short {A} (n : nat) (l : list A) : length l <= n -> keep_last n l = l.
Proof. intros H. unfold keep_last. replace (length l - n) with 0 by lia. reflexivity. Qed.

Lemma length_keep_last {A} (n : nat) (l : list A) :
  length (keep_last n l) = Nat.min (length l) n.
Proof. unfold keep_last. rewrite length_drop. lia. Qed.

Lemma keep_last_app {A} (n : nat) (l x : list A) :
  keep_last n (keep_last n l ++ x) = keep_last n (l ++ x).
Proof.
  destruct (Nat.le_gt_cases (length l) n) as [Hle|Hgt].
  - rewrite (keep_last_short n l Hle). reflexivity.
  - unfold keep_last at 1 3. rewrite !length_app, length_keep_last.
    replace (Nat.min (length l) n) with n by lia.
    unfold keep_last.
    rewrite !drop_app, length_drop, drop_drop.
    replace (length l - n + (n + length x - n)) with (length l + length x - n) by lia.
    f_equal. f_equal. lia.
Qed.

Lemma fold_left_snoc {A B} (f : A -> B) (l : list A) (acc : list B) :
  fold_left (fun acc x => acc ++ [f x]) l acc = acc ++ map f l.
Proof.
  revert acc. induction l as [|x l IH]; intros acc; cbn [fold_left map].
  - rewrite app_nil_r. reflexivity.
  - rewrite IH, <- app_assoc. reflexivity.
Qed.

Lemma fold_left_append {A B} (f : A -> list B) (l : list A) (acc : list B) :
  fold_left (fun acc x => acc ++ f x) l acc = acc ++ concat (map f l).
Proof.
  revert acc. induction l as [|x l IH]; intros acc; cbn [fold_left map concat].
  - rewrite app_nil_r. reflexivity.
  - rewrite IH, <- app_assoc. reflexivity.
Qed.

Lemma str_eqb_true (a b : str) : str_eqb a b = true <-> a = b.
Proof. unfold str_eqb. apply bool_decide_eq_true. Qed.

Lemma str_eqb_false (a b : str) : str_eqb a b = false <-> a <> b.
Proof. unfold str_eqb. apply bool_decide_eq_false. Qed.

(* ================================================================= *)
(** ** The relevance gate *)






Example relevant_at_mean_06 : _is_relevant Demo.hits = true.
Proof. vm_compute. reflexivity. Qed.
Example irrelevant_at_threshold :
  _is_relevant [ (py "a", {| source := py "s" |}, 0.25%float);
                 (py "b", {| source := py "s" |}, 0.25%float) ]
  = false.
Proof. vm_compute. reflexivity. Qed.

(** The scores of a source are printed as the interpreter prints them: the
    value the float stands for, rounded to two decimals, a tie to the even
    digit. *)
Example scores_to_two_decimals :
  map Demo.two_decimals
      [ 0x1.6666666666666p-1; 0.125; 0.375; 0x1.47ae147ae147bp-8; 0x1.0147ae147ae14p+0;
        0x1.8b0a3d70a3d71p+3; 2.5; 0 ]%float
  = [ py "0.70"; py "0.12"; py "0.38"; py "0.01"; py "1.00"; py "12.35"; py "2.50"; py "0.00" ].
Proof. vm_compute. reflexivity. Qed.

(** Where rounding decides the other way: the numbers these five scores
    stand for have a mean below 0.25, and the gate answers [True]. *)
Example relevant_by_rounding :
  let xs := [ 0x1.eb851eb851eb8p-6; 0x1.6b851eb851eb8p-1; 0x1.999999999999ap-2;
              0x1.c28f5c28f5c29p-4; 0 ]%float in
  _is_relevant (map (fun x => (py "a", {| source := py "s" |}, x)) xs) = true
  /\ exists mean : Q, Design.arithmetic_mean xs = Some mean /\ (mean < 1 # 4)%Q.
Proof. split; [vm_compute; reflexivity|]. eexists. split; vm_compute; reflexivity. Qed.

(* ================================================================= *)
(** ** Only the chat handler touches the session store *)

Lemma keeps_ret {A} (a : A) : keeps_sessions (mret a).
Proof. intros s. reflexivity. Qed.

Lemma keeps_raise {A} (e : exn) : keeps_sessions (@raise A e).
Proof. intros s. reflexivity. Qed.

Lemma keeps_call {A} (r : result A) : keeps_sessions (call r).
Proof. intros s. reflexivity. Qed.

Lemma keeps_gets {A} (f : State -> A) : keeps_sessions (gets f).
Proof. intros s. reflexivity. Qed.

Lemma keeps_bind {A B} (m : M A) (f : A -> M B) :
  keeps_sessions m -> (forall a, keeps_sessions (f a)) -> keeps_sessions (m ≫= f).
Proof.
  intros Hm Hf s. unfold mbind, M_bind.
  specialize (Hm s). destruct (m s) as [[a|e] s']; simpl in *.
  - rewrite Hf. exact Hm.
  - exact Hm.
Qed.

Lemma keeps_try {A} (m : M A) (h : exn -> M A) :
  keeps_sessions m -> (forall e, keeps_sessions (h e)) -> keeps_sessions (try_except m h).
Proof.
  intros Hm Hh s. unfold try_except.
  specialize (Hm s). destruct (m s) as [[a|e] s']; simpl in *.
  - exact Hm.
  - rewrite Hh. exact Hm.
Qed.

Lemma keeps_settle {A} (m : M A) : keeps_sessions m -> keeps_sessions (settle m).
Proof.
  intros Hm s. unfold settle. specialize (Hm s). destruct (m s) as [r s']. exact Hm.
Qed.

Lemma keeps_if {A} (b : bool) (m1 m2 : M A) :
  keeps_sessions m1 -> keeps_sessions m2 -> keeps_sessions (if b then m1 else m2).
Proof. destruct b; auto. Qed.

Create HintDb frame.
#[local] Hint Resolve keeps_ret keeps_raise keeps_call keeps_gets keeps_settle : frame.

Ltac frame :=
  repeat first
    [ progress intros
    | solve [auto with frame]
    | apply keeps_ret | apply keeps_raise | apply keeps_call | apply keeps_gets
    | apply keeps_bind | apply keeps_try | apply keeps_settle | apply keeps_if
    | match goal with
      | |- keeps_sessions (match ?x with _ => _ end) => destruct x
      | |- keeps_sessions (let '(_, _) := ?x in _) => destruct x
      end ].

Section Frame.
Context {rt : PyRuntime} {cfg : Config}.

Lemma keeps_write_file env path data : keeps_sessions (write_file env path data).
Proof.
  unfold write_file. apply keeps_bind; [apply keeps_call|].
  intros _ s. reflexivity.
Qed.

#[local] Hint Resolve keeps_write_file : frame.

Lemma keeps_md5_hex s : keeps_sessions (md5_hex s).
Proof. unfold md5_hex. frame. Qed.
#[local] Hint Resolve keeps_md5_hex : frame.

Lemma keeps_generate_image env question answer :
  keeps_sessions (_generate_image env question answer).
Proof.
  unfold _generate_image, choose_image_prompt. frame.
Qed.

Lemma keeps_generate_audio env text language :
  keeps_sessions (_generate_audio env text language).
Proof.
  unfold _generate_audio. frame.
Qed.

Lemma keeps_generate_text self env question context language history :
  keeps_sessions (_generate_text self env question context language history).
Proof. unfold _generate_text. frame. Qed.
#[local] Hint Resolve keeps_generate_image keeps_generate_audio keeps_generate_text : frame.

Lemma keeps_generate_response self env question gi ga language history :
  keeps_sessions (generate_response self env question gi ga language history).
Proof.
  unfold generate_response, gather_return_exceptions, sleep0.
  frame.
Qed.
End Frame.

(* ================================================================= *)
(** ** The session store *)

Section Sessions.
Context {rt : PyRuntime} {cfg : Config}.

Lemma trim_keep_last (l : list Message) :
  (0 < MAX_CONVERSATION_HISTORY)%Z ->
  (if (Z.of_nat (length l) >? MAX_CONVERSATION_HISTORY * 2)%Z
   then slice_from (- MAX_CONVERSATION_HISTORY * 2) l else l) = keep_last session_cap l.
Proof.
  intros Hpos. unfold session_cap.
  destruct (Z.gtb_spec (Z.of_nat (length l)) (MAX_CONVERSATION_HISTORY * 2)) as [Hgt|Hle].
  - unfold slice_from, slice_index, keep_last.
    destruct (Z.ltb_spec (- MAX_CONVERSATION_HISTORY * 2) 0) as [_|?]; [|lia].
    f_equal. lia.
  - apply eq_sym, keep_last_short. lia.
Qed.

Lemma stored_insert_eq (m : gmap str (list Message)) sid h d :
  stored_history {| conversation_sessions := <[sid := h]> m; disk := d |} sid = h.
Proof. unfold stored_history; simpl. rewrite lookup_insert_eq. reflexivity. Qed.

Lemma stored_insert_ne (m : gmap str (list Message)) sid sid' h d :
  sid <> sid' ->
  stored_history {| conversation_sessions := <[sid := h]> m; disk := d |} sid'
  = default [] (m !! sid').
Proof. intros H. unfold stored_history; simpl. rewrite lookup_insert_ne by exact H. reflexivity. Qed.

Lemma chat_sessions storyteller env request base_url s :
  (0 < MAX_CONVERSATION_HISTORY)%Z ->
  match chat storyteller env request base_url s with
  | (Ret response, s') =>
      stored_history s' (session_id request)
      = keep_last session_cap (stored_history s (session_id request)
                       ++ turn_messages (session_id request) (request, response))
      /\ forall sid, sid <> session_id request ->
                     stored_history s' sid = stored_history s sid
  | (Raise _, s') => forall sid, stored_history s' sid = stored_history s sid
  end.
Proof.
  intros Hpos. unfold chat, try_except.
  destruct (processor_initialized env); cbn [negb]; [|cbn; intros sid; reflexivity].
  assert (Hcreate : exists s1,
    (if negb (bool_decide (is_Some (conversation_sessions s !! session_id request)))
     then set_session (session_id request) [] else mret ()) s = (Ret (), s1)
    /\ forall sid, stored_history s1 sid = stored_history s sid).
  { destruct (bool_decide (is_Some (conversation_sessions s !! session_id request))) eqn:Hk;
      cbn [negb].
    - exists s. split; [reflexivity | reflexivity].
    - eexists. split; [reflexivity|]. intros sid.
      apply bool_decide_eq_false in Hk.
      destruct (decide (session_id request = sid)) as [<-|Hne].
      + rewrite stored_insert_eq. unfold stored_history.
        destruct (conversation_sessions s !! session_id request) eqn:E; [|reflexivity].
        exfalso. apply Hk. eauto.
      + rewrite stored_insert_ne by exact Hne. reflexivity. }
  destruct Hcreate as (s1 & Hrun & Hsame).
  unfold mbind, M_bind, gets. rewrite Hrun.
  unfold get_session at 1. unfold gets.
  pose proof (keeps_generate_response storyteller env (question request)
    (generate_image request) (generate_audio request) (language request)
    (default [] (conversation_sessions s1 !! session_id request)) s1) as Hkeep.
  destruct (generate_response _ _ _ _ _ _ _ s1) as [[result|e] s2]; simpl in Hkeep.
  - unfold append_message, get_session, set_session, gets, modify, mbind, M_bind. cbn.
    rewrite !lookup_insert_eq. cbn. rewrite Hkeep.
    fold (stored_history s1 (session_id request)). rewrite Hsame.
    rewrite <- !app_assoc. cbn [app].
    split.
    + rewrite stored_insert_eq, trim_keep_last by exact Hpos.
      unfold turn_messages, str_eqb. cbn [fst snd session_id resp_answer].
      rewrite bool_decide_eq_true_2 by reflexivity. reflexivity.
    + intros sid Hne.
      rewrite stored_insert_ne by (intros Heq; apply Hne; symmetry; exact Heq).
      rewrite !lookup_insert_ne by (intros Heq; apply Hne; symmetry; exact Heq).
      apply Hsame.
  - cbn. intros sid. unfold stored_history at 1. rewrite Hkeep. apply Hsame.
Qed.

(** After any sequence of requests, the history of a session is the tail of
    what its answered turns said. *)
Lemma serve_sessions storyteller turns s sid (said : list Message) :
  (0 < MAX_CONVERSATION_HISTORY)%Z ->
  stored_history s sid = keep_last session_cap said ->
  stored_history (serve storyteller turns s).2 sid
  = keep_last session_cap (said ++ full_transcript sid (serve storyteller turns s).1).
Proof.
  intros Hpos. revert s said.
  induction turns as [|t rest IH]; intros s said Hs; cbn [serve].
  - cbn. rewrite app_nil_r. exact Hs.
  - pose proof (chat_sessions storyteller (turn_env t) (turn_request t) (turn_base_url t) s Hpos)
      as Hchat.
    destruct (chat storyteller (turn_env t) (turn_request t) (turn_base_url t) s)
      as [[response|e] s'].
    + destruct Hchat as [Hown Hother].
      specialize (IH s' (said ++ turn_messages sid (turn_request t, response))).
      destruct (serve storyteller rest s') as [answered s''] eqn:Hserve.
      cbn [fst snd] in *. unfold full_transcript in *. cbn [flat_map].
      rewrite app_assoc. apply IH.
      destruct (decide (sid = session_id (turn_request t))) as [->|Hne].
      * rewrite Hown, Hs. apply keep_last_app.
      * rewrite (Hother sid Hne), Hs.
        unfold turn_messages, str_eqb. cbn [fst].
        rewrite bool_decide_eq_false_2 by (intros Heq; apply Hne; symmetry; exact Heq).
        rewrite app_nil_r. reflexivity.
    + apply IH. rewrite Hchat. exact Hs.
Qed.


Lemma full_transcript_roles sid answered :
  Forall Design.valid_role (full_transcript sid answered).
Proof.
  unfold full_transcript. induction answered as [|turn rest IH]; [constructor|].
  cbn [flat_map]. apply Forall_app. split; [|exact IH].
  unfold turn_messages. destruct (str_eqb (session_id turn.1) sid); [|constructor].
  constructor; [left; reflexivity|]. constructor; [right; reflexivity|]. constructor.
Qed.

(** Every history the store hands to the storyteller is made of user and
    assistant messages. *)
Lemma stored_roles_valid storyteller turns files sid :
  (0 < MAX_CONVERSATION_HISTORY)%Z ->
  Forall Design.valid_role
    (stored_history (serve storyteller turns
                       {| conversation_sessions := ∅; disk := files |}).2 sid).
Proof.
  intros Hpos.
  rewrite (serve_sessions storyteller turns _ sid [] Hpos) by reflexivity.
  unfold keep_last. apply Forall_drop, full_transcript_roles.
Qed.

End Sessions.

(* ================================================================= *)
(** ** Text generation *)

Section Text.
Context {rt : PyRuntime} {cfg : Config}.

Lemma generate_text_run self env question context language history s :
  _generate_text self env question context language history s =
  (Ret match provider_call self env (compose_base_prompt question context language) history with
       | Some (Ret response) => strip_by isspace response
       | Some (Raise e) => apology e
       | None => py "Sorry, text generation is not available. Please configure LLM API key."
       end, s).
Proof.
  unfold _generate_text, provider_call, try_except, apology.
  destruct (str_eqb LLM_PROVIDER (py "openai") && openai_client self).
  { unfold mbind, M_bind, call. destruct (openai_create env _); reflexivity. }
  destruct (str_eqb LLM_PROVIDER (py "gemini") && gemini_model self).
  { unfold mbind, M_bind, call. destruct (gemini_generate env _); reflexivity. }
  reflexivity.
Qed.

(** C5. When the call to the configured provider raises [e],
    [_generate_text] does not raise: it returns the apology string, which
    embeds the first 100 characters of the text of [e] (all of it when it is
    shorter), and it leaves the state as it was. *)
Theorem generate_text_recovers self env question context language history e s :
  provider_call self env (compose_base_prompt question context language) history
    = Some (Raise e) ->
  let detail := take 100 (exn_str e) in
  _generate_text self env question context language history s
    = (Ret (py "Oops! My wit machine broke down. Try asking again! 😅 (Error: "
              ++ detail ++ py ")"), s)
  /\ length detail <= 100.
Proof.
  intros Hcall detail. subst detail.
  rewrite generate_text_run, Hcall. unfold apology.
  rewrite (slice_to_take 100), length_take. split; [reflexivity | lia].
Qed.

Lemma openai_messages_window base_prompt history :
  openai_messages base_prompt history
  = Design.history_window history ++ [{| role := py "user"; content := base_prompt |}].
Proof.
  unfold openai_messages, Design.history_window.
  rewrite (slice_from_last 6) by lia. unfold keep_last.
  rewrite (fold_left_snoc (fun msg => {| role := role msg; content := content msg |})).
  cbn [app]. f_equal.
  rewrite <- (map_id (drop _ history)) at 2. apply map_ext. intros []. reflexivity.
Qed.

Lemma gemini_prompt_window base_prompt history :
  gemini_prompt base_prompt history
  = (if truthy history
     then Design.transcript (Design.history_window history) ++ py "\n" else [])
    ++ base_prompt.
Proof.
  unfold gemini_prompt, Design.transcript, Design.history_window.
  destruct (truthy history); [|reflexivity].
  rewrite (slice_from_last 6) by lia. unfold keep_last.
  rewrite (fold_left_append
    (fun msg => (if str_eqb (role msg) (py "user") then py "User" else py "Assistant")
                  ++ py ": " ++ content msg ++ py "\n")).
  unfold Design.transcript_entries. rewrite map_map.
  rewrite <- !app_assoc. reflexivity.
Qed.

Lemma entries_recover_messages (window : list Message) :
  Forall Design.valid_role window ->
  map Design.message_of_entry (Design.transcript_entries window) = window.
Proof.
  unfold Design.transcript_entries.
  induction 1 as [|[r c] rest Hmsg _ IH]; [reflexivity|].
  cbn [map]. rewrite IH. f_equal.
  destruct Hmsg as [Hr|Hr]; cbn [role] in Hr; subst r; reflexivity.
Qed.

Lemma cut_at_newline (a b r1 r2 : str) :
  10%N ∉ a -> 10%N ∉ b -> a ++ 10%N :: r1 = b ++ 10%N :: r2 -> a = b /\ r1 = r2.
Proof.
  revert b. induction a as [|x a IH]; intros [|y b] Ha Hb Heq; cbn [app] in Heq.
  - injection Heq as ->. split; reflexivity.
  - injection Heq as <- _. exfalso. apply Hb. left.
  - injection Heq as -> _. exfalso. apply Ha. left.
  - injection Heq as -> Heq.
    apply not_elem_of_cons in Ha as [_ Ha]. apply not_elem_of_cons in Hb as [_ Hb].
    destruct (IH b Ha Hb Heq) as [-> ->]. split; reflexivity.
Qed.

Lemma label_user : py "User" = [85; 115; 101; 114]%N.
Proof. reflexivity. Qed.
Lemma label_assistant : py "Assistant" = [65; 115; 115; 105; 115; 116; 97; 110; 116]%N.
Proof. reflexivity. Qed.
Lemma newline_literal : py "\n" = [10%N].
Proof. reflexivity. Qed.
Lemma colon_literal : py ": " = [58; 32]%N.
Proof. reflexivity. Qed.

(** A line of the transcript, read back. *)
Lemma transcript_line_inj (m1 m2 : Message) (rest1 rest2 : str) :
  Design.valid_role m1 -> Design.valid_role m2 -> Design.single_line m1 -> Design.single_line m2 ->
  concat (map Design.transcript_line (Design.transcript_entries [m1])) ++ rest1
  = concat (map Design.transcript_line (Design.transcript_entries [m2])) ++ rest2 ->
  m1 = m2 /\ rest1 = rest2.
Proof.
  destruct m1 as [r1 c1], m2 as [r2 c2]. unfold Design.single_line, Design.valid_role. cbn [role content].
  intros Hr1 Hr2 Hc1 Hc2.
  unfold Design.transcript_entries, Design.transcript_line.
  cbn [map concat fst snd role content]. rewrite !app_nil_r, newline_literal, colon_literal.
  rewrite <- !app_assoc. cbn [app].
  assert (Huser : str_eqb (py "user") (py "user") = true) by reflexivity.
  assert (Hassistant : str_eqb (py "assistant") (py "user") = false) by reflexivity.
  destruct Hr1 as [-> | ->], Hr2 as [-> | ->];
    rewrite ?Huser, ?Hassistant, ?label_user, ?label_assistant; cbn [app];
    intros Heq; try discriminate Heq.
  - injection Heq as Heq.
    destruct (cut_at_newline c1 c2 rest1 rest2 Hc1 Hc2 Heq) as [-> ->]. split; reflexivity.
  - injection Heq as Heq.
    destruct (cut_at_newline c1 c2 rest1 rest2 Hc1 Hc2 Heq) as [-> ->]. split; reflexivity.
Qed.

Lemma transcript_line_starts (m : Message) (rest : str) :
  concat (map Design.transcript_line (Design.transcript_entries [m])) ++ rest <> [].
Proof.
  unfold Design.transcript_entries, Design.transcript_line. cbn [map concat fst snd].
  destruct (str_eqb (role m) (py "user")); rewrite ?label_user, ?label_assistant;
    cbn [app]; discriminate.
Qed.

Lemma transcript_lines_cons (m : Message) (w : list Message) :
  concat (map Design.transcript_line (Design.transcript_entries (m :: w)))
  = concat (map Design.transcript_line (Design.transcript_entries [m]))
    ++ concat (map Design.transcript_line (Design.transcript_entries w)).
Proof.
  unfold Design.transcript_entries. cbn [map concat]. rewrite app_nil_r. reflexivity.
Qed.

(** For single-line messages the text of the transcript determines the
    messages it was made from. *)
Lemma transcript_determines_window (w1 w2 : list Message) :
  Forall Design.valid_role w1 -> Forall Design.valid_role w2 ->
  Forall Design.single_line w1 -> Forall Design.single_line w2 ->
  Design.transcript w1 = Design.transcript w2 -> w1 = w2.
Proof.
  unfold Design.transcript. intros Hr1 Hr2 Hl1 Hl2 Heq. apply app_inv_head in Heq.
  revert w2 Hr2 Hl2 Heq.
  induction w1 as [|m1 w1 IH]; intros [|m2 w2] Hr2 Hl2 Heq.
  - reflexivity.
  - exfalso. rewrite (transcript_lines_cons m2 w2) in Heq. symmetry in Heq.
    exact (transcript_line_starts m2 _ Heq).
  - exfalso. rewrite (transcript_lines_cons m1 w1) in Heq.
    exact (transcript_line_starts m1 _ Heq).
  - rewrite (transcript_lines_cons m1 w1), (transcript_lines_cons m2 w2) in Heq.
    apply Forall_cons in Hr1 as [Hm1 Hr1]. apply Forall_cons in Hr2 as [Hm2 Hr2].
    apply Forall_cons in Hl1 as [Hs1 Hl1]. apply Forall_cons in Hl2 as [Hs2 Hl2].
    destruct (transcript_line_inj m1 m2 _ _ Hm1 Hm2 Hs1 Hs2 Heq) as [-> Hrest].
    f_equal. exact (IH Hr1 Hl1 w2 Hr2 Hl2 Hrest).
Qed.

(** C6. For a history of user and assistant messages, the chat-completion
    provider receives the last six messages as they are, followed by the
    prompt; the single-prompt provider receives, before the prompt, the
    transcript of the same six messages in the same order; and the entries
    of that transcript give back exactly those messages. *)
Theorem provider_history_equivalence base_prompt history :
  Forall Design.valid_role history ->
  let window := Design.history_window history in
  openai_messages base_prompt history
    = window ++ [{| role := py "user"; content := base_prompt |}]
  /\ gemini_prompt base_prompt history
    = (if truthy history then Design.transcript window ++ py "\n" else []) ++ base_prompt
  /\ map Design.message_of_entry (Design.transcript_entries window) = window.
Proof.
  intros Hvalid window. split; [apply openai_messages_window|].
  split; [apply gemini_prompt_window|].
  apply entries_recover_messages. unfold window, Design.history_window.
  apply Forall_drop. exact Hvalid.
Qed.
End Text.

(* ================================================================= *)
(** ** The language instruction *)

Section Lang.
Context {rt : PyRuntime} {cfg : Config}.

(** C7. For a language other than "en" the composed prompt is the
    formatted template followed by the instruction that names the language
    the table gives (English when the table has no entry); for "en" it is the
    formatted template alone.  This prompt is the last message sent to the
    chat-completion provider and the end of the text sent to the
    single-prompt provider. *)
Theorem language_instruction_law question context language history :
  let name := default (py "English") (SUPPORTED_LANGUAGES !! language) in
  let instruction :=
    py "\n\n**CRITICAL: You MUST respond ENTIRELY in " ++ name
      ++ py ". Do NOT use English. Translate everything to " ++ name ++ py ".**" in
  let prompt := compose_base_prompt question context language in
  (language <> py "en" ->
     prompt = STORYTELLER_PROMPT_format context question ++ instruction)
  /\ (language = py "en" -> prompt = STORYTELLER_PROMPT_format context question)
  /\ last (openai_messages prompt history) = Some {| role := py "user"; content := prompt |}
  /\ exists before, gemini_prompt prompt history = before ++ prompt.
Proof.
  intros name instruction prompt.
  unfold prompt, compose_base_prompt, lang_instruction_for.
  repeat split.
  - intros Hne. apply str_eqb_false in Hne. rewrite Hne. reflexivity.
  - intros Heq. apply str_eqb_true in Heq. rewrite Heq. cbn [negb].
    apply app_nil_r.
  - rewrite openai_messages_window. apply last_snoc.
  - rewrite gemini_prompt_window. eexists. reflexivity.
Qed.

(** C10. For a language code that is not "en" and not a key of
    [SUPPORTED_LANGUAGES], the composed prompt ends with the instruction to
    respond entirely in English. *)
Theorem unsupported_language_names_english question context language :
  language <> py "en" ->
  SUPPORTED_LANGUAGES !! language = None ->
  compose_base_prompt question context language
  = STORYTELLER_PROMPT_format context question
    ++ py "\n\n**CRITICAL: You MUST respond ENTIRELY in English. Do NOT use English. Translate everything to English.**".
Proof.
  intros Hne Hnone. unfold compose_base_prompt, lang_instruction_for.
  apply str_eqb_false in Hne. rewrite Hne, Hnone. cbn [negb default].
  f_equal.
Qed.
End Lang.

(* ================================================================= *)
(** ** The image prompt *)

Lemma found_is_filter (combined : str) (table : list (str * str)) (found : list str) :
  fold_left (fun found '(key, desc) =>
               if str_in key combined then found ++ [desc] else found) table found
  = found ++ map snd (List.filter (fun entry => str_in (fst entry) combined) table).
Proof.
  revert found. induction table as [|[key desc] table IH]; intros found.
  - cbn. rewrite app_nil_r. reflexivity.
  - cbn [fold_left List.filter fst]. rewrite IH.
    destruct (str_in key combined); [|reflexivity].
    cbn [map snd]. rewrite <- app_assoc. reflexivity.
Qed.

Lemma found_matching (combined : str) :
  fold_left (fun found '(key, desc) =>
               if str_in key combined then found ++ [desc] else found) keywords []
  = Design.matching_phrases combined.
Proof.
  rewrite (found_is_filter combined keywords []).
  unfold Design.matching_phrases. apply app_nil_l.
Qed.



Section Image.
Context {rt : PyRuntime} {cfg : Config}.

Lemma scene_as_designed (found : list str) :
  (if truthy found then str_join (py ", ") (slice_to 3 found)
   else py "classic storybook scene") = Design.scene_description found.
Proof.
  destruct found as [|p rest]; cbn [truthy Design.scene_description].
  - reflexivity.
  - rewrite (slice_to_take 3). reflexivity.
Qed.




End Image.

(* ================================================================= *)
(** ** Media tasks and transcription *)

Section Media.
Context {rt : PyRuntime} {cfg : Config}.

(** What a successful narration did. *)
Lemma generate_audio_some env text language s url s' :
  _generate_audio env text language s = (Ret (Some url), s') ->
  exists encoded response,
    utf8_encode (re_sub_clean text) = Some encoded
    /\ status response = 200%Z
    /\ url = py "/static/audio/" ++ md5_hexdigest encoded ++ py ".mp3"
    /\ s' = {| conversation_sessions := conversation_sessions s;
               disk := <[path_join AUDIO_DIR (md5_hexdigest encoded ++ py ".mp3")
                         := body response]> (disk s) |}.
Proof.
  unfold _generate_audio.
  destruct (truthy ELEVENLABS_API_KEY); cbn [negb]; [|discriminate].
  destruct AUDIO_ENABLED; cbn [negb]; [|discriminate].
  unfold try_except, mbind, M_bind, call, md5_hex, write_file, modify, mret, M_ret, raise.
  destruct (length (re_sub_clean text) =? 0); [discriminate|].
  destruct (http_post env _ _ _) as [response|e]; [|discriminate].
  destruct (Z.eqb_spec (status response) 200) as [Hok|Hbad]; cbn [negb]; [|discriminate].
  destruct (utf8_encode (re_sub_clean text)) as [encoded|]; [|discriminate].
  destruct (open_wb env _) as [[]|e]; [|discriminate].
  intros H. injection H as <- <-.
  exists encoded, response. repeat split. exact Hok.
Qed.

(** C8. Two narration calls that return a URL for texts with the same
    cleaned text return the same URL [/static/audio/<hash>.mp3], where the
    hash is the digest of the encoded cleaned text, and write the same path,
    whatever the requests, languages, services and states. *)
Theorem audio_cache_equivalence env1 env2 text1 text2 language1 language2
    s1 s2 url1 url2 s1' s2' :
  re_sub_clean text1 = re_sub_clean text2 ->
  _generate_audio env1 text1 language1 s1 = (Ret (Some url1), s1') ->
  _generate_audio env2 text2 language2 s2 = (Ret (Some url2), s2') ->
  url1 = url2
  /\ exists encoded data1 data2,
       utf8_encode (re_sub_clean text1) = Some encoded
       /\ let content_hash := md5_hexdigest encoded in
          url1 = py "/static/audio/" ++ content_hash ++ py ".mp3"
          /\ disk s1' = <[path_join AUDIO_DIR (content_hash ++ py ".mp3") := data1]> (disk s1)
          /\ disk s2' = <[path_join AUDIO_DIR (content_hash ++ py ".mp3") := data2]> (disk s2).
Proof.
  intros Hclean H1 H2.
  apply generate_audio_some in H1 as (enc1 & r1 & Henc1 & _ & -> & ->).
  apply generate_audio_some in H2 as (enc2 & r2 & Henc2 & _ & -> & ->).
  rewrite <- Hclean, Henc1 in Henc2. injection Henc2 as <-.
  split; [reflexivity|].
  exists enc1, (body r1), (body r2). repeat split. exact Henc1.
Qed.

(** No failure inside a media task leaves it as an exception. *)
Lemma generate_image_returns env question answer s :
  exists r s', _generate_image env question answer s = (Ret r, s').
Proof.
  unfold _generate_image, try_except, mret, M_ret.
  destruct (_ s) as [[r|e] s']; eauto.
Qed.

Lemma generate_audio_returns env text language s :
  exists r s', _generate_audio env text language s = (Ret r, s').
Proof.
  unfold _generate_audio, mret, M_ret.
  destruct (negb (truthy ELEVENLABS_API_KEY)); [eauto|].
  destruct (negb AUDIO_ENABLED); [eauto|].
  unfold try_except. destruct (_ s) as [[r|e] s']; eauto.
Qed.


(** A failed image request is absorbed: no URL, nothing written. *)
Lemma generate_image_absorbs env question answer s :
  image_request_fails env (image_endpoint (_create_image_prompt question answer)) ->
  _generate_image env question answer s = (Ret None, s).
Proof.
  intros Hfail. unfold _generate_image, try_except.
  destruct IMAGE_GENERATION_ENABLED; cbn [negb]; [|reflexivity].
  unfold choose_image_prompt, try_except, mbind, M_bind, call, mret, M_ret.
  destruct Hfail as [e Hget | response Hget Hstatus]; rewrite Hget.
  - reflexivity.
  - destruct (Z.eqb_spec (status response) 200) as [Hok|_]; [contradiction|reflexivity].
Qed.

(** An image task that yields no URL has written nothing. *)
Lemma generate_image_none env question answer s s' :
  _generate_image env question answer s = (Ret None, s') -> s' = s.
Proof.
  unfold _generate_image, try_except.
  destruct IMAGE_GENERATION_ENABLED; cbn [negb];
    [|unfold mret, M_ret; intros H; injection H as <-; reflexivity].
  unfold choose_image_prompt, try_except, mbind, M_bind, call, md5_hex, write_file,
    modify, mret, M_ret, raise.
  destruct (http_get env _) as [response|e];
    [|intros H; injection H as <-; reflexivity].
  destruct (status response =? 200)%Z;
    [|intros H; injection H as <-; reflexivity].
  destruct (utf8_encode _) as [encoded|];
    [|intros H; injection H as <-; reflexivity].
  destruct (open_wb env _) as [[]|e]; [discriminate|].
  intros H; injection H as <-; reflexivity.
Qed.

(** The full pipeline when the image task yields no URL, whatever the
    cause, and the narration task yields one. *)
Lemma pipeline_without_image self env question language history results
    generated s s0 s0' url s1 :
  IMAGE_GENERATION_ENABLED = true ->
  semantic_search env question 5 = Ret results ->
  _is_relevant results = true ->
  _generate_text self env question
      (str_join (py "\n\n") (map (fun '(chunk, _, _) => chunk) results))
      language history s = (Ret generated, s0) ->
  _generate_image env question generated s0 = (Ret None, s0') ->
  _generate_audio env generated language s0 = (Ret (Some url), s1) ->
  generate_response self env question true true language history s
  = (Ret {| answer := generated; image_url := None; audio_url := Some url;
            is_relevant := true; sources := map make_source results |}, s1).
Proof.
  intros Himage Hsearch Hrelevant Htext Hnone Haudio.
  assert (Haudio_on : AUDIO_ENABLED = true).
  { destruct AUDIO_ENABLED eqn:E; [reflexivity|].
    unfold _generate_audio in Haudio. rewrite E in Haudio.
    destruct (truthy ELEVENLABS_API_KEY); discriminate. }
  pose proof (generate_image_none _ _ _ _ _ Hnone) as ->.
  unfold generate_response, mbind, M_bind, call.
  rewrite Hsearch, Hrelevant. cbn [negb]. rewrite Htext.
  rewrite Himage, Haudio_on. cbn [andb].
  unfold gather_return_exceptions, settle, mbind, M_bind.
  rewrite Hnone, Haudio. reflexivity.
Qed.

(** C1. In the full pipeline with both media tasks running, when the image
    request raises or is answered with a status other than 200 and the
    narration task returns a URL, [generate_response] returns, without
    raising, the generated answer with no image URL and that audio URL; the
    narration task runs from the state the text generation left. *)
Theorem image_failure_is_isolated self env question language history results
    generated s s0 url s1 :
  IMAGE_GENERATION_ENABLED = true ->
  semantic_search env question 5 = Ret results ->
  _is_relevant results = true ->
  _generate_text self env question
      (str_join (py "\n\n") (map (fun '(chunk, _, _) => chunk) results))
      language history s = (Ret generated, s0) ->
  image_request_fails env (image_endpoint (_create_image_prompt question generated)) ->
  _generate_audio env generated language s0 = (Ret (Some url), s1) ->
  generate_response self env question true true language history s
  = (Ret {| answer := generated; image_url := None; audio_url := Some url;
            is_relevant := true; sources := map make_source results |}, s1).
Proof.
  intros Himage Hsearch Hrelevant Htext Hfail Haudio.
  apply (pipeline_without_image self env question language history results
           generated s s0 s0 url s1); try assumption.
  apply generate_image_absorbs. exact Hfail.
Qed.

(** C9, amended. When the speech model is loaded and the file exists with
    fewer than 1000 bytes, [transcribe_audio] returns the guidance string
    and raises nothing, whether or not a decoder is installed. *)
Theorem too_short_recording_is_guidance self env audio_path s (data : bytes) :
  whisper_model self = true ->
  disk s !! audio_path = Some data ->
  length data < 1000 ->
  transcribe_audio self env audio_path s
  = (Ret (py "Recording too short or empty. Please speak clearly for at least 1-2 seconds."), s).
Proof.
  intros Hmodel Hfile Hsize. unfold transcribe_audio. rewrite Hmodel. cbn [negb].
  unfold try_except, mbind, M_bind, gets. cbn beta.
  rewrite Hfile, bool_decide_eq_true_2 by eauto.
  cbn [negb]. cbn beta. rewrite Hfile. cbn [default from_option id].
  destruct (Z.ltb_spec (Z.of_nat (length data)) 1000) as [_|?]; [reflexivity|lia].
Qed.
End Media.

(** C9 as stated: a file below 1000 bytes always yields the guidance
    string.  It fails for the storyteller whose speech model did not load:
    the guard at the head of [transcribe_audio] raises before the size is
    read. *)
Lemma too_short_recording_without_model :
  ~ (forall (rt : PyRuntime) (self : Storyteller) (env : Env) (audio_path : str)
            (s : State) (data : bytes),
       disk s !! audio_path = Some data ->
       length data < 1000 ->
       fst (transcribe_audio self env audio_path s)
       = Ret (py "Recording too short or empty. Please speak clearly for at least 1-2 seconds.")).
Proof.
  intros Hall.
  specialize (Hall Demo.runtime Demo.teller_without_whisper Demo.env
                Demo.upload_path Demo.short_recording (replicate 500 x00)).
  assert (Hfile : disk Demo.short_recording !! Demo.upload_path = Some (replicate 500 x00))
    by (vm_compute; reflexivity).
  specialize (Hall Hfile).
  assert (Hsize : length (replicate 500 x00) < 1000) by (rewrite length_replicate; lia).
  specialize (Hall Hsize). vm_compute in Hall. discriminate Hall.
Qed.

(* ================================================================= *)
(** ** The theorems at concrete inputs *)

(** One request through the demo services: the image service answers 503,
    the narration service 200. *)
Lemma image_failure_is_isolated_witness :
  @generate_response Demo.runtime Demo.config Demo.teller Demo.env
    (py "What happened at the tea party?") true true (py "en") [] Demo.empty_state
  = (Ret {| answer := py "The Hatter poured tea for Alice!";
            image_url := None;
            audio_url := Some (py "/static/audio/d37fc523b21f148336ba72bf3191f80e.mp3");
            is_relevant := true;
            sources := map (@make_source Demo.runtime) Demo.hits |},
     {| conversation_sessions := ∅;
        disk := {[ py "static/audio/d37fc523b21f148336ba72bf3191f80e.mp3" := [x49; x44; x33] ]} |}).
Proof.
  apply (@image_failure_is_isolated Demo.runtime Demo.config Demo.teller Demo.env
           (py "What happened at the tea party?") (py "en") [] Demo.hits
           (py "The Hatter poured tea for Alice!") Demo.empty_state Demo.empty_state).
  - reflexivity.
  - reflexivity.
  - reflexivity.
  - vm_compute. reflexivity.
  - apply (get_not_200 _ _ {| status := 503; body := []; text := py "unavailable" |}).
    + reflexivity.
    + intros Hstatus. discriminate Hstatus.
  - vm_compute. reflexivity.
Defined.

(** Four requests served one after the other, three of them in session a,
    with room for one turn. *)
Example history_keeps_last_turn :
  stored_history (@serve Demo.runtime (Demo.config_with (py "gemini") 1) Demo.teller
                    Demo.four_turns Demo.empty_state).2 (py "a")
  = [ {| role := py "user"; content := py "Who is the Queen?" |};
      {| role := py "assistant"; content := py "The Hatter poured tea for Alice!" |} ].
Proof. vm_compute. reflexivity. Qed.

(** With [MAX_CONVERSATION_HISTORY = 0] the slice [history[-0:]] is the whole
    list, so nothing is ever evicted. *)
Example history_untrimmed_at_zero :
  length (stored_history (@serve Demo.runtime (Demo.config_with (py "gemini") 0) Demo.teller
                            Demo.four_turns Demo.empty_state).2 (py "a")) = 6.
Proof. vm_compute. reflexivity. Qed.

(** The provider raises an error of 122 characters. *)
Lemma generate_text_recovers_witness :
  let detail := take 100 (@exn_str Demo.runtime Demo.quota_error) in
  @_generate_text Demo.runtime Demo.config Demo.teller
    (Demo.env_with (Raise Demo.quota_error))
    (py "Who is Alice?") (py "Alice is a girl.") (py "en") [] Demo.empty_state
  = (Ret (py "Oops! My wit machine broke down. Try asking again! 😅 (Error: "
            ++ detail ++ py ")"), Demo.empty_state)
  /\ length detail <= 100.
Proof.
  apply (@generate_text_recovers Demo.runtime Demo.config Demo.teller
           (Demo.env_with (Raise Demo.quota_error))
           (py "Who is Alice?") (py "Alice is a girl.") (py "en") [] Demo.quota_error
           Demo.empty_state).
  vm_compute. reflexivity.
Defined.

Example apology_is_cut_at_100 :
  @_generate_text Demo.runtime Demo.config Demo.teller
    (Demo.env_with (Raise Demo.quota_error))
    (py "Who is Alice?") (py "Alice is a girl.") (py "en") [] Demo.empty_state
  = (Ret (py "Oops! My wit machine broke down. Try asking again! 😅 (Error: 429 Resource has been exhausted (e.g. check quota). Please retry in 37 seconds or request a higher l)"),
     Demo.empty_state).
Proof. vm_compute. reflexivity. Qed.

(** A history of four exchanges: the window holds the last three. *)
Lemma provider_history_equivalence_witness :
  let window := Design.history_window Demo.eight_messages in
  openai_messages (py "prompt") Demo.eight_messages
    = window ++ [{| role := py "user"; content := py "prompt" |}]
  /\ gemini_prompt (py "prompt") Demo.eight_messages
    = (if truthy Demo.eight_messages then Design.transcript window ++ py "\n" else [])
      ++ py "prompt"
  /\ map Design.message_of_entry (Design.transcript_entries window) = window.
Proof.
  apply (provider_history_equivalence (py "prompt") Demo.eight_messages).
  unfold Demo.eight_messages. cbn [flat_map app].
  repeat (constructor; [first [left; reflexivity | right; reflexivity]|]).
  constructor.
Defined.

Example gemini_prompt_of_two_messages :
  gemini_prompt (py "prompt")
    [ {| role := py "user"; content := py "Who is Alice?" |};
      {| role := py "assistant"; content := py "A curious girl." |} ]
  = py "\n\nPrevious conversation:\nUser: Who is Alice?\nAssistant: A curious girl.\n\nprompt".
Proof. vm_compute. reflexivity. Qed.

(** French is in the table of the demo configuration. *)
Lemma language_instruction_law_witness :
  @compose_base_prompt Demo.config (py "Who is Alice?") (py "Alice is a girl.") (py "fr")
  = @STORYTELLER_PROMPT_format Demo.config (py "Alice is a girl.") (py "Who is Alice?")
    ++ py "\n\n**CRITICAL: You MUST respond ENTIRELY in French. Do NOT use English. Translate everything to French.**"
  /\ @compose_base_prompt Demo.config (py "Who is Alice?") (py "Alice is a girl.") (py "en")
     = @STORYTELLER_PROMPT_format Demo.config (py "Alice is a girl.") (py "Who is Alice?").
Proof.
  split.
  - rewrite (proj1 (@language_instruction_law Demo.config
                      (py "Who is Alice?") (py "Alice is a girl.") (py "fr") [])).
    + vm_compute. reflexivity.
    + intros Heq. vm_compute in Heq. discriminate Heq.
  - apply (proj1 (proj2 (@language_instruction_law Demo.config
                           (py "Who is Alice?") (py "Alice is a girl.") (py "en") []))).
    reflexivity.
Defined.

(** The same narration text behind two different emoji, asked for in two
    languages, from two services and two states. *)
Lemma audio_cache_equivalence_witness :
  exists url s1' s2',
    @_generate_audio Demo.runtime Demo.config Demo.env
      (py "Tea time! 😅") (py "en") Demo.empty_state = (Ret (Some url), s1')
    /\ @_generate_audio Demo.runtime Demo.config (Demo.env_with (Raise Demo.quota_error))
         (py "Tea time! ✨") (py "fr") Demo.short_recording = (Ret (Some url), s2')
    /\ url = py "/static/audio/2ce340c58df533e69879011e7c5c532e.mp3"
    /\ exists encoded data1 data2,
         utf8_encode (@re_sub_clean Demo.runtime (py "Tea time! 😅")) = Some encoded
         /\ let content_hash := Demo.md5 encoded in
            url = py "/static/audio/" ++ content_hash ++ py ".mp3"
            /\ disk s1' = <[@path_join (@AUDIO_DIR Demo.config) (content_hash ++ py ".mp3")
                            := data1]> (disk Demo.empty_state)
            /\ disk s2' = <[@path_join (@AUDIO_DIR Demo.config) (content_hash ++ py ".mp3")
                            := data2]> (disk Demo.short_recording).
Proof.
  eexists (py "/static/audio/2ce340c58df533e69879011e7c5c532e.mp3"), _, _.
  assert (Hfirst :
    @_generate_audio Demo.runtime Demo.config Demo.env
      (py "Tea time! 😅") (py "en") Demo.empty_state
    = (Ret (Some (py "/static/audio/2ce340c58df533e69879011e7c5c532e.mp3")),
       {| conversation_sessions := ∅;
          disk := <[ py "static/audio/2ce340c58df533e69879011e7c5c532e.mp3"
                     := [x49; x44; x33] ]> (disk Demo.empty_state) |}))
    by (vm_compute; reflexivity).
  assert (Hsecond :
    @_generate_audio Demo.runtime Demo.config (Demo.env_with (Raise Demo.quota_error))
      (py "Tea time! ✨") (py "fr") Demo.short_recording
    = (Ret (Some (py "/static/audio/2ce340c58df533e69879011e7c5c532e.mp3")),
       {| conversation_sessions := ∅;
          disk := <[ py "static/audio/2ce340c58df533e69879011e7c5c532e.mp3"
                     := [x49; x44; x33] ]> (disk Demo.short_recording) |}))
    by (vm_compute; reflexivity).
  split; [exact Hfirst|]. split; [exact Hsecond|]. split; [reflexivity|].
  assert (Hclean : @re_sub_clean Demo.runtime (py "Tea time! 😅")
                   = @re_sub_clean Demo.runtime (py "Tea time! ✨"))
    by (vm_compute; reflexivity).
  exact (proj2 (@audio_cache_equivalence Demo.runtime Demo.config
                  Demo.env (Demo.env_with (Raise Demo.quota_error))
                  (py "Tea time! 😅") (py "Tea time! ✨") (py "en") (py "fr")
                  Demo.empty_state Demo.short_recording _ _ _ _ Hclean Hfirst Hsecond)).
Defined.

(** A recording of 500 bytes, no decoder installed. *)
Lemma too_short_recording_is_guidance_witness :
  @transcribe_audio Demo.runtime Demo.teller Demo.env Demo.upload_path Demo.short_recording
  = (Ret (py "Recording too short or empty. Please speak clearly for at least 1-2 seconds."),
     Demo.short_recording).
Proof.
  apply (@too_short_recording_is_guidance Demo.runtime Demo.teller Demo.env
           Demo.upload_path Demo.short_recording (replicate 500 x00)).
  - reflexivity.
  - vm_compute. reflexivity.
  - rewrite length_replicate. lia.
Defined.

Example too_short_recording_raises_without_model :
  @transcribe_audio Demo.runtime Demo.teller_without_whisper Demo.env
    Demo.upload_path Demo.short_recording
  = (Raise (Exception (py "Whisper model not initialized")), Demo.short_recording).
Proof. reflexivity. Qed.

(** The code "xx" is not in the table of the demo configuration. *)
Lemma unsupported_language_names_english_witness :
  @compose_base_prompt Demo.config (py "Who is Alice?") (py "Alice is a girl.") (py "xx")
  = @STORYTELLER_PROMPT_format Demo.config (py "Alice is a girl.") (py "Who is Alice?")
    ++ py "\n\n**CRITICAL: You MUST respond ENTIRELY in English. Do NOT use English. Translate everything to English.**".
Proof.
  apply (@unsupported_language_names_english Demo.config).
  - intros Heq. vm_compute in Heq. discriminate Heq.
  - vm_compute. reflexivity.
Defined.

Example prompt_for_the_tea_party :
  @_create_image_prompt Demo.runtime
    (py "What happens at the Mad Hatter's tea party?") (py "Alice joins the Hatter.")
  = py "Alice, young Victorian girl in blue dress with white apron, Mad Hatter at tea party with oversized hat, teacups everywhere, mad tea party with March Hare, Dormouse, chaotic table setting, vintage storybook illustration, detailed ink drawing with watercolor, whimsical fantasy art, Arthur Rackham style, classic children's literature, intricate details, magical atmosphere".
Proof. vm_compute. reflexivity. Qed.

Example prompt_without_keywords :
  @_create_image_prompt Demo.runtime (py "What is the capital of France?") (py "Paris.")
  = py "classic storybook scene, vintage storybook illustration, detailed ink drawing with watercolor, whimsical fantasy art, Arthur Rackham style, classic children's literature, intricate details, magical atmosphere".
Proof. vm_compute. reflexivity. Qed.


(* ================================================================= *)
(** * Further properties of the code *)

(** ** Strings *)

Lemma lstrip_by_head (f : char -> bool) (s : str) (c : char) :
  head (lstrip_by f s) = Some c -> f c = false.
Proof.
  induction s as [|a s IH]; cbn [lstrip_by]; [discriminate|].
  destruct (f a) eqn:Ha; [exact IH|]. cbn. intros H. injection H as <-. exact Ha.
Qed.

Lemma last_rev {A} (l : list A) : last (rev l) = head l.
Proof. destruct l as [|a l]; [reflexivity|]. cbn [rev]. apply last_snoc. Qed.

Lemma rstrip_by_last (f : char -> bool) (s : str) (c : char) :
  last (rstrip_by f s) = Some c -> f c = false.
Proof. unfold rstrip_by. rewrite last_rev. apply lstrip_by_head. Qed.

Lemma lstrip_by_suffix (f : char -> bool) (s : str) : lstrip_by f s `suffix_of` s.
Proof.
  induction s as [|a s IH]; cbn [lstrip_by]; [reflexivity|].
  destruct (f a); [|reflexivity]. apply suffix_cons_r, IH.
Qed.

Lemma rstrip_by_prefix (f : char -> bool) (s : str) : rstrip_by f s `prefix_of` s.
Proof.
  unfold rstrip_by. destruct (lstrip_by_suffix f (rev s)) as [k Hk].
  exists (rev k). apply (f_equal (@rev _)) in Hk.
  rewrite rev_involutive, rev_app_distr in Hk. exact Hk.
Qed.

Lemma strip_by_ends (f : char -> bool) (s : str) :
  (forall c, head (strip_by f s) = Some c -> f c = false)
  /\ (forall c, last (strip_by f s) = Some c -> f c = false).
Proof.
  unfold strip_by. split; [|apply rstrip_by_last].
  intros c Hc. apply (lstrip_by_head f s).
  destruct (rstrip_by_prefix f (lstrip_by f s)) as [k Hk].
  destruct (rstrip_by f (lstrip_by f s)) as [|a r]; [discriminate|].
  rewrite Hk. exact Hc.
Qed.

Lemma run_eq_inv {A} (a b : A) (s t : State) :
  (@Ret A a, s) = (Ret b, t) -> a = b /\ s = t.
Proof. intros H. injection H as -> ->. split; reflexivity. Qed.

Lemma Raise_inj {A} (a b : exn) : @Raise A a = Raise b -> b = a.
Proof. intros H. injection H as ->. reflexivity. Qed.

Lemma py_ascii_encodes (s : str) :
  is_ascii s -> utf8_encode s = Some (map byte_of_N s).
Proof.
  induction 1 as [|c s Hc _ IH]; [reflexivity|].
  cbn [utf8_encode map]. rewrite IH. unfold utf8_encode_char.
  apply N.ltb_lt in Hc. rewrite Hc. reflexivity.
Qed.

Lemma is_ascii_app (a b : str) : is_ascii a -> is_ascii b -> is_ascii (a ++ b).
Proof. unfold is_ascii. intros. apply Forall_app. split; assumption. Qed.

Lemma is_ascii_decide (s : str) : forallb (fun c => (c <? 128)%N) s = true -> is_ascii s.
Proof.
  unfold is_ascii. induction s as [|c s IH]; cbn [forallb]; [constructor|].
  intros H. apply andb_true_iff in H as [Hc Hs]. constructor; [apply N.ltb_lt, Hc | apply IH, Hs].
Qed.

Lemma is_ascii_join (sep : str) (parts : list str) :
  is_ascii sep -> Forall is_ascii parts -> is_ascii (str_join sep parts).
Proof.
  intros Hsep. induction 1 as [|p rest Hp Hrest IH]; [constructor|].
  destruct rest as [|q rest]; [exact Hp|].
  change (str_join sep (p :: q :: rest)) with (p ++ sep ++ str_join sep (q :: rest)).
  apply is_ascii_app; [exact Hp|]. apply is_ascii_app; [exact Hsep | exact IH].
Qed.

Lemma phrases_ascii (combined : str) : Forall is_ascii (Design.matching_phrases combined).
Proof.
  unfold Design.matching_phrases.
  assert (Hall : Forall (fun entry : str * str => is_ascii (snd entry)) keywords).
  { apply Forall_forall. intros entry Hin. apply list_elem_of_In in Hin.
    assert (Hb : forallb (fun entry : str * str =>
                            forallb (fun c => (c <? 128)%N) (snd entry)) keywords = true)
      by (vm_compute; reflexivity).
    rewrite forallb_forall in Hb. apply is_ascii_decide, Hb, Hin. }
  induction Hall as [|entry table Hentry _ IH]; [constructor|].
  cbn [List.filter]. destruct (str_in (fst entry) combined); [|exact IH].
  constructor; [exact Hentry | exact IH].
Qed.

Section MorePrompt.
Context {rt : PyRuntime}.

(** The image prompt holds characters below 128 only and so encodes byte
    for byte. *)
Lemma create_image_prompt_ascii question answer :
  is_ascii (_create_image_prompt question answer)
  /\ utf8_encode (_create_image_prompt question answer)
     = Some (map byte_of_N (_create_image_prompt question answer)).
Proof.
  assert (Hascii : is_ascii (_create_image_prompt question answer)).
  { unfold _create_image_prompt. rewrite found_matching, scene_as_designed.
    apply is_ascii_app; [|apply is_ascii_decide; vm_compute; reflexivity].
    pose proof (phrases_ascii (str_lower (question ++ py " " ++ answer))) as Hph.
    unfold Design.scene_description.
    destruct (Design.matching_phrases _) as [|p rest].
    - apply is_ascii_decide. vm_compute. reflexivity.
    - apply is_ascii_join; [apply is_ascii_decide; vm_compute; reflexivity|].
      apply Forall_take. exact Hph. }
  split; [exact Hascii | apply py_ascii_encodes, Hascii].
Qed.

(** X1. The image prompt is made of phrases of the table and the style
    only: whatever characters question and answer hold, the prompt is
    ASCII and its encoding is defined. *)
Theorem image_prompt_is_ascii question answer :
  is_ascii (_create_image_prompt question answer)
  /\ utf8_encode (_create_image_prompt question answer)
     = Some (map byte_of_N (_create_image_prompt question answer)).
Proof. exact (create_image_prompt_ascii question answer). Qed.
End MorePrompt.


(** ** storyteller.py *)

Section MoreStoryteller.
Context {rt : PyRuntime} {cfg : Config}.

(** X2. A language without a translation gets the configured English
    message: so do "en" and every code other than es, fr, de and hi. *)
Theorem fallback_message_default language :
  language ∉ [py "es"; py "fr"; py "de"; py "hi"] ->
  _get_fallback_message language = UNKNOWN_QUERY_RESPONSE.
Proof.
  intros Hnot.
  apply not_elem_of_cons in Hnot as [Hes Hnot]. apply not_elem_of_cons in Hnot as [Hfr Hnot].
  apply not_elem_of_cons in Hnot as [Hde Hnot]. apply not_elem_of_cons in Hnot as [Hhi _].
  unfold _get_fallback_message, fallbacks. rewrite !list_to_map_cons, list_to_map_nil.
  rewrite (lookup_insert_eq _ (py "en")). cbn [default from_option id].
  destruct (decide (language = py "en")) as [->|Hen].
  - rewrite lookup_insert_eq. reflexivity.
  - rewrite !lookup_insert_ne by congruence. rewrite lookup_empty. reflexivity.
Qed.

(** X3. When neither key is set the storyteller has no client, and text
    generation returns the notice that it is not available and leaves the
    state as it was, whatever the services of the request would answer. *)
Theorem generate_text_without_provider whisper env question context language history s :
  truthy GEMINI_API_KEY = false ->
  truthy OPENAI_API_KEY = false ->
  _generate_text (Storyteller_init whisper) env question context language history s
  = (Ret (py "Sorry, text generation is not available. Please configure LLM API key."), s).
Proof.
  intros Hg Ho. rewrite generate_text_run.
  unfold provider_call, Storyteller_init. rewrite Hg, Ho, !andb_false_r.
  cbn [openai_client gemini_model]. rewrite ?andb_false_r. reflexivity.
Qed.

(** X4. The answer of the model comes back without white space at either
    end. *)
Theorem generate_text_is_stripped self env question context language history response s :
  provider_call self env (compose_base_prompt question context language) history
    = Some (Ret response) ->
  exists generated : str,
    _generate_text self env question context language history s = (Ret generated, s)
    /\ generated = strip_by isspace response
    /\ (forall c, head generated = Some c -> isspace c = false)
    /\ (forall c, last generated = Some c -> isspace c = false).
Proof.
  intros Hcall. exists (strip_by isspace response).
  rewrite generate_text_run, Hcall.
  split; [reflexivity|]. split; [reflexivity|]. apply strip_by_ends.
Qed.

(** X5. Cleaning narration text twice is cleaning it once; cleaning goes
    through concatenation; it never makes a text longer. *)
Theorem re_sub_clean_idempotent (a b : str) :
  re_sub_clean (re_sub_clean a) = re_sub_clean a
  /\ re_sub_clean (a ++ b) = re_sub_clean a ++ re_sub_clean b
  /\ length (re_sub_clean a) <= length a.
Proof.
  unfold re_sub_clean. split; [|split].
  - induction a as [|c a IH]; [reflexivity|]. cbn [List.filter].
    destruct (kept_by_clean c) eqn:Hc; [|exact IH].
    cbn [List.filter]. rewrite Hc, IH. reflexivity.
  - apply List.filter_app.
  - apply List.filter_length_le.
Qed.

(** X6. When the key is missing, narration is disabled, or the text is
    empty once cleaned, the narration task returns no URL and leaves the
    state as it was, whatever the narration service would answer. *)
Theorem generate_audio_short_circuits env text language s :
  truthy ELEVENLABS_API_KEY = false \/ AUDIO_ENABLED = false \/ re_sub_clean text = [] ->
  _generate_audio env text language s = (Ret None, s).
Proof.
  intros Hwhy. unfold _generate_audio.
  destruct (truthy ELEVENLABS_API_KEY); cbn [negb]; [|reflexivity].
  destruct AUDIO_ENABLED; cbn [negb]; [|reflexivity].
  destruct Hwhy as [H|[H|H]]; try discriminate H.
  unfold try_except. rewrite H. reflexivity.
Qed.

Lemma audio_task_cases env text language s :
  _generate_audio env text language s = (Ret None, s)
  \/ exists encoded response,
       utf8_encode (re_sub_clean text) = Some encoded
       /\ status response = 200%Z
       /\ _generate_audio env text language s
          = (Ret (Some (audio_url_of (md5_hexdigest encoded))),
             {| conversation_sessions := conversation_sessions s;
                disk := <[path_join AUDIO_DIR (md5_hexdigest encoded ++ py ".mp3")
                          := body response]> (disk s) |}).
Proof.
  unfold audio_url_of.
  destruct (_generate_audio env text language s) as [[[url|]|e] s'] eqn:Hrun.
  - right. destruct (generate_audio_some _ _ _ _ _ _ Hrun) as (enc & r & H1 & H2 & -> & ->).
    exists enc, r. repeat split; assumption.
  - left. f_equal. revert Hrun. unfold _generate_audio.
    destruct (truthy ELEVENLABS_API_KEY); cbn [negb];
      [|unfold mret, M_ret; intros H; injection H as <-; reflexivity].
    destruct AUDIO_ENABLED; cbn [negb];
      [|unfold mret, M_ret; intros H; injection H as <-; reflexivity].
    unfold try_except, mbind, M_bind, call, md5_hex, write_file, modify, mret, M_ret, raise.
    destruct (length (re_sub_clean text) =? 0);
      [intros H; injection H as <-; reflexivity|].
    destruct (http_post env _ _ _) as [response|e];
      [|intros H; injection H as <-; reflexivity].
    destruct (negb (status response =? 200)%Z);
      [intros H; injection H as <-; reflexivity|].
    destruct (utf8_encode (re_sub_clean text)) as [encoded|];
      [|intros H; injection H as <-; reflexivity].
    destruct (open_wb env _) as [[]|e]; [discriminate|].
    intros H; injection H as <-; reflexivity.
  - exfalso. destruct (generate_audio_returns env text language s) as (r & s'' & Hr).
    rewrite Hr in Hrun. discriminate Hrun.
Qed.

(** X7. The narration succeeds when the key is set, narration is enabled,
    the cleaned text is not empty and can be encoded, the service answers
    200 to the first 500 characters of the cleaned text, and the file can be
    opened. *)
Theorem generate_audio_succeeds env text language s encoded response :
  truthy ELEVENLABS_API_KEY = true ->
  AUDIO_ENABLED = true ->
  re_sub_clean text <> [] ->
  utf8_encode (re_sub_clean text) = Some encoded ->
  http_post env (ELEVENLABS_API_URL ++ py "/" ++ ELEVENLABS_VOICE_ID) ELEVENLABS_API_KEY
    {| payload_text := take 500 (re_sub_clean text);
       model_id := if bool_decide (language = py "en")
                   then py "eleven_monolingual_v1" else py "eleven_multilingual_v2";
       stability := AUDIO_STABILITY;
       similarity_boost := AUDIO_SIMILARITY_BOOST |} = Ret response ->
  status response = 200%Z ->
  open_wb env (path_join AUDIO_DIR (md5_hexdigest encoded ++ py ".mp3")) = Ret tt ->
  _generate_audio env text language s
  = (Ret (Some (audio_url_of (md5_hexdigest encoded))),
     {| conversation_sessions := conversation_sessions s;
        disk := <[path_join AUDIO_DIR (md5_hexdigest encoded ++ py ".mp3")
                  := body response]> (disk s) |}).
Proof.
  intros Hkey Hon Htext Henc Hpost Hstatus Hopen.
  unfold _generate_audio. rewrite Hkey, Hon. cbn [negb].
  unfold try_except, mbind, M_bind, call, md5_hex, write_file, modify, mret, M_ret, raise.
  destruct (Nat.eqb_spec (length (re_sub_clean text)) 0) as [Hlen|_];
    [exfalso; apply Htext, nil_length_inv, Hlen|].
  unfold audio_payload. rewrite (slice_to_take 500).
  assert (Hmodel : (if negb (str_eqb language (py "en"))
                    then py "eleven_multilingual_v2" else py "eleven_monolingual_v1")
                   = (if bool_decide (language = py "en")
                      then py "eleven_monolingual_v1" else py "eleven_multilingual_v2")).
  { unfold str_eqb. destruct (bool_decide (language = py "en")); reflexivity. }
  rewrite Hmodel, Hpost, Hstatus. cbn [Z.eqb Pos.eqb negb].
  rewrite Henc, Hopen. reflexivity.
Qed.

Lemma image_task_cases env question answer s :
  let prompt := _create_image_prompt question answer in
  let digest := md5_hexdigest (map byte_of_N prompt) in
  _generate_image env question answer s = (Ret None, s)
  \/ exists response,
       http_get env (image_endpoint prompt) = Ret response
       /\ status response = 200%Z
       /\ _generate_image env question answer s
          = (Ret (Some (image_url_of digest)),
             {| conversation_sessions := conversation_sessions s;
                disk := <[path_join IMAGES_DIR (digest ++ py ".png") := body response]> (disk s) |}).
Proof.
  intros prompt digest. subst digest prompt. unfold image_url_of.
  unfold _generate_image, try_except.
  destruct IMAGE_GENERATION_ENABLED; cbn [negb]; [|left; reflexivity].
  unfold choose_image_prompt, try_except, mbind, M_bind, call, md5_hex, write_file,
    modify, mret, M_ret, raise.
  destruct (http_get env _) as [response|e]; [|left; reflexivity].
  destruct (Z.eqb_spec (status response) 200) as [Hok|_]; [|left; reflexivity].
  rewrite (proj2 (create_image_prompt_ascii question answer)).
  destruct (open_wb env _) as [[]|e]; [|left; reflexivity].
  right. exists response. repeat split. exact Hok.
Qed.

(** X8. The image is stored whenever the service answers 200 and the file
    can be opened: the prompt can always be encoded. *)
Theorem generate_image_succeeds env question answer s response :
  let prompt := _create_image_prompt question answer in
  let digest := md5_hexdigest (map byte_of_N prompt) in
  IMAGE_GENERATION_ENABLED = true ->
  http_get env (image_endpoint prompt) = Ret response ->
  status response = 200%Z ->
  open_wb env (path_join IMAGES_DIR (digest ++ py ".png")) = Ret tt ->
  _generate_image env question answer s
  = (Ret (Some (image_url_of digest)),
     {| conversation_sessions := conversation_sessions s;
        disk := <[path_join IMAGES_DIR (digest ++ py ".png") := body response]> (disk s) |}).
Proof.
  intros prompt digest Hon Hget Hstatus Hopen. subst digest prompt. unfold image_url_of.
  unfold _generate_image, try_except. rewrite Hon. cbn [negb].
  unfold choose_image_prompt, try_except, mbind, M_bind, call, md5_hex, write_file,
    modify, mret, M_ret, raise.
  rewrite Hget, Hstatus. cbn [Z.eqb Pos.eqb].
  rewrite (proj2 (create_image_prompt_ascii question answer)), Hopen. reflexivity.
Qed.



(** *** generate_response as the sequence of its three steps *)

Lemma generate_response_cases self env question gi ga language history results s :
  semantic_search env question 5 = Ret results ->
  exists generated image audio s1 s2,
    (if _is_relevant results
     then _generate_text self env question
            (str_join (py "\n\n") (map (fun '(chunk, _, _) => chunk) results))
            language history s = (Ret generated, s)
     else generated = _get_fallback_message language)
    /\ (if gi && IMAGE_GENERATION_ENABLED
        then _generate_image env question generated s = (Ret image, s1)
        else image = None /\ s1 = s)
    /\ (if ga && AUDIO_ENABLED
        then _generate_audio env generated language s1 = (Ret audio, s2)
        else audio = None /\ s2 = s1)
    /\ generate_response self env question gi ga language history s
       = (Ret {| answer := generated; image_url := image; audio_url := audio;
                 is_relevant := _is_relevant results;
                 sources := if _is_relevant results
                            then map make_source results else [] |}, s2).
Proof.
  intros Hsearch. unfold generate_response, mbind, M_bind, call. rewrite Hsearch.
  destruct (_is_relevant results); cbn [negb].
  - rewrite generate_text_run.
    set (generated := match provider_call _ _ _ _ with
                      | Some (Ret response) => strip_by isspace response
                      | Some (Raise e) => apology e
                      | None => _ end).
    unfold gather_return_exceptions, settle, mbind, M_bind, sleep0, mret, M_ret.
    destruct (gi && IMAGE_GENERATION_ENABLED).
    + destruct (generate_image_returns env question generated s) as (image & s1 & Hi).
      rewrite Hi.
      destruct (ga && AUDIO_ENABLED).
      * destruct (generate_audio_returns env generated language s1) as (audio & s2 & Ha).
        rewrite Ha. exists generated, image, audio, s1, s2.
        repeat split; try assumption; try apply generate_text_run; destruct image, audio; reflexivity.
      * exists generated, image, None, s1, s1.
        repeat split; try assumption; try apply generate_text_run; destruct image; reflexivity.
    + destruct (ga && AUDIO_ENABLED).
      * destruct (generate_audio_returns env generated language s) as (audio & s2 & Ha).
        rewrite Ha. exists generated, None, audio, s, s2.
        repeat split; try assumption; try apply generate_text_run; destruct audio; reflexivity.
      * exists generated, None, None, s, s. repeat split; try apply generate_text_run; reflexivity.
  - unfold try_except, mret, M_ret.
    destruct (gi && IMAGE_GENERATION_ENABLED).
    + destruct (generate_image_returns env question (_get_fallback_message language) s)
        as (image & s1 & Hi).
      rewrite Hi.
      destruct (ga && AUDIO_ENABLED).
      * destruct (generate_audio_returns env (_get_fallback_message language) language s1)
          as (audio & s2 & Ha).
        rewrite Ha. exists (_get_fallback_message language), image, audio, s1, s2.
        repeat split; try assumption; reflexivity.
      * exists (_get_fallback_message language), image, None, s1, s1.
        repeat split; try assumption; reflexivity.
    + destruct (ga && AUDIO_ENABLED).
      * destruct (generate_audio_returns env (_get_fallback_message language) language s)
          as (audio & s2 & Ha).
        rewrite Ha. exists (_get_fallback_message language), None, audio, s, s2.
        repeat split; try assumption; reflexivity.
      * exists (_get_fallback_message language), None, None, s, s.
        repeat split; try assumption; reflexivity.
Qed.

(** X11. The search is the only step whose exception reaches the caller: when
    it raises, [generate_response] raises the same exception and nothing was
    written; when it answers, [generate_response] returns, whatever the
    model and the media services do. *)
Theorem generate_response_raises_only_from_search self env question gi ga language history s :
  match semantic_search env question 5 with
  | Ret _ => exists r s', generate_response self env question gi ga language history s
                          = (Ret r, s')
  | Raise e => generate_response self env question gi ga language history s = (Raise e, s)
  end.
Proof.
  destruct (semantic_search env question 5) as [results|e] eqn:Hsearch.
  - destruct (generate_response_cases self env question gi ga language history results s
                Hsearch) as (g & i & a & s1 & s2 & _ & _ & _ & Hrun).
    eauto.
  - unfold generate_response, mbind, M_bind, call. rewrite Hsearch. reflexivity.
Qed.

(** X12. When the gate finds the retrieved chunks not relevant, the answer
    is the fallback message of the language, the result is marked not
    relevant and carries no source. *)
Theorem generate_response_fallback self env question gi ga language history results s :
  semantic_search env question 5 = Ret results ->
  _is_relevant results = false ->
  exists image audio s',
    generate_response self env question gi ga language history s
    = (Ret {| answer := _get_fallback_message language; image_url := image;
              audio_url := audio; is_relevant := false; sources := [] |}, s').
Proof.
  intros Hsearch Hgate.
  destruct (generate_response_cases self env question gi ga language history results s
              Hsearch) as (g & i & a & s1 & s2 & Hg & _ & _ & Hrun).
  rewrite Hgate in Hg, Hrun. subst g. eauto.
Qed.

(** X13. With both media switched off, by the request or by the
    configuration, the result carries no URL and nothing is written. *)
Theorem generate_response_media_off self env question gi ga language history results s :
  semantic_search env question 5 = Ret results ->
  gi && IMAGE_GENERATION_ENABLED = false ->
  ga && AUDIO_ENABLED = false ->
  exists generated,
    generate_response self env question gi ga language history s
    = (Ret {| answer := generated; image_url := None; audio_url := None;
              is_relevant := _is_relevant results;
              sources := if _is_relevant results then map make_source results else [] |}, s).
Proof.
  intros Hsearch Hi Ha.
  destruct (generate_response_cases self env question gi ga language history results s
              Hsearch) as (g & i & a & s1 & s2 & _ & Himg & Haud & Hrun).
  rewrite Hi in Himg. rewrite Ha in Haud.
  destruct Himg as [-> ->], Haud as [-> ->]. eauto.
Qed.

(** X14. A URL in the result is never dangling: an image URL is
    [/static/images/<digest>.png] and the file of that digest is in the
    image directory when [generate_response] returns; likewise for the
    audio URL. *)
Theorem generate_response_urls_are_stored self env question gi ga language history results
    r s s' :
  semantic_search env question 5 = Ret results ->
  generate_response self env question gi ga language history s = (Ret r, s') ->
  (forall url, image_url r = Some url ->
     exists digest, url = image_url_of digest
                    /\ is_Some (disk s' !! path_join IMAGES_DIR (digest ++ py ".png")))
  /\ (forall url, audio_url r = Some url ->
        exists digest, url = audio_url_of digest
                       /\ is_Some (disk s' !! path_join AUDIO_DIR (digest ++ py ".mp3"))).
Proof.
  intros Hsearch Hrun.
  destruct (generate_response_cases self env question gi ga language history results s
              Hsearch) as (g & i & a & s1 & s2 & _ & Himg & Haud & Hrun').
  rewrite Hrun in Hrun'. injection Hrun' as -> ->. cbn [image_url audio_url].
  assert (Hkeep : forall path, is_Some (disk s1 !! path) -> is_Some (disk s2 !! path)).
  { intros path Hin. destruct (ga && AUDIO_ENABLED); [|destruct Haud as [_ ->]; exact Hin].
    destruct (audio_task_cases env g language s1) as [Hnone | (enc & resp & _ & _ & Hsome)].
    - rewrite Hnone in Haud. apply run_eq_inv in Haud as [_ <-]. exact Hin.
    - rewrite Hsome in Haud. apply run_eq_inv in Haud as [_ <-]. cbn [disk].
      destruct (decide (path_join AUDIO_DIR (md5_hexdigest enc ++ py ".mp3") = path)) as [<-|Hne].
      + rewrite lookup_insert_eq. eauto.
      + rewrite lookup_insert_ne by exact Hne. exact Hin. }
  split.
  - intros url ->. destruct (gi && IMAGE_GENERATION_ENABLED); [|destruct Himg; discriminate].
    destruct (image_task_cases env question g s) as [Hnone | (resp & _ & _ & Hsome)].
    + rewrite Hnone in Himg. discriminate Himg.
    + rewrite Hsome in Himg. apply run_eq_inv in Himg as [Hurl <-].
      apply Some_inj in Hurl as <-.
      eexists. split; [reflexivity|]. apply Hkeep. cbn [disk].
      rewrite lookup_insert_eq. eauto.
  - intros url ->. destruct (ga && AUDIO_ENABLED); [|destruct Haud; discriminate].
    destruct (audio_task_cases env g language s1) as [Hnone | (enc & resp & _ & _ & Hsome)].
    + rewrite Hnone in Haud. discriminate Haud.
    + rewrite Hsome in Haud. apply run_eq_inv in Haud as [Hurl <-].
      apply Some_inj in Hurl as <-.
      eexists. split; [reflexivity|]. cbn [disk]. rewrite lookup_insert_eq. eauto.
Qed.

Lemma length_make_source (hit : Hit) : length (src_text (make_source hit)) <= 203.
Proof.
  destruct hit as [[chunk meta] score]. cbn [make_source src_text].
  rewrite length_app.
  assert (Hcut : length (slice_to 200 chunk) <= 200) by apply (length_slice_to 200).
  assert (Hdots : length (py "...") = 3) by reflexivity.
  lia.
Qed.

(** X15. What the result says of the retrieval: it is marked relevant exactly
    when the gate says so; a relevant result lists one source per retrieved
    chunk, in order, an irrelevant one lists none; and the excerpt of a
    source has at most 203 characters. *)
Theorem generate_response_sources self env question gi ga language history results r s s' :
  semantic_search env question 5 = Ret results ->
  generate_response self env question gi ga language history s = (Ret r, s') ->
  is_relevant r = _is_relevant results
  /\ map src_source (sources r)
     = (if _is_relevant results then map (fun hit : Hit => source (snd (fst hit))) results
        else [])
  /\ Forall (fun src => length (src_text src) <= 203) (sources r).
Proof.
  intros Hsearch Hrun.
  destruct (generate_response_cases self env question gi ga language history results s
              Hsearch) as (g & i & a & s1 & s2 & _ & _ & _ & Hrun').
  rewrite Hrun in Hrun'. injection Hrun' as -> ->. cbn [is_relevant sources].
  split; [reflexivity|]. destruct (_is_relevant results).
  - split.
    + rewrite map_map. apply map_ext. intros [[chunk meta] score]. reflexivity.
    + apply Forall_map. apply Forall_forall. intros hit _. apply length_make_source.
  - split; [reflexivity | constructor].
Qed.

End MoreStoryteller.


(** ** transcribe_audio *)

Section MoreTranscription.
Context {rt : PyRuntime}.

Ltac run_transcription :=
  unfold transcribe_audio, try_except, mbind, M_bind, gets, call, raise, mret, M_ret;
  cbn beta;
  repeat match goal with
         | |- context [whisper_model ?self] => destruct (whisper_model self); cbn [negb]
         | |- context [bool_decide (is_Some (disk ?s !! ?p))] =>
             destruct (disk s !! p) as [?data|] eqn:?Hfile;
             [rewrite bool_decide_eq_true_2 by eauto
             |rewrite bool_decide_eq_false_2 by (intros [? ?]; discriminate)];
             cbn [negb default from_option id]
         | |- context [(Z.of_nat (length ?d) <? 1000)%Z] =>
             destruct (Z.of_nat (length d) <? 1000)%Z eqn:?Hsize
         | |- context [which_ffmpeg ?env] => destruct (which_ffmpeg env) eqn:?Hffmpeg
         | |- context [whisper_transcribe ?env ?p] =>
             destruct (whisper_transcribe env p) as [?raw|?cause] eqn:?Hheard
         | |- context [truthy (strip_by isspace ?raw)] =>
             destruct (strip_by isspace raw) eqn:?Htext; cbn [truthy negb]
         | |- context [str_in (py "ffmpeg") ?m || str_in (py "av") ?m] =>
             destruct (str_in (py "ffmpeg") m || str_in (py "av") m) eqn:?Htest
         end.

(** X16. Transcription reads the disk and never writes it, and the text it
    returns is never empty: empty or blank speech comes back as a sentence
    of guidance. *)
Theorem transcribe_audio_reads_only self env audio_path s :
  snd (transcribe_audio self env audio_path s) = s
  /\ forall heard, fst (transcribe_audio self env audio_path s) = Ret heard -> heard <> [].
Proof.
  split.
  - run_transcription; reflexivity.
  - intros heard. run_transcription; cbn [fst]; intros H; try discriminate H;
      injection H as <-; try discriminate; vm_compute; discriminate.
Qed.

(** X17. Every exception of [transcribe_audio] is a plain [Exception] whose
    text is one of three: the speech model is not initialized, the advice
    to install FFmpeg, or "Transcription failed: " followed by the cause. *)
Theorem transcribe_audio_errors self env audio_path s e :
  fst (transcribe_audio self env audio_path s) = Raise e ->
  e = Exception (py "Whisper model not initialized")
  \/ e = Exception (py "FFmpeg not found. Please install FFmpeg to use audio transcription. Download from: https://ffmpeg.org/download.html")
  \/ exists cause, e = Exception (py "Transcription failed: " ++ cause).
Proof.
  run_transcription; cbn [fst]; intros H; try discriminate H;
    apply Raise_inj in H; subst e;
    match goal with
    | |- Exception ?a = Exception ?a \/ _ => left; reflexivity
    | |- _ \/ Exception ?a = Exception ?a \/ _ => right; left; reflexivity
    | |- _ => right; right; eexists; reflexivity
    end.
Qed.

(** X18. A missing file is reported as a failed transcription naming the
    path, unless the lower-cased report contains "ffmpeg" or "av" (as it
    does for a path ending in .wav): then the advice to install FFmpeg is
    raised instead. *)
Theorem transcribe_audio_missing_file self env audio_path s :
  whisper_model self = true ->
  disk s !! audio_path = None ->
  let report := py "Audio file not found: " ++ audio_path in
  transcribe_audio self env audio_path s
  = (Raise (Exception
       (if str_in (py "ffmpeg") (str_lower report) || str_in (py "av") (str_lower report)
        then py "FFmpeg not found. Please install FFmpeg to use audio transcription. Download from: https://ffmpeg.org/download.html"
        else py "Transcription failed: " ++ report)), s).
Proof.
  intros Hmodel Hfile report. subst report.
  unfold transcribe_audio, try_except, mbind, M_bind, gets, call, raise, mret, M_ret.
  rewrite Hmodel. cbn [negb]. cbn beta. rewrite Hfile.
  rewrite bool_decide_eq_false_2 by (intros [? ?]; discriminate). cbn [negb exn_str].
  destruct (str_in (py "ffmpeg") _ || str_in (py "av") _); reflexivity.
Qed.

(** X19. A recording of at least 1000 bytes with a decoder installed: the
    text the model hears comes back stripped; blank text comes back as the
    sentence asking to speak louder. *)
Theorem transcribe_audio_hears self env audio_path s (data : bytes) ffmpeg heard :
  whisper_model self = true ->
  disk s !! audio_path = Some data ->
  1000 <= length data ->
  which_ffmpeg env = Some ffmpeg ->
  whisper_transcribe env audio_path = Ret heard ->
  transcribe_audio self env audio_path s
  = (Ret (if truthy (strip_by isspace heard) then strip_by isspace heard
          else py "Sorry, I couldn't hear anything clearly. Please speak louder and try again."),
     s).
Proof.
  intros Hmodel Hfile Hsize Hffmpeg Hheard.
  unfold transcribe_audio, try_except, mbind, M_bind, gets, call, raise, mret, M_ret.
  rewrite Hmodel. cbn [negb]. cbn beta. rewrite Hfile.
  rewrite bool_decide_eq_true_2 by eauto. cbn [negb]. cbn beta.
  rewrite Hfile. cbn [default from_option id].
  destruct (Z.ltb_spec (Z.of_nat (length data)) 1000) as [?|_]; [lia|].
  rewrite Hffmpeg, Hheard.
  destruct (strip_by isspace heard); cbn [truthy negb]; reflexivity.
Qed.

(** X20. With the speech model loaded and no decoder on the path, a
    recording of at least 1000 bytes raises the advice to install FFmpeg and
    leaves the state as it was, whatever the speech model would return,
    provided lower-casing the notice of the missing decoder leaves "ffmpeg"
    in it. *)
Theorem transcribe_audio_without_decoder self env audio_path s (data : bytes) :
  whisper_model self = true ->
  disk s !! audio_path = Some data ->
  1000 <= length data ->
  which_ffmpeg env = None ->
  str_in (py "ffmpeg")
    (str_lower (py "FFmpeg not found. Please install FFmpeg and add it to your system PATH, then restart the backend."))
  = true ->
  transcribe_audio self env audio_path s
  = (Raise (Exception (py "FFmpeg not found. Please install FFmpeg to use audio transcription. Download from: https://ffmpeg.org/download.html")), s).
Proof.
  intros Hmodel Hfile Hsize Hffmpeg Hlower.
  unfold transcribe_audio, try_except, mbind, M_bind, gets, call, raise, mret, M_ret.
  rewrite Hmodel. cbn [negb]. cbn beta. rewrite Hfile.
  rewrite bool_decide_eq_true_2 by eauto. cbn [negb]. cbn beta.
  rewrite Hfile. cbn [default from_option id].
  destruct (Z.ltb_spec (Z.of_nat (length data)) 1000) as [?|_]; [lia|].
  rewrite Hffmpeg. cbn [exn_str]. rewrite Hlower. reflexivity.
Qed.

(** The short recording, for use by the endpoint. *)
Lemma too_short_recording_guidance_run self env audio_path s (data : bytes) :
  whisper_model self = true ->
  disk s !! audio_path = Some data ->
  length data < 1000 ->
  transcribe_audio self env audio_path s
  = (Ret (py "Recording too short or empty. Please speak clearly for at least 1-2 seconds."), s).
Proof.
  intros Hmodel Hfile Hsize.
  unfold transcribe_audio, try_except, mbind, M_bind, gets, call, raise, mret, M_ret.
  rewrite Hmodel. cbn [negb]. cbn beta. rewrite Hfile.
  rewrite bool_decide_eq_true_2 by eauto. cbn [negb]. cbn beta.
  rewrite Hfile. cbn [default from_option id].
  destruct (Z.ltb_spec (Z.of_nat (length data)) 1000) as [_|?]; [reflexivity|lia].
Qed.

End MoreTranscription.


(** ** The chat handler *)

Section MoreChat.
Context {rt : PyRuntime} {cfg : Config}.

Lemma stored_ensure_session sid s sid' :
  stored_history (ensure_session sid s) sid' = stored_history s sid'.
Proof.
  unfold ensure_session.
  destruct (bool_decide (is_Some (conversation_sessions s !! sid))) eqn:Hk; [reflexivity|].
  apply bool_decide_eq_false in Hk. unfold stored_history. cbn [conversation_sessions].
  destruct (decide (sid = sid')) as [<-|Hne].
  - rewrite lookup_insert_eq.
    destruct (conversation_sessions s !! sid) eqn:E; [|reflexivity].
    exfalso. apply Hk. eauto.
  - rewrite lookup_insert_ne by exact Hne. reflexivity.
Qed.

Lemma insert_ensure_session sid s (history : list Message) :
  <[sid := history]> (conversation_sessions (ensure_session sid s))
  = <[sid := history]> (conversation_sessions s).
Proof.
  unfold ensure_session.
  destruct (bool_decide (is_Some (conversation_sessions s !! sid))); [reflexivity|].
  cbn [conversation_sessions]. apply insert_insert_eq.
Qed.

(** The handler, once the knowledge base is there, as one call of
    [generate_response] followed by the update of the store. *)
Lemma chat_run storyteller env request base_url s :
  processor_initialized env = true ->
  let sid := session_id request in
  chat storyteller env request base_url s =
  match generate_response storyteller env (question request) (generate_image request)
          (generate_audio request) (language request) (stored_history s sid)
          (ensure_session sid s) with
  | (Ret result, s2) =>
      let history :=
        trim_history (stored_history s sid
                      ++ [ {| role := py "user"; content := question request |};
                           {| role := py "assistant"; content := answer result |} ]) in
      let base := rstrip_by (fun c => (c =? 47)%N) base_url in
      (Ret {| resp_answer := answer result;
              resp_image_url := normalize_url base (image_url result);
              resp_audio_url := normalize_url base (audio_url result);
              resp_is_relevant := is_relevant result;
              resp_sources := sources result;
              resp_conversation_history := history |},
       {| conversation_sessions := <[sid := history]> (conversation_sessions s);
          disk := disk s2 |})
  | (Raise e, s2) => (Raise (HTTPException 500 (exn_str e)), s2)
  end.
Proof.
  intros Hready sid. unfold chat, try_except. rewrite Hready. cbn [negb].
  unfold mbind, M_bind, gets. cbn beta.
  assert (Hcreate :
    (if negb (bool_decide (is_Some (conversation_sessions s !! session_id request)))
     then set_session (session_id request) [] else mret ()) s
    = (Ret (), ensure_session sid s)).
  { unfold ensure_session, sid.
    destruct (bool_decide (is_Some (conversation_sessions s !! session_id request)));
      reflexivity. }
  rewrite Hcreate. unfold get_session at 1. unfold gets. cbn beta.
  fold (stored_history (ensure_session sid s) (session_id request)).
  fold sid. rewrite stored_ensure_session.
  pose proof (keeps_generate_response storyteller env (question request)
    (generate_image request) (generate_audio request) (language request)
    (stored_history s sid) (ensure_session sid s)) as Hkeep.
  destruct (generate_response _ _ _ _ _ _ _ (ensure_session sid s)) as [[result|e] s2];
    cbn [snd] in Hkeep; [|reflexivity].
  unfold append_message, get_session, set_session, gets, modify, mbind, M_bind,
    mret, M_ret, trim_history.
  cbn beta. cbn [conversation_sessions disk].
  rewrite !lookup_insert_eq. cbn [default from_option id].
  rewrite Hkeep. fold (stored_history (ensure_session sid s) sid).
  rewrite stored_ensure_session, <- !app_assoc. cbn [app].
  rewrite !insert_insert_eq, insert_ensure_session. reflexivity.
Qed.

Lemma generate_response_raise self env question gi ga language history s e s' :
  generate_response self env question gi ga language history s = (Raise e, s') ->
  semantic_search env question 5 = Raise e /\ s' = s.
Proof.
  intros Hrun. destruct (semantic_search env question 5) as [results|e0] eqn:Hsearch.
  - destruct (generate_response_cases self env question gi ga language history results s
                Hsearch) as (g & i & a & s1 & s2 & _ & _ & _ & Hret).
    rewrite Hret in Hrun. discriminate Hrun.
  - unfold generate_response, mbind, M_bind, call in Hrun. rewrite Hsearch in Hrun.
    injection Hrun as <- <-. split; reflexivity.
Qed.

(** X21. When a chat request is answered and when it fails: without a
    knowledge base it fails with status 500, the 503 of the handler being
    caught and wrapped; with one it fails, again with 500, exactly when the
    search raises; otherwise it is answered. *)
Theorem chat_outcome storyteller env request base_url s :
  if processor_initialized env then
    match semantic_search env (question request) 5 with
    | Ret _ => exists response s', chat storyteller env request base_url s
                                   = (Ret response, s')
    | Raise e => exists s', chat storyteller env request base_url s
                            = (Raise (HTTPException 500 (exn_str e)), s')
    end
  else
    chat storyteller env request base_url s
    = (Raise (HTTPException 500
         (http_exception_str 503 (py "Knowledge base not initialized. Please add PDF files."))),
       s).
Proof.
  destruct (processor_initialized env) eqn:Hready.
  - rewrite (chat_run storyteller env request base_url s Hready).
    destruct (semantic_search env (question request) 5) as [results|e] eqn:Hsearch.
    + destruct (generate_response_cases storyteller env (question request)
                  (generate_image request) (generate_audio request) (language request)
                  (stored_history s (session_id request)) results
                  (ensure_session (session_id request) s) Hsearch)
        as (g & i & a & s1 & s2 & _ & _ & _ & Hret).
      rewrite Hret. eauto.
    + unfold generate_response, mbind, M_bind, call. rewrite Hsearch. eauto.
  - unfold chat, try_except. rewrite Hready. reflexivity.
Qed.

(** X22. A chat request that fails fails with status 500, leaves every
    stored history as it was and writes no file. *)
Theorem chat_failure_changes_nothing storyteller env request base_url s e s' :
  chat storyteller env request base_url s = (Raise e, s') ->
  (exists detail, e = HTTPException 500 detail)
  /\ (forall sid, stored_history s' sid = stored_history s sid)
  /\ disk s' = disk s.
Proof.
  destruct (processor_initialized env) eqn:Hready.
  - rewrite (chat_run storyteller env request base_url s Hready).
    destruct (generate_response _ _ _ _ _ _ _ _) as [[result|cause] s2] eqn:Hrun;
      [discriminate|].
    intros H. injection H as <- <-.
    apply generate_response_raise in Hrun as [_ ->].
    split; [eauto|]. split.
    + intros sid. apply stored_ensure_session.
    + unfold ensure_session. destruct (bool_decide _); reflexivity.
  - unfold chat, try_except. rewrite Hready. cbn [negb raise].
    intros H. injection H as <- <-. split; [eauto|]. split; reflexivity.
Qed.

(** X23. A chat request reads and writes the history of its own session
    only. *)
Theorem chat_touches_one_session storyteller env request base_url s sid :
  sid <> session_id request ->
  stored_history (snd (chat storyteller env request base_url s)) sid = stored_history s sid.
Proof.
  intros Hne. destruct (processor_initialized env) eqn:Hready.
  - rewrite (chat_run storyteller env request base_url s Hready).
    pose proof (keeps_generate_response storyteller env (question request)
      (generate_image request) (generate_audio request) (language request)
      (stored_history s (session_id request)) (ensure_session (session_id request) s))
      as Hkeep.
    destruct (generate_response _ _ _ _ _ _ _ _) as [[result|cause] s2]; cbn [snd] in *.
    + unfold stored_history. cbn [conversation_sessions].
      rewrite lookup_insert_ne by congruence. reflexivity.
    + unfold stored_history at 1. rewrite Hkeep.
      apply stored_ensure_session.
  - unfold chat, try_except. rewrite Hready. reflexivity.
Qed.

(** X24. The history sent back is the history stored: with a positive
    [MAX_CONVERSATION_HISTORY] it ends with the question and the answer of
    this turn and holds at most twice that many messages. *)
Theorem chat_response_history storyteller env request base_url s response s' :
  (0 < MAX_CONVERSATION_HISTORY)%Z ->
  chat storyteller env request base_url s = (Ret response, s') ->
  resp_conversation_history response = stored_history s' (session_id request)
  /\ (exists older,
        resp_conversation_history response
        = older ++ [ {| role := py "user"; content := question request |};
                     {| role := py "assistant"; content := resp_answer response |} ])
  /\ (Z.of_nat (length (resp_conversation_history response))
      <= 2 * MAX_CONVERSATION_HISTORY)%Z.
Proof.
  intros Hpos. destruct (processor_initialized env) eqn:Hready.
  2:{ unfold chat, try_except. rewrite Hready. discriminate. }
  rewrite (chat_run storyteller env request base_url s Hready).
  destruct (generate_response _ _ _ _ _ _ _ _) as [[result|cause] s2]; [|discriminate].
  intros H. apply run_eq_inv in H as [<- <-].
  cbn [resp_conversation_history resp_answer].
  unfold trim_history. rewrite (trim_keep_last _ Hpos).
  set (full := stored_history s (session_id request) ++ _).
  split; [|split].
  - unfold stored_history. cbn [conversation_sessions].
    rewrite lookup_insert_eq. reflexivity.
  - unfold keep_last, full.
    assert (Hcap : 2 <= session_cap) by (unfold session_cap; lia).
    rewrite drop_app_le by (rewrite length_app in *; cbn [length] in *; lia).
    eexists. reflexivity.
  - rewrite length_keep_last. unfold session_cap. lia.
Qed.

Lemma media_urls_start_with_slash (digest : str) :
  startswith (image_url_of digest) (py "/") = true
  /\ startswith (audio_url_of digest) (py "/") = true.
Proof. split; reflexivity. Qed.

(** X25. A media URL of a chat response is the base URL of the request,
    without the slashes at its end, followed by the relative URL of a stored
    file: [/static/images/<digest>.png] or [/static/audio/<digest>.mp3]. *)
Theorem chat_media_urls_are_absolute storyteller env request base_url s response s' :
  chat storyteller env request base_url s = (Ret response, s') ->
  let base := rstrip_by (fun c => (c =? 47)%N) base_url in
  last base <> Some 47%N
  /\ (forall url, resp_image_url response = Some url ->
        exists digest, url = base ++ image_url_of digest
                       /\ is_Some (disk s' !! path_join IMAGES_DIR (digest ++ py ".png")))
  /\ (forall url, resp_audio_url response = Some url ->
        exists digest, url = base ++ audio_url_of digest
                       /\ is_Some (disk s' !! path_join AUDIO_DIR (digest ++ py ".mp3"))).
Proof.
  destruct (processor_initialized env) eqn:Hready.
  2:{ unfold chat, try_except. rewrite Hready. discriminate. }
  rewrite (chat_run storyteller env request base_url s Hready).
  destruct (generate_response _ _ _ _ _ _ _ _) as [[result|cause] s2] eqn:Hrun;
    [|discriminate].
  intros H base. apply run_eq_inv in H as [<- <-].
  cbn [resp_image_url resp_audio_url disk]. fold base.
  assert (Hbase : last base <> Some 47%N).
  { intros Hlast. apply rstrip_by_last in Hlast. discriminate Hlast. }
  split; [exact Hbase|].
  destruct (semantic_search env (question request) 5) as [results|e] eqn:Hsearch.
  2:{ unfold generate_response, mbind, M_bind, call in Hrun. rewrite Hsearch in Hrun.
      discriminate Hrun. }
  destruct (generate_response_cases storyteller env (question request)
              (generate_image request) (generate_audio request) (language request)
              (stored_history s (session_id request)) results
              (ensure_session (session_id request) s) Hsearch)
    as (g & i & a & s1 & s2' & _ & Himg & Haud & Hret).
  rewrite Hrun in Hret. apply run_eq_inv in Hret as [-> ->].
  cbn [image_url audio_url].
  assert (Hkeep : forall path, is_Some (disk s1 !! path) -> is_Some (disk s2' !! path)).
  { intros path Hin. destruct (generate_audio request && AUDIO_ENABLED);
      [|destruct Haud as [_ ->]; exact Hin].
    destruct (audio_task_cases env g (language request) s1)
      as [Hnone | (enc & resp & _ & _ & Hsome)].
    - rewrite Hnone in Haud. apply run_eq_inv in Haud as [_ <-]. exact Hin.
    - rewrite Hsome in Haud. apply run_eq_inv in Haud as [_ <-]. cbn [disk].
      destruct (decide (path_join AUDIO_DIR (md5_hexdigest enc ++ py ".mp3") = path))
        as [<-|Hne].
      + rewrite lookup_insert_eq. eauto.
      + rewrite lookup_insert_ne by exact Hne. exact Hin. }
  split.
  - intros url Hurl.
    destruct (generate_image request && IMAGE_GENERATION_ENABLED);
      [|destruct Himg as [-> _]; discriminate].
    destruct (image_task_cases env (question request) g
                (ensure_session (session_id request) s)) as [Hnone | (resp & _ & _ & Hsome)].
    + rewrite Hnone in Himg. apply run_eq_inv in Himg as [<- _]. discriminate Hurl.
    + rewrite Hsome in Himg. apply run_eq_inv in Himg as [<- <-].
      cbn [normalize_url] in Hurl.
      rewrite (proj1 (media_urls_start_with_slash _)) in Hurl.
      apply Some_inj in Hurl as <-.
      eexists. split; [reflexivity|]. apply Hkeep. cbn [disk].
      rewrite lookup_insert_eq. eauto.
  - intros url Hurl.
    destruct (generate_audio request && AUDIO_ENABLED);
      [|destruct Haud as [-> _]; discriminate].
    destruct (audio_task_cases env g (language request) s1)
      as [Hnone | (enc & resp & _ & _ & Hsome)].
    + rewrite Hnone in Haud. apply run_eq_inv in Haud as [<- _]. discriminate Hurl.
    + rewrite Hsome in Haud. apply run_eq_inv in Haud as [<- <-].
      cbn [normalize_url] in Hurl.
      rewrite (proj2 (media_urls_start_with_slash _)) in Hurl.
      apply Some_inj in Hurl as <-.
      eexists. split; [reflexivity|]. cbn [disk]. rewrite lookup_insert_eq. eauto.
Qed.

End MoreChat.


(** ** The transcription endpoint *)

Section MoreEndpoint.
Context {rt : PyRuntime}.

Lemma transcribe_audio_keeps_state self env audio_path s :
  exists outcome, transcribe_audio self env audio_path s = (outcome, s).
Proof.
  unfold transcribe_audio, try_except, mbind, M_bind, gets, call, raise, mret, M_ret.
  cbn beta.
  repeat match goal with
         | |- context [whisper_model ?self] => destruct (whisper_model self); cbn [negb]
         | |- context [bool_decide (is_Some (disk ?s !! ?p))] =>
             destruct (bool_decide (is_Some (disk s !! p))); cbn [negb]
         | |- context [(Z.of_nat ?n <? 1000)%Z] => destruct (Z.of_nat n <? 1000)%Z
         | |- context [which_ffmpeg ?env] => destruct (which_ffmpeg env)
         | |- context [whisper_transcribe ?env ?p] => destruct (whisper_transcribe env p)
         | |- context [negb (truthy ?t)] => destruct (negb (truthy t))
         | |- context [str_in (py "ffmpeg") ?m || str_in (py "av") ?m] =>
             destruct (str_in (py "ffmpeg") m || str_in (py "av") m)
         end; eauto.
Qed.

(** The endpoint once the upload is saved under [name]. *)
Lemma transcribe_endpoint_run storyteller env os audio s name (content : bytes) :
  named_temporary_file os (upload_suffix os audio) = Ret name ->
  upload_read audio = Ret content ->
  name <> [] ->
  let saved := {| conversation_sessions := conversation_sessions s;
                  disk := <[name := content]> (disk s) |} in
  transcribe_endpoint storyteller env os audio s
  = (match fst (transcribe_audio storyteller env name saved) with
     | Ret heard => Ret {| resp_text := heard |}
     | Raise e => Raise (HTTPException 500 (py "Transcription failed: " ++ exn_str e))
     end,
     {| conversation_sessions := conversation_sessions s;
        disk := match unlink os name with
                | Ret _ => delete name (disk s)
                | Raise _ => <[name := content]> (disk s)
                end |}).
Proof.
  intros Hname Hread Hnonempty saved.
  assert (Hsave : save_upload os audio s = (Ret name, saved)).
  { unfold save_upload, set_file, modify, mbind, M_bind, call, mret, M_ret.
    rewrite Hname, Hread. cbn [conversation_sessions disk].
    unfold saved. rewrite insert_insert_eq. reflexivity. }
  unfold transcribe_endpoint. rewrite Hsave.
  unfold try_finally, try_except, mbind, M_bind, call, path_exists, gets, raise, mret, M_ret.
  cbn beta.
  assert (Hthere : disk saved !! name = Some content)
    by (unfold saved; cbn [disk]; apply lookup_insert_eq).
  rewrite Hthere, bool_decide_eq_true_2 by eauto. cbn [negb].
  destruct (transcribe_audio_keeps_state storyteller env name saved) as (outcome & Hrun).
  rewrite Hrun. cbn [fst].
  assert (Hremove :
    remove_upload os (Some name)
      saved = (Ret (), {| conversation_sessions := conversation_sessions s;
                          disk := match unlink os name with
                                  | Ret _ => delete name (disk s)
                                  | Raise _ => <[name := content]> (disk s)
                                  end |})).
  { unfold remove_upload, path_exists, try_except, remove_file, modify, gets, mbind, M_bind,
      call, mret, M_ret. cbn beta.
    rewrite Hthere, bool_decide_eq_true_2 by eauto.
    destruct name as [|c name']; [contradiction|]. cbn [truthy andb].
    destruct (unlink os (c :: name')) as [[]|e]; [|reflexivity].
    unfold saved. cbn [conversation_sessions disk]. rewrite delete_insert_eq. reflexivity. }
  destruct outcome as [heard|e]; rewrite Hremove; reflexivity.
Qed.

(** X26. Once the upload is saved the endpoint answers what
    [transcribe_audio] answers on the saved file; an exception becomes status
    500 with "Transcription failed: " before its text. *)
Theorem transcribe_endpoint_answer storyteller env os audio s name (content : bytes) :
  named_temporary_file os (upload_suffix os audio) = Ret name ->
  upload_read audio = Ret content ->
  name <> [] ->
  fst (transcribe_endpoint storyteller env os audio s)
  = match fst (transcribe_audio storyteller env name
                 {| conversation_sessions := conversation_sessions s;
                    disk := <[name := content]> (disk s) |}) with
    | Ret heard => Ret {| resp_text := heard |}
    | Raise e => Raise (HTTPException 500 (py "Transcription failed: " ++ exn_str e))
    end.
Proof.
  intros Hname Hread Hnonempty.
  rewrite (transcribe_endpoint_run storyteller env os audio s name content Hname Hread
             Hnonempty).
  reflexivity.
Qed.

(** X27. The temporary file does not outlive the request: when the upload
    was saved under a fresh name and the file can be removed, the state after
    the request is the state before it, whether the request was answered or
    failed. *)
Theorem transcribe_endpoint_cleans_up storyteller env os audio s name (content : bytes) :
  named_temporary_file os (upload_suffix os audio) = Ret name ->
  upload_read audio = Ret content ->
  name <> [] ->
  unlink os name = Ret tt ->
  disk s !! name = None ->
  snd (transcribe_endpoint storyteller env os audio s) = s.
Proof.
  intros Hname Hread Hnonempty Hunlink Hfresh.
  rewrite (transcribe_endpoint_run storyteller env os audio s name content Hname Hread
             Hnonempty).
  cbn [snd]. rewrite Hunlink, delete_id by exact Hfresh. destruct s; reflexivity.
Qed.

(** X28. Every failure of the endpoint is an [HTTPException] of status 500
    whose detail starts with "Transcription failed: ". *)
Theorem transcribe_endpoint_errors storyteller env os audio s e :
  fst (transcribe_endpoint storyteller env os audio s) = Raise e ->
  exists cause, e = HTTPException 500 (py "Transcription failed: " ++ cause).
Proof.
  unfold transcribe_endpoint.
  destruct (save_upload os audio s) as [[name|cause] s1].
  - unfold try_finally, try_except, mbind, M_bind, call, path_exists, gets, raise,
      mret, M_ret. cbn beta.
    destruct (bool_decide (is_Some (disk s1 !! name))); cbn [negb].
    + destruct (transcribe_audio_keeps_state storyteller env name s1) as (outcome & Hrun).
      rewrite Hrun.
      destruct outcome as [heard|cause];
        destruct (remove_upload os (Some name) s1) as [[[]|e'] s3] eqn:Hremove;
        cbn [fst]; intros H; try discriminate H.
      * exfalso. revert Hremove.
        unfold remove_upload, path_exists, try_except, remove_file, modify, gets, mbind,
          M_bind, call, mret, M_ret. cbn beta.
        destruct (truthy name && bool_decide _); [|discriminate].
        destruct (unlink os name) as [[]|?]; discriminate.
      * injection H as <-. eauto.
      * exfalso. revert Hremove.
        unfold remove_upload, path_exists, try_except, remove_file, modify, gets, mbind,
          M_bind, call, mret, M_ret. cbn beta.
        destruct (truthy name && bool_decide _); [|discriminate].
        destruct (unlink os name) as [[]|?]; discriminate.
    + unfold remove_upload, path_exists, try_except, remove_file, modify, gets, mbind,
        M_bind, call, mret, M_ret. cbn beta.
      destruct (truthy name && bool_decide _);
        [destruct (unlink os name) as [[]|?]|]; cbn [fst]; intros H; injection H as <-; eauto.
  - unfold try_finally, try_except, mbind, M_bind, call, raise, remove_upload, mret, M_ret.
    cbn [fst]. intros H. injection H as <-. eauto.
Qed.

(** X29. With the speech model loaded, an upload of fewer than 1000 bytes
    that was saved to a temporary file is answered, not refused: the response
    carries the sentence about a recording too short. *)
Theorem transcribe_endpoint_short_upload storyteller env os audio s name (content : bytes) :
  whisper_model storyteller = true ->
  named_temporary_file os (upload_suffix os audio) = Ret name ->
  upload_read audio = Ret content ->
  name <> [] ->
  length content < 1000 ->
  fst (transcribe_endpoint storyteller env os audio s)
  = Ret {| resp_text := py "Recording too short or empty. Please speak clearly for at least 1-2 seconds." |}.
Proof.
  intros Hmodel Hname Hread Hnonempty Hshort.
  rewrite (transcribe_endpoint_run storyteller env os audio s name content Hname Hread
             Hnonempty).
  cbn [fst].
  rewrite (too_short_recording_guidance_run storyteller env name _ content Hmodel);
    [reflexivity | apply lookup_insert_eq | exact Hshort].
Qed.

(** X30. When reading the upload raises, the request fails with status 500
    and the temporary file, created empty before the read, stays on disk:
    [temp_path] was not yet set when the [finally] block ran. *)
Theorem transcribe_endpoint_leaves_file storyteller env os audio s name e :
  named_temporary_file os (upload_suffix os audio) = Ret name ->
  upload_read audio = Raise e ->
  transcribe_endpoint storyteller env os audio s
  = (Raise (HTTPException 500 (py "Transcription failed: " ++ exn_str e)),
     {| conversation_sessions := conversation_sessions s;
        disk := <[name := []]> (disk s) |}).
Proof.
  intros Hname Hread. unfold transcribe_endpoint.
  assert (Hsave : save_upload os audio s
                  = (Raise e, {| conversation_sessions := conversation_sessions s;
                                 disk := <[name := []]> (disk s) |})).
  { unfold save_upload, set_file, modify, mbind, M_bind, call, mret, M_ret.
    rewrite Hname, Hread. reflexivity. }
  rewrite Hsave. reflexivity.
Qed.

End MoreEndpoint.

(* ================================================================= *)
(** ** Requests that overlap *)











Section Overlapping.
Context {rt : PyRuntime} {cfg : Config}.

Lemma coherent_ext owner (r r' : Run) :
  session_object (server r') = session_object (server r) ->
  objects (server r') = objects (server r) ->
  suspended r' = suspended r ->
  answered r' = answered r ->
  coherent owner r -> coherent owner r'.
Proof.
  intros Hs Ho Hf Ha [H1 H2 H3 H4 H5 H6].
  constructor; rewrite ?Hs, ?Ho, ?Hf, ?Ha; assumption.
Qed.


Lemma object_append_at (sv : Server) (a : nat) (msg : Message) :
  a < length (objects sv) -> object_at (append_at a msg sv) a = object_at sv a ++ [msg].
Proof.
  intros Hvalid. unfold object_at at 1. unfold append_at. cbn [objects].
  rewrite list_lookup_insert_eq by exact Hvalid. reflexivity.
Qed.

Lemma append_at_twice (sv : Server) (a : nat) (u v : Message) :
  a < length (objects sv) ->
  append_at a v (append_at a u sv)
  = {| session_object := session_object sv;
       objects := <[a := object_at sv a ++ [u; v]]> (objects sv);
       files := files sv |}.
Proof.
  intros Hvalid. unfold append_at at 1.
  rewrite object_append_at by exact Hvalid.
  unfold append_at. cbn [objects session_object files].
  rewrite list_insert_insert_eq, <- app_assoc. reflexivity.
Qed.

(** The handler's second half in one piece. *)
Lemma chat_resumes_run (i : nat) (r : Run) (frame : Suspended) :
  suspended r !! i = Some frame ->
  sus_history frame < length (objects (server r)) ->
  let request := sus_request frame in
  let result := sus_result frame in
  let a := sus_history frame in
  let appended := object_at (server r) a ++ turn_pair request result in
  let trimmed := (Z.of_nat (length appended) >? MAX_CONVERSATION_HISTORY * 2)%Z in
  let history := if trimmed then slice_from (- MAX_CONVERSATION_HISTORY * 2) appended
                 else appended in
  let base_url := rstrip_by (fun c => (c =? 47)%N) (sus_base_url frame) in
  chat_resumes i r
  = {| server :=
         {| session_object :=
              <[session_id request := if trimmed then length (objects (server r)) else a]>
                (session_object (server r));
            objects := if trimmed then <[a := appended]> (objects (server r)) ++ [history]
                       else <[a := appended]> (objects (server r));
            files := files (server r) |};
       suspended := delete i (suspended r);
       answered := answered r
         ++ [(request,
              {| resp_answer := answer result;
                 resp_image_url := normalize_url base_url (image_url result);
                 resp_audio_url := normalize_url base_url (audio_url result);
                 resp_is_relevant := is_relevant result;
                 resp_sources := sources result;
                 resp_conversation_history := history |})];
       refused := refused r |}.
Proof.
  intros Hframe Hvalid request result a appended trimmed history base_url.
  unfold chat_resumes. rewrite Hframe. fold request result a.
  rewrite (append_at_twice (server r) a _ _ Hvalid).
  change (object_at (server r) a ++ [ {| role := py "user"; content := question request |};
                                      {| role := py "assistant"; content := answer result |} ])
    with appended.
  assert (Hat : object_at {| session_object := session_object (server r);
                             objects := <[a := appended]> (objects (server r));
                             files := files (server r) |} a = appended).
  { unfold object_at. cbn [objects]. rewrite list_lookup_insert_eq by exact Hvalid.
    reflexivity. }
  rewrite Hat. fold trimmed. subst history.
  destruct trimmed.
  - unfold allocate, bind_session. cbn [objects session_object files].
    rewrite length_insert. unfold object_at. cbn [objects].
    rewrite list_lookup_middle by (rewrite length_insert; reflexivity).
    reflexivity.
  - unfold bind_session. cbn [objects session_object files].
    unfold object_at. cbn [objects].
    rewrite list_lookup_insert_eq by exact Hvalid. reflexivity.
Qed.



(** Opening a session keeps the store coherent and binds the session. *)
Lemma coherent_open owner (r : Run) (sid : str) :
  coherent owner r ->
  exists owner',
    coherent owner' {| server := open_session sid (server r); suspended := suspended r;
                       answered := answered r; refused := refused r |}
    /\ is_Some (session_object (open_session sid (server r)) !! sid).
Proof.
  intros Hcoh. unfold open_session.
  destruct (session_object (server r) !! sid) as [a|] eqn:Hbound.
  - exists owner. split; [|rewrite Hbound; eauto].
    apply (coherent_ext owner r); try reflexivity. exact Hcoh.
  - destruct Hcoh as [Hlen Hbnd Hfr Hkn Hun Hobj].
    exists (owner ++ [sid]).
    unfold allocate, bind_session. cbn [objects session_object files].
    split; [|rewrite lookup_insert_eq; eauto].
    assert (Hfresh : forall a sid0, owner !! a = Some sid0 -> sid0 <> sid).
    { intros a sid0 Hown ->. destruct (Hkn a sid Hown) as [? Hsome].
      rewrite Hbound in Hsome. discriminate Hsome. }
    constructor; cbn [server suspended answered objects session_object].
    + rewrite !length_app, Hlen. reflexivity.
    + intros sid0 a. destruct (decide (sid0 = sid)) as [->|Hne].
      * rewrite lookup_insert_eq. intros H. injection H as <-.
        rewrite <- Hlen. apply list_lookup_middle. reflexivity.
      * rewrite lookup_insert_ne by congruence. intros H.
        apply lookup_app_l_Some, Hbnd, H.
    + intros frame Hin. apply lookup_app_l_Some, Hfr, Hin.
    + intros a sid0 Hown. apply lookup_snoc_Some in Hown as [[_ Hown]|[_ <-]].
      * rewrite lookup_insert_ne by (apply not_eq_sym, (Hfresh a), Hown).
        apply (Hkn a), Hown.
      * rewrite lookup_insert_eq. eauto.
    + intros sid0 Hnone. apply lookup_insert_None in Hnone as [Hnone _].
      apply Hun, Hnone.
    + intros a sid0 Hown. apply lookup_snoc_Some in Hown as [[Hlt Hown]|[Ha <-]].
      * destruct (Hobj a sid0 Hown) as (kept & Hsub & Hall & Hat & Hcount).
        exists kept. split; [exact Hsub|]. split; [exact Hall|]. split.
        { rewrite lookup_app_l by (rewrite <- Hlen; exact Hlt). exact Hat. }
        rewrite lookup_insert_ne by (apply not_eq_sym, (Hfresh a), Hown). exact Hcount.
      * exists []. split; [apply sublist_nil_l|]. split; [constructor|]. split.
        { subst a. rewrite Hlen. apply list_lookup_middle. reflexivity. }
        rewrite lookup_insert_eq, bool_decide_eq_true_2 by (rewrite Ha, Hlen; reflexivity).
        rewrite (Hun sid Hbound). reflexivity.
Qed.














(** The storyteller sees the same store and disk whether the session is
    opened on the server or in its view. *)
Lemma state_of_open owner (r : Run) (sid : str) :
  coherent owner r ->
  state_of (open_session sid (server r)) = ensure_session sid (state_of (server r))
  /\ object_at (open_session sid (server r))
       (default 0 (session_object (open_session sid (server r)) !! sid))
     = stored_history (state_of (server r)) sid.
Proof.
  intros [Hlen Hbnd Hfr Hkn Hun Hobj].
  unfold open_session, ensure_session, stored_history, state_of.
  cbn [conversation_sessions disk]. rewrite lookup_fmap.
  destruct (session_object (server r) !! sid) as [a|] eqn:Hbound;
    cbn [fmap option_fmap option_map default].
  - rewrite bool_decide_eq_true_2 by eauto. rewrite Hbound. split; reflexivity.
  - rewrite bool_decide_eq_false_2 by (intros [? H]; discriminate H).
    unfold allocate, bind_session. cbn [session_object objects files].
    rewrite lookup_insert_eq. cbn [default].
    assert (Hnew : object_at {| session_object := <[sid := length (objects (server r))]>
                                                     (session_object (server r));
                                objects := objects (server r) ++ [[]];
                                files := files (server r) |} (length (objects (server r)))
                   = []).
    { unfold object_at. cbn [objects]. rewrite list_lookup_middle by reflexivity.
      reflexivity. }
    split; [|exact Hnew].
    rewrite fmap_insert, Hnew. f_equal. f_equal.
    apply map_fmap_ext. intros sid0 a0 Hbound0. unfold object_at. cbn [objects].
    rewrite lookup_app_l; [reflexivity|].
    rewrite <- Hlen. apply (lookup_lt_Some _ _ _ (Hbnd sid0 a0 Hbound0)).
Qed.

(** A request that is resumed as soon as it is suspended, with no other
    request in between, is handled as the handler [chat] that runs in one
    piece handles it: same answer or same exception, same histories, same
    disk. *)
Lemma chat_runs_alone owner storyteller (t : Turn) (r : Run) :
  coherent owner r ->
  let request := turn_request t in
  let arrived := chat_arrives storyteller t r in
  match chat storyteller (turn_env t) request (turn_base_url t) (state_of (server r)) with
  | (Ret response, s') =>
      let ended := chat_resumes (length (suspended r)) arrived in
      answered ended = answered r ++ [(request, response)]
      /\ suspended ended = suspended r
      /\ (forall sid, stored_history (state_of (server ended)) sid = stored_history s' sid)
      /\ files (server ended) = disk s'
  | (Raise e, s') =>
      refused arrived = refused r ++ [(request, e)]
      /\ suspended arrived = suspended r
      /\ answered arrived = answered r
      /\ (forall sid, stored_history (state_of (server arrived)) sid = stored_history s' sid)
      /\ files (server arrived) = disk s'
  end.
Proof.
  intros Hcoh request arrived. subst arrived.
  destruct (processor_initialized (turn_env t)) eqn:Hready.
  2:{ unfold chat, try_except, chat_arrives. rewrite Hready. cbn [negb].
      unfold raise. cbv zeta. cbn [refused suspended answered server].
      repeat split; reflexivity. }
  rewrite (chat_run storyteller (turn_env t) request (turn_base_url t) _ Hready). cbv zeta.
  destruct (state_of_open owner r (session_id request) Hcoh) as [Hview Hheld].
  destruct (coherent_open owner r (session_id request) Hcoh)
    as (owner' & Hopen & [a Hbound]).
  unfold chat_arrives. rewrite Hready. cbn [negb]. cbv zeta. fold request.
  rewrite Hheld, Hview.
  destruct (generate_response storyteller (turn_env t) (question request)
              (generate_image request) (generate_audio request) (language request)
              (stored_history (state_of (server r)) (session_id request))
              (ensure_session (session_id request) (state_of (server r))))
    as [[result|e] s2] eqn:Hgen.
  - (* answered *)
    pose proof (keeps_generate_response storyteller (turn_env t) (question request)
                  (generate_image request) (generate_audio request) (language request)
                  (stored_history (state_of (server r)) (session_id request))
                  (ensure_session (session_id request) (state_of (server r)))) as Hkeeps.
    rewrite Hgen in Hkeeps. cbn [snd] in Hkeeps.
    set (sv := open_session (session_id request) (server r)) in *.
    set (frame := {| sus_request := request; sus_base_url := turn_base_url t;
                     sus_history := default 0 (session_object sv !! session_id request);
                     sus_result := result |}).
    destruct Hopen as [Hlen Hbnd Hfr Hkn Hun Hobj].
    cbn [server suspended answered] in Hlen, Hbnd, Hfr, Hkn, Hun, Hobj.
    assert (Hown : owner' !! a = Some (session_id request)) by (apply Hbnd, Hbound).
    assert (Hvalid : a < length (objects sv))
      by (rewrite <- Hlen; apply (lookup_lt_Some _ _ _ Hown)).
    rewrite (chat_resumes_run (length (suspended r)) _ frame);
      [|apply list_lookup_middle; reflexivity
       |cbn [server write_files objects frame sus_history]; rewrite Hbound; exact Hvalid].
    cbv zeta. cbn [server write_files objects session_object files suspended answered
                   frame sus_request sus_history sus_result sus_base_url].
    rewrite Hbound. cbn [default from_option id].
    assert (Hat : object_at (write_files (disk s2) sv) a
                  = stored_history (state_of (server r)) (session_id request)).
    { rewrite <- Hheld. fold sv. rewrite Hbound. reflexivity. }
    rewrite Hat. unfold turn_pair, trim_history.
    set (appended := stored_history (state_of (server r)) (session_id request)
                     ++ [ {| role := py "user"; content := question request |};
                          {| role := py "assistant"; content := answer result |} ]).
    split; [reflexivity|]. split; [rewrite (delete_middle (suspended r) [] frame); apply app_nil_r|].
    split; [|reflexivity].
    intros sid. unfold stored_history at 1 2. unfold state_of at 1.
    cbn [conversation_sessions session_object]. rewrite lookup_fmap.
    destruct (decide (sid = session_id request)) as [->|Hne].
    + rewrite !lookup_insert_eq. cbn [fmap option_fmap option_map default].
      destruct (_ >? _)%Z; unfold object_at; cbn [objects].
      * rewrite <- (length_insert (objects sv) a appended).
        rewrite list_lookup_middle by reflexivity. reflexivity.
      * rewrite list_lookup_insert_eq by exact Hvalid. reflexivity.
    + rewrite !lookup_insert_ne by congruence.
      assert (Hsame : stored_history (state_of sv) sid
                      = stored_history (state_of (server r)) sid).
      { rewrite Hview. apply stored_ensure_session. }
      unfold stored_history at 1, state_of at 1 in Hsame.
      cbn [conversation_sessions] in Hsame. rewrite lookup_fmap in Hsame.
      change (default [] (conversation_sessions (state_of (server r)) !! sid))
        with (stored_history (state_of (server r)) sid).
      rewrite <- Hsame. clear Hsame.
      destruct (session_object sv !! sid) as [a0|] eqn:Hbound0;
        cbn [fmap option_fmap option_map default]; [|reflexivity].
      assert (Hown0 : owner' !! a0 = Some sid) by (apply Hbnd, Hbound0).
      assert (Ha0 : a0 <> a) by (intros ->; congruence).
      assert (Hvalid0 : a0 < length (objects sv))
        by (rewrite <- Hlen; apply (lookup_lt_Some _ _ _ Hown0)).
      destruct (_ >? _)%Z; unfold object_at; cbn [objects].
      * rewrite lookup_app_l by (rewrite length_insert; exact Hvalid0).
        rewrite list_lookup_insert_ne by congruence. reflexivity.
      * rewrite list_lookup_insert_ne by congruence. reflexivity.
  - (* the search raised *)
    pose proof (keeps_generate_response storyteller (turn_env t) (question request)
                  (generate_image request) (generate_audio request) (language request)
                  (stored_history (state_of (server r)) (session_id request))
                  (ensure_session (session_id request) (state_of (server r)))) as Hkeeps.
    rewrite Hgen in Hkeeps. cbn [snd] in Hkeeps.
    cbn [refused suspended answered server write_files files].
    repeat split; try reflexivity.
    intros sid. unfold stored_history at 2. rewrite Hkeeps.
    rewrite <- Hview. reflexivity.
Qed.

End Overlapping.


(** In that schedule five turns of session a are answered and four messages
    are stored.  The turn about the Duchess was answered, after the one
    about the Queen, and is not in the store: the handler of the Cat held
    the list that was stored before the Duchess was answered, and the store
    was bound to its slice. *)
Example overlap_drops_an_answered_turn :
  let final := @run Demo.runtime DemoOverlap.config Demo.teller DemoOverlap.events
                 (start ∅) in
  map (fun turn : ChatRequest * ChatResponse => question turn.1)
      (List.filter (fun turn => str_eqb (session_id turn.1) (py "a")) (answered final))
  = [ py "Who is Alice?"; py "Who is the Hatter?"; py "Who is the Queen?";
      py "Who is the Duchess?"; py "Who is the Cat?" ]
  /\ map content (stored_history (state_of (server final)) (py "a"))
     = [ py "Who is the Queen?"; py "The Hatter poured tea for Alice!";
         py "Who is the Cat?"; py "The Hatter poured tea for Alice!" ].
Proof. split; vm_compute; reflexivity. Qed.

(* ================================================================= *)
(** ** The further properties at concrete inputs *)

Lemma fallback_message_default_witness :
  @_get_fallback_message Demo.config (py "ja") = @UNKNOWN_QUERY_RESPONSE Demo.config.
Proof.
  apply (@fallback_message_default Demo.config (py "ja")).
  refine (bool_decide_unpack _ _). vm_compute. exact I.
Defined.

Lemma generate_text_without_provider_witness :
  @_generate_text Demo.runtime DemoUpload.config_without_keys
    (@Storyteller_init DemoUpload.config_without_keys true) Demo.env
    (py "Who is Alice?") (py "Alice is a girl.") (py "en") [] Demo.empty_state
  = (Ret (py "Sorry, text generation is not available. Please configure LLM API key."),
     Demo.empty_state).
Proof.
  apply (@generate_text_without_provider Demo.runtime DemoUpload.config_without_keys);
    reflexivity.
Defined.

Lemma generate_text_is_stripped_witness :
  exists generated : str,
    @_generate_text Demo.runtime Demo.config Demo.teller Demo.env
      (py "Who is Alice?") (py "Alice is a girl.") (py "en") [] Demo.empty_state
    = (Ret generated, Demo.empty_state)
    /\ generated = strip_by Demo.ascii_isspace (py "  The Hatter poured tea for Alice! \n")
    /\ (forall c, head generated = Some c -> Demo.ascii_isspace c = false)
    /\ (forall c, last generated = Some c -> Demo.ascii_isspace c = false).
Proof.
  apply (@generate_text_is_stripped Demo.runtime Demo.config Demo.teller Demo.env
           (py "Who is Alice?") (py "Alice is a girl.") (py "en") []
           (py "  The Hatter poured tea for Alice! \n") Demo.empty_state).
  vm_compute. reflexivity.
Defined.

(** A text of emoji only: nothing is left to narrate. *)
Lemma generate_audio_short_circuits_witness :
  @_generate_audio Demo.runtime Demo.config Demo.env (py "😅✨") (py "en") Demo.empty_state
  = (Ret None, Demo.empty_state).
Proof.
  apply (@generate_audio_short_circuits Demo.runtime Demo.config).
  right. right. vm_compute. reflexivity.
Defined.

Lemma generate_audio_succeeds_witness :
  exists encoded,
    utf8_encode (@re_sub_clean Demo.runtime (py "Tea time! 😅")) = Some encoded
    /\ @_generate_audio Demo.runtime Demo.config Demo.env (py "Tea time! 😅") (py "fr")
         Demo.empty_state
       = (Ret (Some (audio_url_of (Demo.md5 encoded))),
          {| conversation_sessions := ∅;
             disk := <[@path_join (@AUDIO_DIR Demo.config) (Demo.md5 encoded ++ py ".mp3")
                       := [x49; x44; x33]]> ∅ |}).
Proof.
  assert (Henc : exists encoded,
            utf8_encode (@re_sub_clean Demo.runtime (py "Tea time! 😅")) = Some encoded).
  { vm_compute. eexists. reflexivity. }
  destruct Henc as [encoded Henc]. exists encoded. split; [exact Henc|].
  apply (@generate_audio_succeeds Demo.runtime Demo.config Demo.env (py "Tea time! 😅")
           (py "fr") Demo.empty_state encoded
           {| status := 200; body := [x49; x44; x33]; text := [] |}).
  - reflexivity.
  - reflexivity.
  - intros Hnil. vm_compute in Hnil. discriminate Hnil.
  - exact Henc.
  - reflexivity.
  - reflexivity.
  - reflexivity.
Defined.

Lemma generate_image_succeeds_witness :
  let prompt := @_create_image_prompt Demo.runtime
                  (py "Who follows the white rabbit?") (py "Alice does.") in
  let digest := @md5_hexdigest Demo.runtime (map byte_of_N prompt) in
  @_generate_image Demo.runtime Demo.config DemoUpload.env_all_well
    (py "Who follows the white rabbit?") (py "Alice does.") Demo.empty_state
  = (Ret (Some (image_url_of digest)),
     {| conversation_sessions := conversation_sessions Demo.empty_state;
        disk := <[@path_join (@IMAGES_DIR Demo.config) (digest ++ py ".png")
                  := [x89; x50; x4e; x47]]> (disk Demo.empty_state) |}).
Proof.
  exact (@generate_image_succeeds Demo.runtime Demo.config DemoUpload.env_all_well
           (py "Who follows the white rabbit?") (py "Alice does.") Demo.empty_state
           {| status := 200; body := [x89; x50; x4e; x47]; text := [] |}
           eq_refl eq_refl eq_refl eq_refl).
Defined.

(** No chunk was retrieved. *)
Lemma generate_response_fallback_witness :
  exists image audio s',
    @generate_response Demo.runtime Demo.config Demo.teller DemoUpload.env_without_index
      (py "What is the capital of France?") true true (py "es") [] Demo.empty_state
    = (Ret {| answer := @_get_fallback_message Demo.config (py "es"); image_url := image;
              audio_url := audio; is_relevant := false; sources := [] |}, s').
Proof.
  apply (@generate_response_fallback Demo.runtime Demo.config Demo.teller
           DemoUpload.env_without_index
           (py "What is the capital of France?") true true (py "es") [] []
           Demo.empty_state); reflexivity.
Defined.

Lemma generate_response_media_off_witness :
  exists generated,
    @generate_response Demo.runtime Demo.config Demo.teller Demo.env
      (py "What happened at the tea party?") false false (py "en") [] Demo.empty_state
    = (Ret {| answer := generated; image_url := None; audio_url := None;
              is_relevant := _is_relevant Demo.hits;
              sources := if _is_relevant Demo.hits
                         then map (@make_source Demo.runtime) Demo.hits else [] |},
       Demo.empty_state).
Proof.
  apply (@generate_response_media_off Demo.runtime Demo.config Demo.teller Demo.env
           (py "What happened at the tea party?") false false (py "en") [] Demo.hits
           Demo.empty_state); reflexivity.
Defined.

(** Both services answer 200: both URLs are returned and both files are
    on disk. *)
Lemma generate_response_urls_are_stored_witness :
  match @generate_response Demo.runtime Demo.config Demo.teller DemoUpload.env_all_well
          (py "Who follows the white rabbit?") true true (py "en") [] Demo.empty_state with
  | (Ret r, s') =>
      (is_Some (image_url r) /\ is_Some (audio_url r))
      /\ (forall url, image_url r = Some url ->
            exists digest, url = image_url_of digest
              /\ is_Some (disk s' !! @path_join (@IMAGES_DIR Demo.config) (digest ++ py ".png")))
      /\ (forall url, audio_url r = Some url ->
            exists digest, url = audio_url_of digest
              /\ is_Some (disk s' !! @path_join (@AUDIO_DIR Demo.config) (digest ++ py ".mp3")))
  | (Raise _, _) => False
  end.
Proof.
  assert (Hok : match fst (@generate_response Demo.runtime Demo.config Demo.teller
                             DemoUpload.env_all_well (py "Who follows the white rabbit?")
                             true true (py "en") [] Demo.empty_state) with
                | Ret r => match image_url r, audio_url r with
                           | Some _, Some _ => true
                           | _, _ => false
                           end
                | Raise _ => false
                end = true) by (vm_compute; reflexivity).
  destruct (@generate_response Demo.runtime Demo.config Demo.teller DemoUpload.env_all_well
              (py "Who follows the white rabbit?") true true (py "en") [] Demo.empty_state)
    as [[r|e] s'] eqn:Hrun; cbn [fst] in Hok.
  - split.
    + destruct (image_url r), (audio_url r); try discriminate Hok. split; eexists; reflexivity.
    + apply (@generate_response_urls_are_stored Demo.runtime Demo.config Demo.teller
               DemoUpload.env_all_well (py "Who follows the white rabbit?") true true
               (py "en") [] Demo.hits r Demo.empty_state s' eq_refl Hrun).
  - discriminate Hok.
Defined.

Lemma generate_response_sources_witness :
  match @generate_response Demo.runtime Demo.config Demo.teller Demo.env
          (py "What happened at the tea party?") true true (py "en") [] Demo.empty_state with
  | (Ret r, s') =>
      is_relevant r = _is_relevant Demo.hits
      /\ map src_source (sources r)
         = (if _is_relevant Demo.hits
            then map (fun hit : Hit => source (snd (fst hit))) Demo.hits else [])
      /\ Forall (fun src => length (src_text src) <= 203) (sources r)
  | (Raise _, _) => False
  end.
Proof.
  assert (Hok : match fst (@generate_response Demo.runtime Demo.config Demo.teller Demo.env
                             (py "What happened at the tea party?") true true (py "en") []
                             Demo.empty_state) with
                | Ret _ => true
                | Raise _ => false
                end = true) by (vm_compute; reflexivity).
  destruct (@generate_response Demo.runtime Demo.config Demo.teller Demo.env
              (py "What happened at the tea party?") true true (py "en") [] Demo.empty_state)
    as [[r|e] s'] eqn:Hrun; cbn [fst] in Hok.
  - apply (@generate_response_sources Demo.runtime Demo.config Demo.teller Demo.env
             (py "What happened at the tea party?") true true (py "en") [] Demo.hits r
             Demo.empty_state s' eq_refl Hrun).
  - discriminate Hok.
Defined.

Lemma transcribe_audio_errors_witness :
  Exception (py "Whisper model not initialized")
    = Exception (py "Whisper model not initialized")
  \/ Exception (py "Whisper model not initialized")
     = Exception (py "FFmpeg not found. Please install FFmpeg to use audio transcription. Download from: https://ffmpeg.org/download.html")
  \/ exists cause,
       Exception (py "Whisper model not initialized")
       = Exception (py "Transcription failed: " ++ cause).
Proof.
  apply (@transcribe_audio_errors Demo.runtime Demo.teller_without_whisper Demo.env
           Demo.upload_path Demo.short_recording).
  reflexivity.
Defined.

(** The file that is missing is a .wav: its report contains "av". *)
Lemma transcribe_audio_missing_file_witness :
  @transcribe_audio Demo.runtime Demo.teller Demo.env (py "/tmp/take1.wav") Demo.empty_state
  = (Raise (Exception (py "FFmpeg not found. Please install FFmpeg to use audio transcription. Download from: https://ffmpeg.org/download.html")),
     Demo.empty_state)
  /\ @transcribe_audio Demo.runtime Demo.teller Demo.env (py "/tmp/take1.ogg") Demo.empty_state
     = (Raise (Exception (py "Transcription failed: Audio file not found: /tmp/take1.ogg")),
        Demo.empty_state).
Proof.
  split.
  - rewrite (@transcribe_audio_missing_file Demo.runtime Demo.teller Demo.env
               (py "/tmp/take1.wav") Demo.empty_state); [|reflexivity|reflexivity].
    vm_compute. reflexivity.
  - rewrite (@transcribe_audio_missing_file Demo.runtime Demo.teller Demo.env
               (py "/tmp/take1.ogg") Demo.empty_state); [|reflexivity|reflexivity].
    vm_compute. reflexivity.
Defined.

Lemma transcribe_audio_hears_witness :
  @transcribe_audio Demo.runtime Demo.teller
    (DemoUpload.env_hearing (Ret (py " down the rabbit hole \n")))
    Demo.upload_path DemoUpload.long_recording
  = (Ret (if truthy (strip_by Demo.ascii_isspace (py " down the rabbit hole \n"))
          then strip_by Demo.ascii_isspace (py " down the rabbit hole \n")
          else py "Sorry, I couldn't hear anything clearly. Please speak louder and try again."),
     DemoUpload.long_recording).
Proof.
  apply (@transcribe_audio_hears Demo.runtime Demo.teller
           (DemoUpload.env_hearing (Ret (py " down the rabbit hole \n")))
           Demo.upload_path DemoUpload.long_recording (replicate 1500 x00)
           (py "/usr/bin/ffmpeg")).
  - reflexivity.
  - vm_compute. reflexivity.
  - rewrite length_replicate. lia.
  - reflexivity.
  - reflexivity.
Defined.

Lemma transcribe_audio_without_decoder_witness :
  @transcribe_audio Demo.runtime Demo.teller Demo.env Demo.upload_path
    DemoUpload.long_recording
  = (Raise (Exception (py "FFmpeg not found. Please install FFmpeg to use audio transcription. Download from: https://ffmpeg.org/download.html")),
     DemoUpload.long_recording).
Proof.
  apply (@transcribe_audio_without_decoder Demo.runtime Demo.teller Demo.env
           Demo.upload_path DemoUpload.long_recording (replicate 1500 x00)).
  - reflexivity.
  - vm_compute. reflexivity.
  - rewrite length_replicate. lia.
  - reflexivity.
  - vm_compute. reflexivity.
Defined.

Lemma chat_failure_changes_nothing_witness :
  match @chat Demo.runtime Demo.config Demo.teller DemoUpload.env_search_down
          DemoUpload.request (py "http://localhost:8000/") Demo.short_recording with
  | (Raise e, s') =>
      (exists detail, e = HTTPException 500 detail)
      /\ (forall sid, stored_history s' sid = stored_history Demo.short_recording sid)
      /\ disk s' = disk Demo.short_recording
  | (Ret _, _) => False
  end.
Proof.
  assert (Hok : match fst (@chat Demo.runtime Demo.config Demo.teller
                             DemoUpload.env_search_down DemoUpload.request
                             (py "http://localhost:8000/") Demo.short_recording) with
                | Ret _ => false
                | Raise _ => true
                end = true) by (vm_compute; reflexivity).
  destruct (@chat Demo.runtime Demo.config Demo.teller DemoUpload.env_search_down
              DemoUpload.request (py "http://localhost:8000/") Demo.short_recording)
    as [[r|e] s'] eqn:Hrun; cbn [fst] in Hok.
  - discriminate Hok.
  - apply (@chat_failure_changes_nothing Demo.runtime Demo.config Demo.teller
             DemoUpload.env_search_down DemoUpload.request (py "http://localhost:8000/")
             Demo.short_recording e s' Hrun).
Defined.

Lemma chat_touches_one_session_witness :
  stored_history
    (snd (@chat Demo.runtime Demo.config Demo.teller DemoUpload.env_all_well
            DemoUpload.request (py "http://localhost:8000/")
            (snd (@serve Demo.runtime Demo.config Demo.teller Demo.four_turns
                    Demo.empty_state)))) (py "b")
  = stored_history
      (snd (@serve Demo.runtime Demo.config Demo.teller Demo.four_turns Demo.empty_state))
      (py "b").
Proof.
  apply (@chat_touches_one_session Demo.runtime Demo.config Demo.teller
           DemoUpload.env_all_well DemoUpload.request (py "http://localhost:8000/")
           (snd (@serve Demo.runtime Demo.config Demo.teller Demo.four_turns
                   Demo.empty_state)) (py "b")).
  intros Heq. vm_compute in Heq. discriminate Heq.
Defined.

Lemma chat_response_history_witness :
  match @chat Demo.runtime (Demo.config_with (py "gemini") 1) Demo.teller
          DemoUpload.env_all_well DemoUpload.request (py "http://localhost:8000/")
          (snd (@serve Demo.runtime (Demo.config_with (py "gemini") 1) Demo.teller
                  Demo.four_turns Demo.empty_state)) with
  | (Ret response, s') =>
      resp_conversation_history response = stored_history s' (session_id DemoUpload.request)
      /\ (exists older,
            resp_conversation_history response
            = older ++ [ {| role := py "user"; content := question DemoUpload.request |};
                         {| role := py "assistant"; content := resp_answer response |} ])
      /\ (Z.of_nat (length (resp_conversation_history response))
          <= 2 * @MAX_CONVERSATION_HISTORY (Demo.config_with (py "gemini") 1))%Z
  | (Raise _, _) => False
  end.
Proof.
  assert (Hok : match fst (@chat Demo.runtime (Demo.config_with (py "gemini") 1) Demo.teller
                             DemoUpload.env_all_well DemoUpload.request
                             (py "http://localhost:8000/")
                             (snd (@serve Demo.runtime (Demo.config_with (py "gemini") 1)
                                     Demo.teller Demo.four_turns Demo.empty_state))) with
                | Ret _ => true
                | Raise _ => false
                end = true) by (vm_compute; reflexivity).
  destruct (@chat Demo.runtime (Demo.config_with (py "gemini") 1) Demo.teller
              DemoUpload.env_all_well DemoUpload.request (py "http://localhost:8000/")
              (snd (@serve Demo.runtime (Demo.config_with (py "gemini") 1) Demo.teller
                      Demo.four_turns Demo.empty_state)))
    as [[response|e] s'] eqn:Hrun; cbn [fst] in Hok.
  - apply (@chat_response_history Demo.runtime (Demo.config_with (py "gemini") 1)
             Demo.teller DemoUpload.env_all_well DemoUpload.request
             (py "http://localhost:8000/")
             (snd (@serve Demo.runtime (Demo.config_with (py "gemini") 1) Demo.teller
                     Demo.four_turns Demo.empty_state)) response s' eq_refl Hrun).
  - discriminate Hok.
Defined.

Lemma chat_media_urls_are_absolute_witness :
  match @chat Demo.runtime Demo.config Demo.teller DemoUpload.env_all_well
          DemoUpload.request (py "http://localhost:8000//") Demo.empty_state with
  | (Ret response, s') =>
      (is_Some (resp_image_url response) /\ is_Some (resp_audio_url response))
      /\ let base := rstrip_by (fun c => (c =? 47)%N) (py "http://localhost:8000//") in
         last base <> Some 47%N
         /\ (forall url, resp_image_url response = Some url ->
               exists digest, url = base ++ image_url_of digest
                 /\ is_Some (disk s' !! @path_join (@IMAGES_DIR Demo.config)
                                          (digest ++ py ".png")))
         /\ (forall url, resp_audio_url response = Some url ->
               exists digest, url = base ++ audio_url_of digest
                 /\ is_Some (disk s' !! @path_join (@AUDIO_DIR Demo.config)
                                          (digest ++ py ".mp3")))
  | (Raise _, _) => False
  end.
Proof.
  assert (Hok : match fst (@chat Demo.runtime Demo.config Demo.teller DemoUpload.env_all_well
                             DemoUpload.request (py "http://localhost:8000//")
                             Demo.empty_state) with
                | Ret response => match resp_image_url response, resp_audio_url response with
                                  | Some _, Some _ => true
                                  | _, _ => false
                                  end
                | Raise _ => false
                end = true) by (vm_compute; reflexivity).
  destruct (@chat Demo.runtime Demo.config Demo.teller DemoUpload.env_all_well
              DemoUpload.request (py "http://localhost:8000//") Demo.empty_state)
    as [[response|e] s'] eqn:Hrun; cbn [fst] in Hok.
  - split.
    + destruct (resp_image_url response), (resp_audio_url response); try discriminate Hok.
      split; eexists; reflexivity.
    + apply (@chat_media_urls_are_absolute Demo.runtime Demo.config Demo.teller
               DemoUpload.env_all_well DemoUpload.request (py "http://localhost:8000//")
               Demo.empty_state response s' Hrun).
  - discriminate Hok.
Defined.

Lemma transcribe_endpoint_answer_witness :
  fst (@transcribe_endpoint Demo.runtime Demo.teller DemoUpload.env_all_well DemoUpload.os
         (DemoUpload.recording 1500) Demo.empty_state)
  = match fst (@transcribe_audio Demo.runtime Demo.teller DemoUpload.env_all_well
                 (py "/tmp/tmpk3x9.wav")
                 {| conversation_sessions := ∅;
                    disk := <[py "/tmp/tmpk3x9.wav" := replicate 1500 x00]> ∅ |}) with
    | Ret heard => Ret {| resp_text := heard |}
    | Raise e => Raise (HTTPException 500
                          (py "Transcription failed: " ++ @exn_str Demo.runtime e))
    end.
Proof.
  apply (@transcribe_endpoint_answer Demo.runtime Demo.teller DemoUpload.env_all_well
           DemoUpload.os (DemoUpload.recording 1500) Demo.empty_state
           (py "/tmp/tmpk3x9.wav") (replicate 1500 x00)).
  - vm_compute. reflexivity.
  - reflexivity.
  - intros Hnil. vm_compute in Hnil. discriminate Hnil.
Defined.

Example transcribe_endpoint_hears :
  fst (@transcribe_endpoint Demo.runtime Demo.teller DemoUpload.env_all_well DemoUpload.os
         (DemoUpload.recording 1500) Demo.empty_state)
  = Ret {| resp_text := py "down the rabbit hole" |}.
Proof. vm_compute. reflexivity. Qed.

Lemma transcribe_endpoint_cleans_up_witness :
  snd (@transcribe_endpoint Demo.runtime Demo.teller Demo.env DemoUpload.os
         (DemoUpload.recording 1500) Demo.short_recording)
  = Demo.short_recording.
Proof.
  apply (@transcribe_endpoint_cleans_up Demo.runtime Demo.teller Demo.env DemoUpload.os
           (DemoUpload.recording 1500) Demo.short_recording
           (py "/tmp/tmpk3x9.wav") (replicate 1500 x00)).
  - vm_compute. reflexivity.
  - reflexivity.
  - intros Hnil. vm_compute in Hnil. discriminate Hnil.
  - reflexivity.
  - vm_compute. reflexivity.
Defined.

Lemma transcribe_endpoint_errors_witness :
  exists cause,
    HTTPException 500 (py "Transcription failed: FFmpeg not found. Please install FFmpeg to use audio transcription. Download from: https://ffmpeg.org/download.html")
    = HTTPException 500 (py "Transcription failed: " ++ cause).
Proof.
  apply (@transcribe_endpoint_errors Demo.runtime Demo.teller Demo.env DemoUpload.os
           (DemoUpload.recording 1500) Demo.empty_state).
  vm_compute. reflexivity.
Defined.

Lemma transcribe_endpoint_short_upload_witness :
  fst (@transcribe_endpoint Demo.runtime Demo.teller Demo.env DemoUpload.os
         (DemoUpload.recording 500) Demo.empty_state)
  = Ret {| resp_text := py "Recording too short or empty. Please speak clearly for at least 1-2 seconds." |}.
Proof.
  apply (@transcribe_endpoint_short_upload Demo.runtime Demo.teller Demo.env DemoUpload.os
           (DemoUpload.recording 500) Demo.empty_state
           (py "/tmp/tmpk3x9.wav") (replicate 500 x00)).
  - reflexivity.
  - vm_compute. reflexivity.
  - reflexivity.
  - intros Hnil. vm_compute in Hnil. discriminate Hnil.
  - rewrite length_replicate. lia.
Defined.

Lemma transcribe_endpoint_leaves_file_witness :
  @transcribe_endpoint Demo.runtime Demo.teller Demo.env DemoUpload.os
    DemoUpload.broken_upload Demo.empty_state
  = (Raise (HTTPException 500 (py "Transcription failed: " ++ py "client disconnected")),
     {| conversation_sessions := ∅; disk := <[py "/tmp/tmpk3x9.webm" := []]> ∅ |}).
Proof.
  apply (@transcribe_endpoint_leaves_file Demo.runtime Demo.teller Demo.env DemoUpload.os
           DemoUpload.broken_upload Demo.empty_state (py "/tmp/tmpk3x9.webm")
           (Exception (py "client disconnected"))).
  - vm_compute. reflexivity.
  - reflexivity.
Defined.
